(** * Elysia essay corrector: the analysis pipeline and its retrieval subsystem

    A shallow embedding of [app/database/rag_manager.py],
    [app/database/repositories.py], [app/utils/ia_agent.py] and of
    [processar_redacao_async] in [app/api/main.py].

    Python code that reads or writes the document store, calls OpenAI or
    raises is embedded in a state-and-exception monad [M] over a [World];
    numpy's float64 vectors are lists of primitive binary64 floats.  A
    Python [str] is a [string], one [ascii] for each of its characters, so
    that [len] is [String.length] and [s[:n]] is [substring 0 n s]. *)

From Stdlib Require Import List String Ascii ZArith NArith Bool Lia.
From Stdlib Require Import Floats Sorted Permutation.
Import ListNotations.

Set Warnings "-register-all,-abstract-large-number,-inexact-float".

Local Open Scope string_scope.
Local Open Scope list_scope.

(** ** Python values and exceptions *)

Module Py.

(** The exceptions the embedded code can meet.  All of them derive from
    [Exception], so every [except Exception] clause catches each of them. *)
Inductive exn : Type :=
| AttributeError (obj attr : string)
| NameError (name : string)
| UnboundLocalError (name : string)
| TypeError (msg : string)
| ValueError (msg : string)
| KeyError (key : string)
| IndexError (msg : string)
| InvalidId (s : string)
| JSONDecodeError
| PyMongoError (collection : string)
| OSError (path : string)
| ProviderError (msg : string)
| RetryError.

(** [str(e)] *)
Definition exn_str (e : exn) : string :=
  match e with
  | AttributeError obj attr =>
      "'" ++ obj ++ "' object has no attribute '" ++ attr ++ "'"
  | NameError name => "name '" ++ name ++ "' is not defined"
  | UnboundLocalError name =>
      "cannot access local variable '" ++ name
        ++ "' where it is not associated with a value"
  | TypeError msg => msg
  | ValueError msg => msg
  | KeyError key => "'" ++ key ++ "'"
  | IndexError msg => msg
  | InvalidId s =>
      "'" ++ s ++ "' is not a valid ObjectId, it must be a 12-byte input"
        ++ " or a 24-character hex string"
  | JSONDecodeError => "Expecting value"
  | PyMongoError c => c ++ ": operation failed"
  | OSError path => "[Errno 2] No such file or directory: '" ++ path ++ "'"
  | ProviderError msg => msg
  | RetryError => "RetryError"
  end.

Inductive outcome (A : Type) : Type :=
| Return (a : A)
| Raise (e : exn).
Arguments Return {A} a.
Arguments Raise {A} e.

(** JSON-shaped Python values: what [json.loads] yields and what a MongoDB
    document holds.  Python's [int] and [float] are both carried as a
    binary64 number. *)
Inductive pyval : Type :=
| VNone
| VBool (b : bool)
| VNum (x : float)
| VStr (s : string)
| VObjectId (o : N)
| VList (l : list pyval)
| VDict (d : list (string * pyval)).

Definition dict : Type := list (string * pyval).

(** [key in d] and [d.get(key)] *)
Fixpoint dict_get (key : string) (d : dict) : option pyval :=
  match d with
  | [] => None
  | (k, v) :: d' => if String.eqb k key then Some v else dict_get key d'
  end.

Definition dict_has (key : string) (d : dict) : bool :=
  match dict_get key d with Some _ => true | None => false end.

(** [d.get(key, default)] *)
Definition dict_get_default (key : string) (default : pyval) (d : dict) : pyval :=
  match dict_get key d with Some v => v | None => default end.

(** [bool(v)] *)
Definition truthy (v : pyval) : bool :=
  match v with
  | VNone => false
  | VBool b => b
  | VNum x => negb (PrimFloat.eqb x 0)
  | VStr s => negb (String.eqb s "")
  | VObjectId _ => true
  | VList l => match l with [] => false | _ => true end
  | VDict d => match d with [] => false | _ => true end
  end.

(** The items of an iterable, as [for x in v] and [list.extend(v)] take
    them. *)
Definition items_of (v : pyval) : outcome (list pyval) :=
  match v with
  | VList l => Return l
  | VStr s => Return (map (fun c => VStr (String c "")) (list_ascii_of_string s))
  | VDict d => Return (map (fun kv => VStr (fst kv)) d)
  | _ => Raise (TypeError "object is not iterable")
  end.

(** ["key" in v] for a string key *)
Definition contains_str (key : string) (v : pyval) : outcome bool :=
  match v with
  | VDict d => Return (dict_has key d)
  | VList l =>
      Return (existsb (fun x => match x with
                                | VStr s => String.eqb s key
                                | _ => false
                                end) l)
  | VStr s => Return (match index 0 key s with Some _ => true | None => false end)
  | _ => Raise (TypeError "argument is not iterable")
  end.

(** [v["key"]] for a string key *)
Definition subscript (key : string) (v : pyval) : outcome pyval :=
  match v with
  | VDict d =>
      match dict_get key d with
      | Some x => Return x
      | None => Raise (KeyError key)
      end
  | _ => Raise (TypeError "indices must be integers")
  end.

(** [v.get(key, default)]: only a [dict] has [get]. *)
Definition get_default (key : string) (default : pyval) (v : pyval) : outcome pyval :=
  match v with
  | VDict d => Return (dict_get_default key default d)
  | _ => Raise (AttributeError "object" "get")
  end.

End Py.
Export Py.

(** ** ObjectId

    A [bson.ObjectId] is a 12-byte value; it is carried as the number its
    24 hexadecimal digits denote. *)

Module ObjectId.

Definition hex_value (c : ascii) : option N :=
  let n := N_of_ascii c in
  if ((48 <=? n) && (n <=? 57))%N then Some (n - 48)%N
  else if ((97 <=? n) && (n <=? 102))%N then Some (n - 87)%N
  else if ((65 <=? n) && (n <=? 70))%N then Some (n - 55)%N
  else None.

Fixpoint parse_hex (acc : N) (s : string) : option N :=
  match s with
  | EmptyString => Some acc
  | String c s' =>
      match hex_value c with
      | Some d => parse_hex (16 * acc + d)%N s'
      | None => None
      end
  end.

(** [ObjectId(s)] for a [str]: 24 hexadecimal digits, else [InvalidId].
    (bson hands a string of 24 characters to [bytes.fromhex], which also
    skips white space between pairs of digits and then yields an id of
    fewer than 12 bytes; such strings are taken as invalid here.) *)
Definition of_str (s : string) : outcome N :=
  if Nat.eqb (String.length s) 24 then
    match parse_hex 0%N s with
    | Some o => Return o
    | None => Raise (InvalidId s)
    end
  else Raise (InvalidId s).

Definition hex_digit (d : N) : ascii :=
  if (d <? 10)%N then ascii_of_N (48 + d) else ascii_of_N (87 + d).

Fixpoint hex_digits (n : nat) (o : N) (acc : string) : string :=
  match n with
  | O => acc
  | S n' => hex_digits n' (o / 16)%N (String (hex_digit (o mod 16)%N) acc)
  end.

(** [str(oid)]: the 24 lower-case hexadecimal digits. *)
Definition to_str (o : N) : string := hex_digits 24 o "".

End ObjectId.

(** ** Vectors of binary64 numbers (numpy) *)

Module Numpy.

Local Open Scope float_scope.

(** Sum of the products, accumulated from the left. *)
Fixpoint dot_from (acc : float) (a b : list float) : float :=
  match a, b with
  | x :: a', y :: b' => dot_from (acc + x * y) a' b'
  | _, _ => acc
  end.

(** [np.dot] on two one-dimensional arrays raises [ValueError] when their
    shapes differ. *)
Definition dot (a b : list float) : outcome float :=
  if Nat.eqb (List.length a) (List.length b) then Return (dot_from 0 a b)
  else Raise (ValueError "shapes not aligned").

(** [np.linalg.norm] of a one-dimensional real array: [sqrt(dot(x, x))]. *)
Definition norm (a : list float) : float := PrimFloat.sqrt (dot_from 0 a a).

End Numpy.

(** ** The document store and the outside world *)

Module Model.

(** [EmbeddingModel] ([app/database/models.py]).  A field the code reads
    with [in] or [.get] is optional. *)
Record Embedding : Type := {
  e_id : N;
  e_redacao_id : N;
  e_titulo : option string;
  e_texto_snippet : option string;
  e_vector_embedding : option (list float);
  e_modelo_embedding : string;
  e_data_criacao : Z
}.

(** [RedacaoModel], with the two fields the pipeline adds. *)
Record Redacao : Type := {
  r_id : N;
  r_usuario_id : N;
  r_titulo : option string;
  r_status : string;
  r_data_envio : Z;
  r_data_conclusao : option Z;
  r_texto_extraido : string;
  r_mensagem_erro : option string;
  r_analise_disponivel : option bool
}.

(** [CorpusExemploModel] *)
Record CorpusExemplo : Type := {
  c_id : N;
  c_titulo : string;
  c_categoria : string;
  c_temas : list string;
  c_nivel_qualidade : float
}.

(** One entry of [vector_search]'s result: the keys [_id], [redacao_id],
    [titulo], [texto_snippet] and [score], which the scan fills and the
    native aggregation projects. *)
Record Hit : Type := {
  h_id : N;
  h_redacao_id : N;
  h_titulo : option string;
  h_texto_snippet : string;
  h_score : float
}.

Inductive collection : Type := Redacoes | Analises | Embeddings | CorpusExemplos.

Definition collection_name (c : collection) : string :=
  match c with
  | Redacoes => "redacoes"
  | Analises => "analises"
  | Embeddings => "embeddings"
  | CorpusExemplos => "corpus_exemplos"
  end.

(** The four collections.  An analysis document is free-form (it stores
    what the scoring provider answered), so it stays a dictionary. *)
Record Database : Type := {
  redacoes : list Redacao;
  analises : list dict;
  embeddings : list Embedding;
  corpus_exemplos : list CorpusExemplo
}.

(** The user message of a chat request, by the values its f-string
    template interpolates: the essay text, the number of key points and
    text, or the weak points as (competência, justificativa) pairs. *)
Inductive prompt : Type :=
| AnalysisPrompt (text : string)
| KeyPointsPrompt (max_points : Z) (text : string)
| SuggestionsPrompt (weak_points : list (pyval * pyval)).

(** A request to [openai.chat.completions] (always with
    [response_format = json_object]). *)
Record ChatRequest : Type := {
  cr_model : string;
  cr_system : string;
  cr_user : prompt;
  cr_temperature : float;
  cr_max_tokens : Z
}.

(** The text of a chat answer, as [json.loads] sees it. *)
Inductive content : Type :=
| Malformed (raw : string)
| Parsed (v : pyval).

(** The collaborators outside the program: what the n-th call to each
    provider answers, which collections cannot be reached, the native
    [$vectorSearch] aggregation, and the files on disk. *)
Record Services : Type := {
  embeddings_create : nat -> string -> outcome (list (list float));
  chat_acreate : nat -> ChatRequest -> outcome content;
  vector_search_aggregate : list float -> Z -> outcome (list Hit);
  collection_down : collection -> bool;
  path_exists : string -> bool;
  extract_file_text : string -> outcome string
}.

Record LogRecord : Type := { lr_level : string; lr_message : string }.

Record World : Type := {
  db : Database;
  next_oid : N;
  clock : Z;
  svc : Services;
  embedding_requests : list string;
  chat_requests : list ChatRequest;
  sleeps : list Z;
  log : list LogRecord
}.

Definition with_db (d : Database) (w : World) : World :=
  {| db := d; next_oid := next_oid w; clock := clock w; svc := svc w;
     embedding_requests := embedding_requests w;
     chat_requests := chat_requests w; sleeps := sleeps w; log := log w |}.

Definition with_next_oid (n : N) (w : World) : World :=
  {| db := db w; next_oid := n; clock := clock w; svc := svc w;
     embedding_requests := embedding_requests w;
     chat_requests := chat_requests w; sleeps := sleeps w; log := log w |}.

Definition with_clock (t : Z) (w : World) : World :=
  {| db := db w; next_oid := next_oid w; clock := t; svc := svc w;
     embedding_requests := embedding_requests w;
     chat_requests := chat_requests w; sleeps := sleeps w; log := log w |}.

Definition with_embedding_requests (l : list string) (w : World) : World :=
  {| db := db w; next_oid := next_oid w; clock := clock w; svc := svc w;
     embedding_requests := l;
     chat_requests := chat_requests w; sleeps := sleeps w; log := log w |}.

Definition with_chat_requests (l : list ChatRequest) (w : World) : World :=
  {| db := db w; next_oid := next_oid w; clock := clock w; svc := svc w;
     embedding_requests := embedding_requests w;
     chat_requests := l; sleeps := sleeps w; log := log w |}.

Definition with_sleeps (l : list Z) (w : World) : World :=
  {| db := db w; next_oid := next_oid w; clock := clock w; svc := svc w;
     embedding_requests := embedding_requests w;
     chat_requests := chat_requests w; sleeps := l; log := log w |}.

Definition with_log (l : list LogRecord) (w : World) : World :=
  {| db := db w; next_oid := next_oid w; clock := clock w; svc := svc w;
     embedding_requests := embedding_requests w;
     chat_requests := chat_requests w; sleeps := sleeps w; log := l |}.

Definition with_redacoes (l : list Redacao) (d : Database) : Database :=
  {| redacoes := l; analises := analises d; embeddings := embeddings d;
     corpus_exemplos := corpus_exemplos d |}.

Definition with_analises (l : list dict) (d : Database) : Database :=
  {| redacoes := redacoes d; analises := l; embeddings := embeddings d;
     corpus_exemplos := corpus_exemplos d |}.

Definition with_embeddings (l : list Embedding) (d : Database) : Database :=
  {| redacoes := redacoes d; analises := analises d; embeddings := l;
     corpus_exemplos := corpus_exemplos d |}.

(** *** The monad: state passing over [World], with exceptions *)

Definition M (A : Type) : Type := World -> outcome A * World.

Definition ret {A} (a : A) : M A := fun w => (Return a, w).

Definition raise {A} (e : exn) : M A := fun w => (Raise e, w).

Definition bind {A B} (m : M A) (k : A -> M B) : M B :=
  fun w =>
    match m w with
    | (Return a, w') => k a w'
    | (Raise e, w') => (Raise e, w')
    end.

(** [try: body  except Exception as e: handler(e)] *)
Definition try_except {A} (body : M A) (handler : exn -> M A) : M A :=
  fun w =>
    match body w with
    | (Return a, w') => (Return a, w')
    | (Raise e, w') => handler e w'
    end.

Definition lift {A} (o : outcome A) : M A := fun w => (o, w).

Definition gets {A} (f : World -> A) : M A := fun w => (Return (f w), w).

Definition modify (f : World -> World) : M unit := fun w => (Return tt, f w).

(** A record handed to the [logging] module. *)
Definition emit (level message : string) : M unit :=
  modify (fun w =>
    with_log (log w ++ [ {| lr_level := level; lr_message := message |} ]) w).

(** Every operation on a collection first has to reach it.  Whether a
    collection can be reached is fixed for a run: a store that fails
    between two operations of one call is not described. *)
Definition reach (c : collection) : M unit :=
  fun w =>
    if collection_down (svc w) c
    then (Raise (PyMongoError (collection_name c)), w)
    else (Return tt, w).

(** [datetime.now()] *)
Definition datetime_now : M Z := gets clock.

(** [update_one] changes the first document that matches. *)
Fixpoint update_first {A} (p : A -> bool) (f : A -> A) (l : list A) : list A :=
  match l with
  | [] => []
  | x :: l' => if p x then f x :: l' else x :: update_first p f l'
  end.

End Model.
Export Model.

Declare Scope py_scope.
Delimit Scope py_scope with py.
Notation "x <- m ;; k" := (bind m (fun x => k))
  (at level 61, m at next level, right associativity) : py_scope.
Notation "m ;;; k" := (bind m (fun _ => k))
  (at level 61, right associativity) : py_scope.
Local Open Scope py_scope.

(** ** [app/database/rag_manager.py] *)

Module RAGManager.

(** The instance: [self.openai_client] is [None] without an API key;
    [self.has_vector_search] is the probe's cached answer. *)
Record t : Type := {
  openai_client : option string;
  has_vector_search : bool
}.

Record SimilarAnalise : Type := {
  sa_nota_geral : pyval;
  sa_resumo : pyval;
  sa_principais_recomendacoes : pyval
}.

(** One entry of [get_similar_redacoes]'s result. *)
Record Similar : Type := {
  s_id : string;
  s_titulo : string;
  s_texto_snippet : string;
  s_similarity_score : float;
  s_analise : option SimilarAnalise
}.

Record Exemplo : Type := {
  x_id : string;
  x_titulo : string;
  x_nivel_qualidade : float;
  x_temas : list string
}.

(** The context bundle [enrich_with_rag] returns. *)
Record RagContext : Type := {
  redacoes_similares : list Similar;
  exemplos_alta_qualidade : list Exemplo;
  recomendacoes_contextuais : list pyval
}.

(** [logger = logging.getLogger(__name__)] is defined in this module. *)
Definition logger : string -> string -> M unit := emit.

(** *** pymongo, on the collections this module touches *)

(** [db.embeddings.find_one({"redacao_id": o})] *)
Definition embeddings_find_one (o : N) : M (option Embedding) :=
  reach Embeddings ;;;
  gets (fun w => find (fun e => N.eqb (e_redacao_id e) o) (embeddings (db w))).

(** [db.embeddings.update_one({"_id": id}, {"$set": {vector_embedding,
    texto_snippet, titulo, data_criacao}})] *)
Definition embeddings_update_one (id : N) (vector : list float)
    (snippet : string) (titulo : option string) (now : Z) : M unit :=
  reach Embeddings ;;;
  modify (fun w =>
    with_db
      (with_embeddings
         (update_first (fun e => N.eqb (e_id e) id)
            (fun e =>
               {| e_id := e_id e;
                  e_redacao_id := e_redacao_id e;
                  e_titulo := titulo;
                  e_texto_snippet := Some snippet;
                  e_vector_embedding := Some vector;
                  e_modelo_embedding := e_modelo_embedding e;
                  e_data_criacao := now |})
            (embeddings (db w)))
         (db w)) w).

(** [db.embeddings.insert_one(doc)]: the driver gives the document a fresh
    [_id] and appends it. *)
Definition embeddings_insert_one (redacao_id : N) (titulo : option string)
    (snippet : string) (vector : list float) (modelo : string) (now : Z) : M N :=
  reach Embeddings ;;;
  id <- gets next_oid ;;
  modify (fun w =>
    with_next_oid (N.succ id)
      (with_db
         (with_embeddings
            (embeddings (db w) ++
               [ {| e_id := id;
                    e_redacao_id := redacao_id;
                    e_titulo := titulo;
                    e_texto_snippet := Some snippet;
                    e_vector_embedding := Some vector;
                    e_modelo_embedding := modelo;
                    e_data_criacao := now |} ])
            (db w)) w)) ;;;
  ret id.

(** [list(db.embeddings.find({}, projection))] *)
Definition embeddings_find_all : M (list Embedding) :=
  reach Embeddings ;;; gets (fun w => embeddings (db w)).

(** [db.redacoes.find_one({"_id": id})] *)
Definition redacoes_find_one (id : N) : M (option Redacao) :=
  reach Redacoes ;;;
  gets (fun w => find (fun r => N.eqb (r_id r) id) (redacoes (db w))).

Definition has_redacao_id (o : N) (a : dict) : bool :=
  match dict_get "redacao_id" a with
  | Some (VObjectId o') => N.eqb o' o
  | _ => false
  end.

(** [db.analises.find_one({"redacao_id": o})] *)
Definition analises_find_one (o : N) : M (option dict) :=
  reach Analises ;;;
  gets (fun w => find (has_redacao_id o) (analises (db w))).

(** [list(db.corpus_exemplos.find({"nivel_qualidade": {"$gte": 8.0},
    "categoria": "exemplar"}).limit(2))] *)
Definition corpus_exemplos_find_exemplares : M (list CorpusExemplo) :=
  reach CorpusExemplos ;;;
  gets (fun w =>
    firstn 2
      (filter (fun c =>
                 PrimFloat.leb 8 (c_nivel_qualidade c)
                 && String.eqb (c_categoria c) "exemplar")
         (corpus_exemplos (db w)))).

(** [db.embeddings.aggregate([{"$vectorSearch": ...}, {"$project": ...}])] *)
Definition embeddings_vector_search (query : list float) (limit : Z)
  : M (list Hit) :=
  fun w => (vector_search_aggregate (svc w) query limit, w).

(** [self.openai_client.embeddings.create(model=..., input=text)], then
    [response.data]; the n-th request gets the provider's n-th answer. *)
Definition openai_embeddings_create (input : string) : M (list (list float)) :=
  fun w =>
    (embeddings_create (svc w) (List.length (embedding_requests w)) input,
     with_embedding_requests (embedding_requests w ++ [input]) w).

(** *** The methods *)

Definition generate_embedding (self : t) (text : string) : M (list float) :=
  match openai_client self with
  | None => raise (ValueError "OpenAI API não configurada. Defina OPENAI_API_KEY.")
  | Some _ =>
      try_except
        (let text := substring 0 8000 text in
         data <- openai_embeddings_create text ;;
         match data with
         | embedding :: _ => ret embedding
         | [] => raise (IndexError "list index out of range")
         end)
        (fun e =>
           logger "ERROR" ("Erro ao gerar embedding: " ++ exn_str e) ;;;
           ret (repeat 0%float 1536))
  end.

Definition store_redacao_embedding (self : t) (redacao_id texto : string)
    (titulo : option string) : M string :=
  try_except
    (redacao_obj_id <- lift (ObjectId.of_str redacao_id) ;;
     existing <- embeddings_find_one redacao_obj_id ;;
     match existing with
     | Some existing =>
         logger "INFO"
           ("Embedding já existe para redação " ++ redacao_id ++ ". Atualizando...") ;;;
         embedding_vector <- generate_embedding self texto ;;
         now <- datetime_now ;;
         embeddings_update_one (e_id existing) embedding_vector
           (substring 0 1000 texto) titulo now ;;;
         ret (ObjectId.to_str (e_id existing))
     | None =>
         embedding_vector <- generate_embedding self texto ;;
         now <- datetime_now ;;
         inserted_id <- embeddings_insert_one redacao_obj_id titulo
                          (substring 0 1000 texto) embedding_vector
                          "text-embedding-3-small" now ;;
         logger "INFO" ("Embedding armazenado para redação " ++ redacao_id) ;;;
         ret (ObjectId.to_str inserted_id)
     end)
    (fun e =>
       logger "ERROR" ("Erro ao armazenar embedding: " ++ exn_str e) ;;;
       raise e).

Definition _cosine_similarity (vec1 vec2 : list float) : outcome float :=
  match Numpy.dot vec1 vec2 with
  | Raise e => Raise e
  | Return dot_product =>
      let norm_vec1 := Numpy.norm vec1 in
      let norm_vec2 := Numpy.norm vec2 in
      if PrimFloat.eqb norm_vec1 0 || PrimFloat.eqb norm_vec2 0
      then Return 0%float
      else Return (dot_product / (norm_vec1 * norm_vec2))%float
  end.

(** [similarities.sort(key=lambda x: x["score"], reverse=True)]: a stable
    sort into descending order; an entry goes in front of the first entry
    whose score is not larger than its own, so equal scores keep the order
    of the scan. *)
Fixpoint insert_by_score (x : Hit) (l : list Hit) : list Hit :=
  match l with
  | [] => [x]
  | y :: l' =>
      if PrimFloat.ltb (h_score x) (h_score y)
      then y :: insert_by_score x l'
      else x :: y :: l'
  end.

Definition sort_by_score (l : list Hit) : list Hit :=
  fold_right insert_by_score [] l.

(** [l[:limit]] *)
Definition slice_to {A} (limit : Z) (l : list A) : list A :=
  if (0 <=? limit)%Z then firstn (Z.to_nat limit) l
  else firstn (List.length l - Z.to_nat (- limit)) l.

(** The loop of the exhaustive scan: one entry for each stored record that
    carries a [vector_embedding]. *)
Fixpoint similarities (query_embedding : list float) (all_embeddings : list Embedding)
  : outcome (list Hit) :=
  match all_embeddings with
  | [] => Return []
  | doc :: rest =>
      match e_vector_embedding doc with
      | Some doc_vector =>
          match _cosine_similarity query_embedding doc_vector with
          | Raise e => Raise e
          | Return similarity =>
              match similarities query_embedding rest with
              | Raise e => Raise e
              | Return l =>
                  Return
                    ({| h_id := e_id doc;
                        h_redacao_id := e_redacao_id doc;
                        h_titulo := e_titulo doc;
                        h_texto_snippet :=
                          match e_texto_snippet doc with
                          | Some s => s
                          | None => ""
                          end;
                        h_score := similarity |} :: l)
              end
          end
      | None => similarities query_embedding rest
      end
  end.

(** The fallback of [vector_search] on the records it loaded: score, sort,
    take the first [limit]. *)
Definition exhaustive_scan (query_embedding : list float)
    (all_embeddings : list Embedding) (limit : Z) : outcome (list Hit) :=
  match similarities query_embedding all_embeddings with
  | Raise e => Raise e
  | Return l => Return (slice_to limit (sort_by_score l))
  end.

Definition vector_search (self : t) (query_text : string) (limit : Z)
  : M (list Hit) :=
  query_embedding <- generate_embedding self query_text ;;
  results <-
    (if has_vector_search self then
       try_except (embeddings_vector_search query_embedding limit)
         (fun e =>
            logger "ERROR" ("Erro na busca vetorial: " ++ exn_str e) ;;;
            ret [])
     else ret []) ;;
  match results with
  | [] =>
      all_embeddings <- embeddings_find_all ;;
      lift (exhaustive_scan query_embedding all_embeddings limit)
  | _ => ret results
  end.

(** [v[:3]] on a Python value *)
Definition slice3 (v : pyval) : outcome pyval :=
  match v with
  | VList l => Return (VList (firstn 3 l))
  | VStr s => Return (VStr (substring 0 3 s))
  | _ => Raise (TypeError "object is not subscriptable")
  end.

(** The body of the [try] in [get_similar_redacoes]: [None] stands for
    [continue]. *)
Definition similar_of_hit (emb : Hit) : M (option Similar) :=
  let redacao_id := h_redacao_id emb in
  redacao <- redacoes_find_one redacao_id ;;
  match redacao with
  | None => ret None
  | Some redacao =>
      analise <- analises_find_one redacao_id ;;
      let result (a : option SimilarAnalise) :=
        {| s_id := ObjectId.to_str (r_id redacao);
           s_titulo := match r_titulo redacao with
                       | Some t => t
                       | None => "Sem título"
                       end;
           s_texto_snippet := h_texto_snippet emb;
           s_similarity_score := h_score emb;
           s_analise := a |} in
      match analise with
      | Some analise =>
          if truthy (VDict analise) then
            recomendacoes <-
              lift (slice3 (dict_get_default "recomendacoes" (VList []) analise)) ;;
            ret (Some (result (Some
              {| sa_nota_geral := dict_get_default "nota_geral" (VNum 0) analise;
                 sa_resumo := dict_get_default "resumo_executivo" (VStr "") analise;
                 sa_principais_recomendacoes := recomendacoes |})))
          else ret (Some (result None))
      | None => ret (Some (result None))
      end
  end.

Fixpoint similar_loop (similar_embeddings : list Hit) (result_redacoes : list Similar)
  : M (list Similar) :=
  match similar_embeddings with
  | [] => ret result_redacoes
  | emb :: rest =>
      r <- try_except (similar_of_hit emb)
             (fun e =>
                logger "ERROR" ("Erro ao processar redação similar: " ++ exn_str e) ;;;
                ret None) ;;
      similar_loop rest
        (match r with
         | Some result => result_redacoes ++ [result]
         | None => result_redacoes
         end)
  end.

Definition get_similar_redacoes (self : t) (texto : string) (limit : Z)
  : M (list Similar) :=
  similar_embeddings <- vector_search self texto limit ;;
  similar_loop similar_embeddings [].

Definition hashable (v : pyval) : bool :=
  match v with
  | VList _ | VDict _ => false
  | _ => true
  end.

(** [==] on hashable values *)
Definition hashable_eqb (a b : pyval) : bool :=
  match a, b with
  | VNone, VNone => true
  | VBool x, VBool y => Bool.eqb x y
  | VNum x, VNum y => PrimFloat.eqb x y
  | VBool x, VNum y | VNum y, VBool x => PrimFloat.eqb (if x then 1 else 0) y
  | VStr x, VStr y => String.eqb x y
  | VObjectId x, VObjectId y => N.eqb x y
  | _, _ => false
  end.

(** [list(set(l))]: an unhashable item raises; the order in which a set
    yields its members is not fixed by Python, the order of first
    occurrence stands for it. *)
Fixpoint list_of_set (l : list pyval) (seen : list pyval) : outcome (list pyval) :=
  match l with
  | [] => Return seen
  | v :: l' =>
      if hashable v then
        list_of_set l'
          (if existsb (hashable_eqb v) seen then seen else seen ++ [v])
      else Raise (TypeError "unhashable type")
  end.

Fixpoint all_recomendacoes (similares : list Similar) : outcome (list pyval) :=
  match similares with
  | [] => Return []
  | similar :: rest =>
      match s_analise similar with
      | Some analise =>
          match items_of (sa_principais_recomendacoes analise) with
          | Raise e => Raise e
          | Return items =>
              match all_recomendacoes rest with
              | Raise e => Raise e
              | Return l => Return (items ++ l)
              end
          end
      | None => all_recomendacoes rest
      end
  end.

Definition _gerar_recomendacoes_contextuais (similares : list Similar)
  : outcome (list pyval) :=
  match all_recomendacoes similares with
  | Raise e => Raise e
  | Return all =>
      match list_of_set all [] with
      | Raise e => Raise e
      | Return unique_recomendacoes => Return (firstn 5 unique_recomendacoes)
      end
  end.

Definition enrich_with_rag (self : t) (texto : string) : M RagContext :=
  similares <- get_similar_redacoes self texto 5 ;;
  exemplos <- corpus_exemplos_find_exemplares ;;
  recomendacoes <- lift (_gerar_recomendacoes_contextuais similares) ;;
  ret {| redacoes_similares := similares;
         exemplos_alta_qualidade :=
           map (fun ex =>
                  {| x_id := ObjectId.to_str (c_id ex);
                     x_titulo := c_titulo ex;
                     x_nivel_qualidade := c_nivel_qualidade ex;
                     x_temas := c_temas ex |})
             exemplos;
         recomendacoes_contextuais := recomendacoes |}.

End RAGManager.

(** ** tenacity: [@retry(wait=wait_exponential(min, max), stop=stop_after_attempt(n))] *)

Module Tenacity.

Record policy : Type := {
  wait_min : Z;
  wait_max : Z;
  stop_after_attempt : nat
}.

(** [wait_exponential] with its default multiplier 1 and base 2: after the
    attempt numbered [attempt] (from 1) fails, wait
    [max(max(0, min), min(2 ** (attempt - 1), max))]. *)
Definition wait_exponential (p : policy) (attempt : nat) : Z :=
  Z.max (Z.max 0 (wait_min p)) (Z.min (2 ^ Z.of_nat (attempt - 1)) (wait_max p)).

(** [asyncio.sleep(t)] *)
Definition sleep (t : Z) : M unit :=
  modify (fun w => with_clock (clock w + t)%Z (with_sleeps (sleeps w ++ [t]) w)).

(** The attempt numbered [attempt], with [remaining] more allowed after
    it.  A call that returns ends the loop; one that raises is repeated
    after the wait, and [RetryError] is raised once the budget is spent. *)
Fixpoint attempts {A} (p : policy) (remaining attempt : nat) (f : M A) : M A :=
  fun w =>
    match f w with
    | (Return a, w') => (Return a, w')
    | (Raise e, w') =>
        match remaining with
        | O => (Raise RetryError, w')
        | S remaining' =>
            bind (sleep (wait_exponential p attempt))
              (fun _ => attempts p remaining' (S attempt) f) w'
        end
    end.

Definition retry {A} (p : policy) (f : M A) : M A :=
  attempts p (stop_after_attempt p - 1) 1 f.

End Tenacity.

(** ** [app/utils/ia_agent.py] *)

Module IAAgent.

Record t : Type := {
  model : string;
  max_tokens : Z;
  temperature : float;
  system_prompt : string
}.

Definition _get_system_prompt : string :=
  "
        Você é um agente especializado em análise e correção de redações.
        Seu objetivo é:
        
        1. Extrair o conteúdo textual de documentos em formato .pdf, .doc, .docx e .txt
        2. Analisar a estrutura, gramática, coesão e coerência do texto
        3. Fornecer feedback detalhado e construtivo
        4. Identificar pontos fortes e fracos de acordo com as competências da redação
        5. Atribuir notas objetivas em diferentes categorias
        
        Responda sempre em formato JSON estruturado.
        ".

(** [IAAgent(model)] *)
Definition init (model : string) : t :=
  {| model := model; max_tokens := 4000; temperature := 0.2;
     system_prompt := _get_system_prompt |}.

Definition logger : string -> string -> M unit := emit.

(** [await openai.chat.completions.acreate(...)], then
    [response.choices[0].message.content]. *)
Definition openai_chat (request : ChatRequest) : M content :=
  fun w =>
    (chat_acreate (svc w) (List.length (chat_requests w)) request,
     with_chat_requests (chat_requests w ++ [request]) w).

(** [json.loads] *)
Definition json_loads (c : content) : outcome pyval :=
  match c with
  | Malformed _ => Raise JSONDecodeError
  | Parsed v => Return v
  end.

Definition process_document_policy : Tenacity.policy :=
  {| Tenacity.wait_min := 1; Tenacity.wait_max := 60;
     Tenacity.stop_after_attempt := 5 |}.

Definition analyze_text_policy : Tenacity.policy :=
  {| Tenacity.wait_min := 1; Tenacity.wait_max := 60;
     Tenacity.stop_after_attempt := 3 |}.

(** The three requests the agent sends. *)
Definition analysis_request (self : t) (text : string) : ChatRequest :=
  {| cr_model := model self;
     cr_system := system_prompt self;
     cr_user := AnalysisPrompt text;
     cr_temperature := temperature self;
     cr_max_tokens := max_tokens self |}.

Definition key_points_request (self : t) (text : string) (max_points : Z)
  : ChatRequest :=
  {| cr_model := model self;
     cr_system := "Você é um assistente especializado em extrair pontos-chave de textos.";
     cr_user := KeyPointsPrompt max_points (substring 0 8000 text);
     cr_temperature := 0.3;
     cr_max_tokens := 1000 |}.

Definition suggestions_request (self : t) (weak_points : list (pyval * pyval))
  : ChatRequest :=
  {| cr_model := model self;
     cr_system := "Você é um especialista em redação e fornecer feedback construtivo e acionável.";
     cr_user := SuggestionsPrompt weak_points;
     cr_temperature := 0.4;
     cr_max_tokens := 1000 |}.

(** The function under the decorator. *)
Definition analyze_text_body (self : t) (text : string) : M pyval :=
  let max_chars := 14000 in
  let text :=
    if Nat.ltb max_chars (String.length text)
    then (substring 0 max_chars text ++ "...")%string
    else text in
  try_except
    (response <- openai_chat (analysis_request self text) ;;
     match json_loads response with
     | Return analysis => ret analysis
     | Raise JSONDecodeError =>
         logger "ERROR" "Falha ao decodificar JSON da resposta da IA" ;;;
         ret (VDict [("error", VStr "Resposta da IA não está em formato JSON válido")])
     | Raise e => raise e
     end)
    (fun e =>
       logger "ERROR" ("Erro ao analisar texto com IA: " ++ exn_str e) ;;;
       ret (VDict [("error", VStr ("Falha na análise: " ++ exn_str e))])).

Definition analyze_text (self : t) (text : string) : M pyval :=
  Tenacity.retry analyze_text_policy (analyze_text_body self text).

Definition process_document_body (self : t) (file_path : string) : M dict :=
  try_except
    (text <- (fun w => (extract_file_text (svc w) file_path, w)) ;;
     if String.eqb text "" then
       ret [("error", VStr "Não foi possível extrair texto do documento.")]
     else
       analysis_result <- analyze_text self text ;;
       ret [("success", VBool true);
            ("text_extracted",
             VStr (if Nat.ltb 300 (String.length text)
                   then (substring 0 300 text ++ "...")%string
                   else text));
            ("analysis", analysis_result)])
    (fun e =>
       logger "ERROR" ("Erro ao processar documento: " ++ exn_str e) ;;;
       ret [("error", VStr ("Falha ao processar documento: " ++ exn_str e))]).

Definition process_document (self : t) (file_path : string) : M dict :=
  Tenacity.retry process_document_policy (process_document_body self file_path).

(** The first value of the object that is a non-empty list. *)
Fixpoint first_list_value (d : dict) : option (list pyval) :=
  match d with
  | [] => None
  | (_, VList (x :: l)) :: _ => Some (x :: l)
  | _ :: d' => first_list_value d'
  end.

(** [result.items()]: only a [dict] has it. *)
Definition items (result : pyval) : outcome dict :=
  match result with
  | VDict d => Return d
  | _ => Raise (AttributeError "object" "items")
  end.

Definition extract_key_points (self : t) (text : string) (max_points : Z) : M pyval :=
  try_except
    (response <- openai_chat (key_points_request self text max_points) ;;
     result <- lift (json_loads response) ;;
     match result with
     | VDict d =>
         match dict_get "pontos" d, dict_get "points" d with
         | Some pontos, _ => ret pontos
         | None, Some points => ret points
         | None, None =>
             match first_list_value d with
             | Some value => ret (VList (RAGManager.slice_to max_points value))
             | None => ret (VList [])
             end
         end
     | _ => d <- lift (items result) ;; ret (VList [])
     end)
    (fun e =>
       logger "ERROR" ("Erro ao extrair pontos-chave: " ++ exn_str e) ;;;
       ret (VList [])).

(** [x < 7.0] *)
Definition less_than_7 (x : pyval) : outcome bool :=
  match x with
  | VNum v => Return (PrimFloat.ltb v 7)
  | VBool _ => Return true
  | _ => Raise (TypeError "'<' not supported")
  end.

(** The weak points: every competência of [analysis["notas"]] marked below
    7.0, with its justification. *)
Fixpoint weak_points_of (notas : list pyval) : outcome (list (pyval * pyval)) :=
  match notas with
  | [] => Return []
  | competencia :: rest =>
      match get_default "nota" (VNum 10) competencia with
      | Raise e => Raise e
      | Return nota =>
          match less_than_7 nota with
          | Raise e => Raise e
          | Return false => weak_points_of rest
          | Return true =>
              match competencia with
              | VDict d =>
                  match dict_get "competencia" d with
                  | None => Raise (KeyError "competencia")
                  | Some c =>
                      match weak_points_of rest with
                      | Raise e => Raise e
                      | Return l =>
                          Return ((c, dict_get_default "justificativa" (VStr "") d) :: l)
                      end
                  end
              | _ => Raise (TypeError "object is not subscriptable")
              end
          end
      end
  end.

Definition weak_points (analysis : pyval) : outcome (list (pyval * pyval)) :=
  match contains_str "notas" analysis with
  | Raise e => Raise e
  | Return false => Return []
  | Return true =>
      match subscript "notas" analysis with
      | Raise e => Raise e
      | Return notas =>
          match items_of notas with
          | Raise e => Raise e
          | Return l => weak_points_of l
          end
      end
  end.

Definition generate_improvement_suggestions (self : t) (text : string)
    (analysis : pyval) : M pyval :=
  try_except
    (weak <- lift (weak_points analysis) ;;
     response <- openai_chat (suggestions_request self weak) ;;
     result <- lift (json_loads response) ;;
     match result with
     | VDict d =>
         match dict_get "sugestoes" d, dict_get "suggestions" d with
         | Some sugestoes, _ => ret sugestoes
         | None, Some suggestions => ret suggestions
         | None, None =>
             match first_list_value d with
             | Some value => ret (VList value)
             | None => ret (VList [])
             end
         end
     | _ => d <- lift (items result) ;; ret (VList [])
     end)
    (fun e =>
       logger "ERROR" ("Erro ao gerar sugestões de melhoria: " ++ exn_str e) ;;;
       ret (VList [])).

(** [ia_agent = IAAgent(model="gpt-4")] *)
Definition ia_agent : t := init "gpt-4".

End IAAgent.

(** ** [app/database/repositories.py] *)

Module Repositories.

Definition logger : string -> string -> M unit := emit.

(** What [BaseRepository] needs from the collection it is built on. *)
Class Collection (D : Type) : Type := {
  coll : collection;
  docs : Database -> list D;
  has_id : N -> D -> bool
}.

(** Collections whose documents the repository rewrites with [$set]. *)
Class Settable (D : Type) `{Collection D} : Type := {
  field : Type;
  set_field : D -> field -> D;
  put_docs : list D -> Database -> Database;
  doc_eqb : D -> D -> bool
}.

(** The entries of a [$set] on a redação. *)
Inductive RedacaoField : Type :=
| Status (s : string)
| DataConclusao (t : Z)
| MensagemErro (m : string)
| AnaliseDisponivel (b : bool).

Definition set_redacao_field (r : Redacao) (f : RedacaoField) : Redacao :=
  {| r_id := r_id r;
     r_usuario_id := r_usuario_id r;
     r_titulo := r_titulo r;
     r_status := match f with Status s => s | _ => r_status r end;
     r_data_envio := r_data_envio r;
     r_data_conclusao :=
       match f with DataConclusao t => Some t | _ => r_data_conclusao r end;
     r_texto_extraido := r_texto_extraido r;
     r_mensagem_erro :=
       match f with MensagemErro m => Some m | _ => r_mensagem_erro r end;
     r_analise_disponivel :=
       match f with AnaliseDisponivel b => Some b | _ => r_analise_disponivel r end |}.

Definition option_eqb {A} (eqb : A -> A -> bool) (a b : option A) : bool :=
  match a, b with
  | Some x, Some y => eqb x y
  | None, None => true
  | _, _ => false
  end.

Definition redacao_eqb (a b : Redacao) : bool :=
  N.eqb (r_id a) (r_id b)
  && N.eqb (r_usuario_id a) (r_usuario_id b)
  && option_eqb String.eqb (r_titulo a) (r_titulo b)
  && String.eqb (r_status a) (r_status b)
  && Z.eqb (r_data_envio a) (r_data_envio b)
  && option_eqb Z.eqb (r_data_conclusao a) (r_data_conclusao b)
  && String.eqb (r_texto_extraido a) (r_texto_extraido b)
  && option_eqb String.eqb (r_mensagem_erro a) (r_mensagem_erro b)
  && option_eqb Bool.eqb (r_analise_disponivel a) (r_analise_disponivel b).

#[export] Instance redacoes_collection : Collection Redacao :=
  {| coll := Redacoes;
     docs := redacoes;
     has_id := fun o r => N.eqb (r_id r) o |}.

#[export] Instance redacoes_settable : Settable Redacao :=
  {| field := RedacaoField;
     set_field := set_redacao_field;
     put_docs := with_redacoes;
     doc_eqb := redacao_eqb |}.

#[export] Instance analises_collection : Collection dict :=
  {| coll := Analises;
     docs := analises;
     has_id := fun o a =>
       match dict_get "_id" a with
       | Some (VObjectId o') => N.eqb o' o
       | _ => false
       end |}.

(** *** [BaseRepository] *)

Section BaseRepositoryRead.

Context {D : Type} `{Collection D}.

Definition find_by_id (id : string) : M (option D) :=
  try_except
    (o <- lift (ObjectId.of_str id) ;;
     reach coll ;;;
     gets (fun w => find (has_id o) (docs (db w))))
    (fun e =>
       logger "ERROR" ("Erro ao buscar documento por ID: " ++ exn_str e) ;;;
       ret None).

Definition find_one (filter : D -> bool) : M (option D) :=
  try_except
    (reach coll ;;; gets (fun w => find filter (docs (db w))))
    (fun e =>
       logger "ERROR" ("Erro na busca find_one: " ++ exn_str e) ;;;
       ret None).

End BaseRepositoryRead.

Section BaseRepositoryWrite.

Context {D : Type} `{Settable D}.

(** [update_one({"_id": ObjectId(id)}, {"$set": update_data})], then
    [result.modified_count > 0]: the first document with that [_id] takes
    the new fields, and counts as modified when it changed. *)
Definition update_one (id : string) (update_data : list field) : M bool :=
  try_except
    (o <- lift (ObjectId.of_str id) ;;
     reach coll ;;;
     fun w =>
       match find (has_id o) (docs (db w)) with
       | None => (Return false, w)
       | Some d =>
           let d' := fold_left set_field update_data d in
           (Return (negb (doc_eqb d d')),
            with_db (put_docs (update_first (has_id o) (fun _ => d') (docs (db w)))
                       (db w)) w)
       end)
    (fun e =>
       logger "ERROR" ("Erro ao atualizar documento: " ++ exn_str e) ;;;
       ret false).

End BaseRepositoryWrite.

(** The attributes an instance of each class has: its own methods, the
    ones it inherits from [BaseRepository], and the two [__init__] sets. *)
Definition BaseRepository_attributes : list string :=
  ["__init__"; "find_by_id"; "find_one"; "find_many"; "insert_one";
   "update_one"; "delete_one"; "count"; "db"; "collection"].

Definition RedacaoRepository_attributes : list string :=
  ["find_by_user"; "update_status"; "find_pendentes"] ++ BaseRepository_attributes.

Definition AnaliseRepository_attributes : list string :=
  ["find_by_redacao"; "find_by_user"] ++ BaseRepository_attributes.

Definition EmbeddingRepository_attributes : list string :=
  ["find_by_redacao"] ++ BaseRepository_attributes.

Definition RAGManager_attributes : list string :=
  ["__init__"; "_check_vector_search"; "generate_embedding";
   "store_redacao_embedding"; "vector_search"; "_cosine_similarity";
   "get_similar_redacoes"; "enrich_with_rag";
   "_gerar_recomendacoes_contextuais"; "db"; "openai_client";
   "has_vector_search"].

(** [obj.name] on an instance of class [cls]. *)
Definition attribute (cls : string) (attributes : list string) (name : string)
  : M unit :=
  if existsb (String.eqb name) attributes then ret tt
  else raise (AttributeError cls name).

(** *** [RedacaoRepository] *)

Module RedacaoRepository.

Definition update_status (redacao_id status : string) : M bool :=
  update_data <-
    (if String.eqb status "concluida"
     then now <- datetime_now ;; ret [Status status; DataConclusao now]
     else ret [Status status]) ;;
  update_one (D := Redacao) redacao_id update_data.

End RedacaoRepository.

(** *** [AnaliseRepository] *)

Module AnaliseRepository.

Definition find_by_redacao (redacao_id : string) : M (option dict) :=
  o <- lift (ObjectId.of_str redacao_id) ;;
  find_one (D := dict) (RAGManager.has_redacao_id o).

End AnaliseRepository.

End Repositories.

(** ** [app/api/main.py]: the background pipeline *)

Module Main.

Import Repositories.

(** The names bound at module level in [main.py]: its imports, and what
    it defines. *)
Definition globals : list string :=
  ["FastAPI"; "UploadFile"; "File"; "HTTPException"; "Form"; "Depends";
   "BackgroundTasks"; "CORSMiddleware"; "JSONResponse"; "uvicorn"; "os";
   "asyncio"; "json"; "uuid"; "datetime"; "Path"; "Optional"; "List";
   "Dict"; "Any"; "spacy"; "ObjectId"; "TextProcessor"; "RedacaoAnalyzer";
   "file_processor"; "ia_agent"; "RedacaoInput"; "RedacaoAnalise";
   "Correcao"; "redacao_repository"; "analise_repository";
   "user_repository"; "rag_manager"; "tempfile"; "app"; "text_processor";
   "analyzer"; "read_root"; "analisar_redacao"; "get_exemplos";
   "get_exemplo"; "processar_redacao_async"; "verificar_status_redacao";
   "obter_analise_redacao"].

(** Reading a global name. *)
Definition global (name : string) : M unit :=
  if existsb (String.eqb name) globals then ret tt
  else raise (NameError name).

(** [logger.<level>(message)] in this module. *)
Definition logger (level message : string) : M unit :=
  global "logger" ;;; emit level message.

(** [await v] for a list [v]. *)
Definition await_list {A} (v : list float) : M A :=
  raise (TypeError "object list can't be used in 'await' expression").

(** Reading a local that an [if] may have left unassigned. *)
Definition local {A} (name : string) (v : option A) : M A :=
  match v with
  | Some a => ret a
  | None => raise (UnboundLocalError name)
  end.

(** [str(v)]; the digits of a number and the display of a container are
    not rendered. *)
Definition py_str (v : pyval) : string :=
  match v with
  | VNone => "None"
  | VBool true => "True"
  | VBool false => "False"
  | VNum _ => "<number>"
  | VStr s => s
  | VObjectId o => ObjectId.to_str o
  | VList _ => "[...]"
  | VDict _ => "{...}"
  end.

(** [v != s] for a string [s] *)
Definition differs_from_str (v : pyval) (s : string) : bool :=
  match v with
  | VStr t => negb (String.eqb t s)
  | _ => true
  end.

(** The rubric used when the scoring answer has no [notas]. *)
Definition notas_padrao : pyval :=
  VList
    [ VDict [("competencia", VStr "Domínio da norma culta"); ("nota", VNum 6.5);
             ("justificativa", VStr "Apresenta alguns erros de pontuação e concordância.")];
      VDict [("competencia", VStr "Compreensão da proposta"); ("nota", VNum 8);
             ("justificativa", VStr "Boa compreensão do tema, com desenvolvimento adequado.")];
      VDict [("competencia", VStr "Argumentação"); ("nota", VNum 7);
             ("justificativa", VStr "Argumentos consistentes, mas poderiam ser mais desenvolvidos.")];
      VDict [("competencia", VStr "Coesão textual"); ("nota", VNum 7.5);
             ("justificativa", VStr "Uso adequado de elementos coesivos, com algumas falhas.")];
      VDict [("competencia", VStr "Proposta de intervenção"); ("nota", VNum 6);
             ("justificativa", VStr "Proposta pouco desenvolvida e sem detalhamento dos agentes.")] ].

(** The entries of [analise] that come from the scoring answer, each with
    its default. *)
Definition campos_da_analise (redacao_id : string) (titulo : option string)
    (analysis_result sugestoes pontos_chave : pyval) : outcome dict :=
  match analysis_result with
  | VDict a =>
      Return
        [("redacao_id", VStr redacao_id);
         ("titulo", VStr (match titulo with
                          | Some (String c t) => String c t
                          | _ => "Redação sem título"
                          end));
         ("nota_geral", dict_get_default "nota_geral" (VNum 7) a);
         ("resumo_executivo",
          dict_get_default "resumo_executivo" (VStr "Análise não disponível") a);
         ("notas", dict_get_default "notas" notas_padrao a);
         ("problemas_gramaticais", dict_get_default "problemas_gramaticais" (VList []) a);
         ("recomendacoes", dict_get_default "recomendacoes" sugestoes a);
         ("pontos_fortes", dict_get_default "pontos_fortes" pontos_chave a)]
  | _ => Raise (AttributeError "object" "get")
  end.

Section Pipeline.

(** The instance [rag_manager = RAGManager()]. *)
Variable rag_manager : RAGManager.t.

(** The pipeline calls four methods that no class of the repository
    defines.  Whatever such a method would do stands here as a parameter;
    the attribute lookup in front of each call decides whether it runs. *)
Variable update : string -> list RedacaoField -> M bool.
Variable create : collection -> dict -> M unit.
Variable find_similar_redacoes : list float -> Z -> M (list dict).

(** [redacao_repository.update(redacao_id, fields)] *)
Definition redacao_repository_update (redacao_id : string)
    (fields : list RedacaoField) : M bool :=
  global "redacao_repository" ;;;
  attribute "RedacaoRepository" RedacaoRepository_attributes "update" ;;;
  update redacao_id fields.

(** [embedding_repository.create({...})] *)
Definition embedding_repository_create (redacao_id : string)
    (vector : list float) (texto : string) : M unit :=
  global "embedding_repository" ;;;
  attribute "EmbeddingRepository" EmbeddingRepository_attributes "create" ;;;
  create Embeddings
    [("redacao_id", VStr redacao_id);
     ("vector", VList (map VNum vector));
     ("texto", VStr texto)].

(** [rag_manager.find_similar_redacoes(embedding, limite=3)] *)
Definition rag_manager_find_similar_redacoes (embedding : list float)
    (limite : Z) : M (list dict) :=
  global "rag_manager" ;;;
  attribute "RAGManager" RAGManager_attributes "find_similar_redacoes" ;;;
  find_similar_redacoes embedding limite.

(** [analise_repository.create(analise)] *)
Definition analise_repository_create (analise : dict) : M unit :=
  global "analise_repository" ;;;
  attribute "AnaliseRepository" AnaliseRepository_attributes "create" ;;;
  create Analises analise.

(** The loop over [redacoes_similares]: an entry whose [_id] is the
    redação being processed is passed over. *)
Fixpoint contexto_loop (redacao_id : string) (redacoes_similares : list dict)
    (contexto_adicional : list pyval) : M (list pyval) :=
  match redacoes_similares with
  | [] => ret contexto_adicional
  | redacao_similar :: rest =>
      let similar_id := dict_get_default "_id" VNone redacao_similar in
      if truthy similar_id && differs_from_str similar_id redacao_id then
        analise_similar <- AnaliseRepository.find_by_redacao (py_str similar_id) ;;
        match analise_similar with
        | Some a =>
            if truthy (VDict a) then
              contexto_loop redacao_id rest
                (contexto_adicional ++
                   [VDict [("nota", dict_get_default "nota_geral" (VNum 0) a);
                           ("resumo", dict_get_default "resumo_executivo" (VStr "") a);
                           ("pontos_fortes", dict_get_default "pontos_fortes" (VList []) a)]])
            else contexto_loop redacao_id rest contexto_adicional
        | None => contexto_loop redacao_id rest contexto_adicional
        end
      else contexto_loop redacao_id rest contexto_adicional
  end.

Definition processar_redacao_async (redacao_id texto : string)
    (titulo : option string) (usuario_id : string) (file_path : option string)
  : M unit :=
  try_except
    (redacao_repository_update redacao_id [Status "processando"] ;;;
     if Nat.ltb (String.length texto) 50 then
       redacao_repository_update redacao_id
         [Status "erro";
          MensagemErro "Texto muito curto para análise detalhada. Mínimo de 50 caracteres requerido."] ;;;
       ret tt
     else
       embedding <-
         try_except
           (v <- RAGManager.generate_embedding rag_manager texto ;;
            await_list v)
           (fun e =>
              logger "ERROR" ("Erro ao gerar embedding: " ++ exn_str e) ;;;
              ret None) ;;
       contexto_adicional <-
         match embedding with
         | Some (x :: v) =>
             embedding_repository_create redacao_id (x :: v) (substring 0 200 texto) ;;;
             redacoes_similares <- rag_manager_find_similar_redacoes (x :: v) 3 ;;
             contexto <- contexto_loop redacao_id redacoes_similares [] ;;
             ret (Some contexto)
         | _ => ret None
         end ;;
       logger "INFO" ("Iniciando análise com agente de IA para redação " ++ redacao_id) ;;;
       exists_file <-
         match file_path with
         | Some (String c p) => gets (fun w => path_exists (svc w) (String c p))
         | _ => ret false
         end ;;
       analysis_result <-
         (if exists_file then
            let path := match file_path with Some p => p | None => "" end in
            logger "INFO" ("Usando arquivo original para análise: " ++ path) ;;;
            doc_result <- IAAgent.process_document IAAgent.ia_agent path ;;
            if negb (dict_has "error" doc_result)
               && truthy (dict_get_default "analysis" VNone doc_result)
            then ret (dict_get_default "analysis" VNone doc_result)
            else
              logger "WARNING"
                ("Falha ao processar documento original, usando texto extraído: "
                   ++ py_str (dict_get_default "error" (VStr "") doc_result)) ;;;
              IAAgent.analyze_text IAAgent.ia_agent texto
          else
            logger "INFO" ("Usando texto extraído para análise de redação " ++ redacao_id) ;;;
            IAAgent.analyze_text IAAgent.ia_agent texto) ;;
       has_error <- lift (contains_str "error" analysis_result) ;;
       analysis_result <-
         (if has_error then
            global "logger" ;;;
            error <- lift (subscript "error" analysis_result) ;;
            emit "ERROR" ("Erro na análise com IA: " ++ py_str error) ;;;
            ret (VDict [])
          else ret analysis_result) ;;
       sugestoes <-
         (if truthy analysis_result
          then IAAgent.generate_improvement_suggestions IAAgent.ia_agent texto analysis_result
          else ret (VList [])) ;;
       pontos_chave <-
         (if negb (String.eqb texto "")
          then IAAgent.extract_key_points IAAgent.ia_agent texto 5
          else ret (VList [])) ;;
       campos <- lift (campos_da_analise redacao_id titulo analysis_result
                         sugestoes pontos_chave) ;;
       contexto <- local "contexto_adicional" contexto_adicional ;;
       let analise := campos ++ [("contexto_adicional", VList contexto)] in
       analise_repository_create analise ;;;
       redacao_repository_update redacao_id
         [Status "concluida"; AnaliseDisponivel true] ;;;
       ret tt)
    (fun e =>
       logger "ERROR" ("Erro no processamento assíncrono: " ++ exn_str e) ;;;
       redacao_repository_update redacao_id
         [Status "erro";
          MensagemErro ("Erro ao processar redação: " ++ exn_str e)] ;;;
       ret tt).

End Pipeline.

End Main.

(** ** [app/database/repositories.py]: the queries and the removals *)

Module RepositoryQueries.

Import Repositories.

(** The collections behind [embedding_repository] and
    [corpus_repository]. *)
Definition embeddings_collection : Collection Embedding :=
  {| coll := Embeddings;
     docs := embeddings;
     has_id := fun o e => N.eqb (e_id e) o |}.

Definition corpus_exemplos_collection : Collection CorpusExemplo :=
  {| coll := CorpusExemplos;
     docs := corpus_exemplos;
     has_id := fun o c => N.eqb (c_id c) o |}.

(** pymongo's cursor.  [skip] refuses a negative number; [limit(0)] is no
    limit, and a negative limit asks for a single batch, which holds at
    most 101 documents. *)
Definition cursor_skip (skip : Z) : outcome nat :=
  if (skip <? 0)%Z then Raise (ValueError "skip must be >= 0")
  else Return (Z.to_nat skip).

Definition cursor_limit {A} (limit : Z) (l : list A) : list A :=
  if (limit =? 0)%Z then l
  else if (0 <? limit)%Z then firstn (Z.to_nat limit) l
  else firstn (Nat.min 101 (Z.to_nat (- limit))) l.

Section BaseRepositoryQueries.

Context {D : Type} `{Collection D}.

Definition find_many (filter : D -> bool) (limit skip : Z) : M (list D) :=
  try_except
    (n <- lift (cursor_skip skip) ;;
     reach coll ;;;
     gets (fun w =>
       cursor_limit limit (skipn n (List.filter filter (docs (db w))))))
    (fun e =>
       logger "ERROR" ("Erro na busca find_many: " ++ exn_str e) ;;;
       ret []).

(** [count(filter)]: [filter or {}] counts every document when no filter
    is given. *)
Definition count (filter : option (D -> bool)) : M nat :=
  try_except
    (reach coll ;;;
     gets (fun w =>
       List.length
         (List.filter (match filter with
                       | Some f => f
                       | None => fun _ => true
                       end) (docs (db w)))))
    (fun e =>
       logger "ERROR" ("Erro ao contar documentos: " ++ exn_str e) ;;;
       ret 0).

End BaseRepositoryQueries.

(** [delete_one] takes out the first document that matches. *)
Fixpoint remove_first {A} (p : A -> bool) (l : list A) : list A :=
  match l with
  | [] => []
  | x :: l' => if p x then l' else x :: remove_first p l'
  end.

Section BaseRepositoryRemoval.

Context {D : Type} `{Settable D}.

(** [delete_one({"_id": ObjectId(id)})], then [result.deleted_count > 0] *)
Definition delete_one (id : string) : M bool :=
  try_except
    (o <- lift (ObjectId.of_str id) ;;
     reach coll ;;;
     fun w =>
       (Return (existsb (has_id o) (docs (db w))),
        with_db (put_docs (remove_first (has_id o) (docs (db w))) (db w)) w))
    (fun e =>
       logger "ERROR" ("Erro ao deletar documento: " ++ exn_str e) ;;;
       ret false).

End BaseRepositoryRemoval.

(** The document with [_id] set. *)
Definition with_r_id (o : N) (r : Redacao) : Redacao :=
  {| r_id := o;
     r_usuario_id := r_usuario_id r;
     r_titulo := r_titulo r;
     r_status := r_status r;
     r_data_envio := r_data_envio r;
     r_data_conclusao := r_data_conclusao r;
     r_texto_extraido := r_texto_extraido r;
     r_mensagem_erro := r_mensagem_erro r;
     r_analise_disponivel := r_analise_disponivel r |}.

(** [insert_one] on the redações.  The dictionary carries an [_id] or
    none ([_id]; the record's own [r_id] is not read): the driver gives a
    document without one a new [ObjectId] before it contacts the store,
    and the store refuses an [_id] it already holds. *)
Definition insert_one (_id : option N) (document : Redacao) : M (option string) :=
  try_except
    (o <- match _id with
          | Some o => ret o
          | None =>
              o <- gets next_oid ;;
              modify (fun w => with_next_oid (N.succ o) w) ;;;
              ret o
          end ;;
     reach Redacoes ;;;
     fun w =>
       if existsb (has_id o) (redacoes (db w))
       then (Raise (PyMongoError "redacoes"), w)
       else (Return (Some (ObjectId.to_str o)),
             with_db (with_redacoes (redacoes (db w) ++ [with_r_id o document])
                        (db w)) w))
    (fun e =>
       logger "ERROR" ("Erro ao inserir documento: " ++ exn_str e) ;;;
       ret None).

(** [RedacaoRepository.find_pendentes] *)
Definition find_pendentes (limit : Z) : M (list Redacao) :=
  find_many (D := Redacao) (fun r => String.eqb (r_status r) "pendente") limit 0.

(** [RedacaoRepository.find_by_user] *)
Definition find_by_user (user_id : string) (limit skip : Z) : M (list Redacao) :=
  o <- lift (ObjectId.of_str user_id) ;;
  find_many (D := Redacao) (fun r => N.eqb (r_usuario_id r) o) limit skip.

(** [EmbeddingRepository.find_by_redacao] *)
Definition embedding_find_by_redacao (redacao_id : string) : M (option Embedding) :=
  o <- lift (ObjectId.of_str redacao_id) ;;
  @find_one Embedding embeddings_collection (fun e => N.eqb (e_redacao_id e) o).

(** [CorpusExemploRepository.find_by_categoria] *)
Definition find_by_categoria (categoria : string) (limit : Z)
  : M (list CorpusExemplo) :=
  @find_many CorpusExemplo corpus_exemplos_collection
    (fun c => String.eqb (c_categoria c) categoria) limit 0.

(** [CorpusExemploRepository.find_high_quality] *)
Definition find_high_quality (min_nivel : float) (limit : Z)
  : M (list CorpusExemplo) :=
  @find_many CorpusExemplo corpus_exemplos_collection
    (fun c => PrimFloat.leb min_nivel (c_nivel_qualidade c)) limit 0.

End RepositoryQueries.

(** ** Exceptions of the web layer

    The endpoints of [main.py] raise [HTTPException], and the file
    processor raises [ImportError]; both derive from [Exception]. *)

Module Raised.

Inductive exception : Type :=
| Plain (e : exn)
| ImportError (msg : string)
| HTTPException (status_code : Z) (detail : string).

Inductive result (A : Type) : Type :=
| Returns (a : A)
| Raises (e : exception).
Arguments Returns {A} a.
Arguments Raises {A} e.

(** State passing over a state [S], with these exceptions. *)
Definition H (S A : Type) : Type := S -> result A * S.

Definition ret_h {S A} (a : A) : H S A := fun s => (Returns a, s).

Definition raise_h {S A} (e : exception) : H S A := fun s => (Raises e, s).

Definition bind_h {S A B} (m : H S A) (k : A -> H S B) : H S B :=
  fun s =>
    match m s with
    | (Returns a, s') => k a s'
    | (Raises e, s') => (Raises e, s')
    end.

(** [try: body  except ...: handler]; the handler looks at the class of
    what it caught. *)
Definition try_h {S A} (body : H S A) (handler : exception -> H S A) : H S A :=
  fun s =>
    match body s with
    | (Returns a, s') => (Returns a, s')
    | (Raises e, s') => handler e s'
    end.

(** A call into the code embedded in [M]. *)
Definition call {A} (m : M A) : H World A :=
  fun w =>
    match m w with
    | (Return a, w') => (Returns a, w')
    | (Raise e, w') => (Raises (Plain e), w')
    end.

End Raised.
Export Raised.

Declare Scope http_scope.
Delimit Scope http_scope with http.
Notation "x <- m ;; k" := (bind_h m (fun x => k))
  (at level 61, m at next level, right associativity) : http_scope.
Notation "m ;;; k" := (bind_h m (fun _ => k))
  (at level 61, right associativity) : http_scope.

(** ** Python's [str.strip] *)

Module PyStr.

(** [c.isspace()] for a character below U+0100 *)
Definition isspace (c : ascii) : bool :=
  let n := nat_of_ascii c in
  (Nat.leb 9 n && Nat.leb n 13) || (Nat.leb 28 n && Nat.leb n 32)
  || Nat.eqb n 133 || Nat.eqb n 160.

Fixpoint lstrip (s : string) : string :=
  match s with
  | EmptyString => EmptyString
  | String c s' => if isspace c then lstrip s' else s
  end.

Fixpoint rstrip (s : string) : string :=
  match s with
  | EmptyString => EmptyString
  | String c s' =>
      match rstrip s' with
      | EmptyString => if isspace c then EmptyString else String c EmptyString
      | r => String c r
      end
  end.

Definition strip (s : string) : string := rstrip (lstrip s).

End PyStr.

(** ** [app/utils/file_processor.py] *)

Module FileProcessor.

Local Open Scope http_scope.

(** The instance: which of the optional libraries could be imported. *)
Record t : Type := {
  has_pdf_support : bool;
  has_docx_support : bool;
  has_doc_support : bool
}.

Definition logger (level message : string) : H World unit := call (emit level message).

Section Extraction.

(** [Path(name).suffix.lower()], as pathlib and [str] compute it. *)
Variable suffix_lower : string -> string.

(** The temporary file: [NamedTemporaryFile(delete=False)] and the write
    give its path, [os.unlink] removes it. *)
Variable write_temporary : string -> outcome string.
Variable unlink : string -> outcome unit.

(** What the libraries read from the file at a path: PyPDF2, python-docx,
    textract and [open(...).read()]. *)
Variable read_pdf read_docx read_doc read_txt : string -> outcome string.

Definition _determine_file_type (file_name content_type : option string)
  : outcome string :=
  let by_name :=
    match file_name with
    | Some (String c n) =>
        let extension := suffix_lower (String c n) in
        if String.eqb extension ".pdf" then Return "pdf"
        else if String.eqb extension ".docx" then Return "docx"
        else if String.eqb extension ".doc" then Return "doc"
        else if String.eqb extension ".txt" then Return "txt"
        else Raise (ValueError "Não foi possível determinar o tipo de arquivo")
    | _ => Raise (ValueError "Não foi possível determinar o tipo de arquivo")
    end in
  match content_type with
  | Some (String c t) =>
      let content_type := String c t in
      if String.eqb content_type "application/pdf" then Return "pdf"
      else if String.eqb content_type
                "application/vnd.openxmlformats-officedocument.wordprocessingml.document"
      then Return "docx"
      else if String.eqb content_type "application/msword" then Return "doc"
      else if String.eqb content_type "text/plain" then Return "txt"
      else by_name
  | _ => by_name
  end.

(** The four [_extract_from_...] methods: without the library
    [ImportError]; a failure of the library is logged and gives [""]. *)
Definition extract_with (supported : bool) (missing failed : string)
    (read : string -> outcome string) (file_path : string) : H World string :=
  if supported then
    match read file_path with
    | Return text => ret_h text
    | Raise e => logger "ERROR" (failed ++ exn_str e) ;;; ret_h ""
    end
  else raise_h (ImportError missing).

Definition _extract_from_pdf (self : t) : string -> H World string :=
  extract_with (has_pdf_support self) "Suporte a PDF não disponível"
    "Erro ao extrair texto do PDF: " read_pdf.

Definition _extract_from_docx (self : t) : string -> H World string :=
  extract_with (has_docx_support self) "Suporte a DOCX não disponível"
    "Erro ao extrair texto do DOCX: " read_docx.

Definition _extract_from_doc (self : t) : string -> H World string :=
  extract_with (has_doc_support self) "Suporte a DOC não disponível"
    "Erro ao extrair texto do DOC: " read_doc.

Definition _extract_from_txt (self : t) : string -> H World string :=
  extract_with true "" "Erro ao extrair texto do TXT: " read_txt.

(** [try: body  finally: cleanup]: an exception of the cleanup replaces
    what the body returned or raised. *)
Definition finally {A} (body : H World A) (cleanup : H World unit) : H World A :=
  fun w =>
    match body w with
    | (r, w') =>
        match cleanup w' with
        | (Returns _, w'') => (r, w'')
        | (Raises e, w'') => (Raises e, w'')
        end
    end.

Definition extract_text (self : t) (file_content : string)
    (file_name content_type : option string) : H World string :=
  if String.eqb file_content "" then ret_h ""
  else
    file_type <- call (lift (_determine_file_type file_name content_type)) ;;
    temp_path <- call (lift (write_temporary file_content)) ;;
    finally
      (if String.eqb file_type "pdf" then _extract_from_pdf self temp_path
       else if String.eqb file_type "docx" then _extract_from_docx self temp_path
       else if String.eqb file_type "doc" then _extract_from_doc self temp_path
       else if String.eqb file_type "txt" then _extract_from_txt self temp_path
       else raise_h (Plain (ValueError ("Formato de arquivo não suportado: " ++ file_type))))
      (call (lift (unlink temp_path))).

End Extraction.

End FileProcessor.

(** ** [app/api/main.py]: the endpoints *)

Module Endpoints.

Import Repositories RepositoryQueries.

Local Open Scope http_scope.

(** What an endpoint reads of a FastAPI [UploadFile]. *)
Record UploadFile : Type := {
  content_type : option string;
  filename : option string;
  content : string
}.

(** A call of [processar_redacao_async] handed to [background_tasks]. *)
Record Task : Type := {
  task_redacao_id : string;
  task_texto : string;
  task_titulo : option string;
  task_usuario_id : option string;
  task_file_path : option string
}.

(** The server: the world of the embedded code, the tasks waiting to run
    and the files written under [data/redacoes]. *)
Record Server : Type := {
  world : World;
  background_tasks : list Task;
  files : list (string * string)
}.

Definition on_world {A} (m : H World A) : H Server A :=
  fun s =>
    match m (world s) with
    | (r, w') =>
        (r, {| world := w'; background_tasks := background_tasks s;
               files := files s |})
    end.

(** The answer of [GET /api/redacao/{id}/status]. *)
Record StatusResponse : Type := {
  sr_redacao_id : string;
  sr_status : string;
  sr_titulo : option string;
  sr_data_envio : Z;
  sr_data_conclusao : option Z;
  sr_analise_disponivel : bool
}.

(** The answer of [POST /api/analisar]. *)
Record Accepted : Type := {
  ac_status : string;
  ac_redacao_id : string;
  ac_mensagem : string
}.

(** [d[key] = v] and [del d[key]] on a dictionary, which holds a key
    once. *)
Definition dict_set (key : string) (v : pyval) (d : dict) : dict :=
  if dict_has key d
  then map (fun kv => if String.eqb (fst kv) key then (key, v) else kv) d
  else d ++ [(key, v)].

Definition dict_del (key : string) (d : dict) : dict :=
  filter (fun kv => negb (String.eqb (fst kv) key)) d.

(** [str(value)] in place of a value that is an [ObjectId]. *)
Definition stringify (value : pyval) : pyval :=
  match value with
  | VObjectId o => VStr (ObjectId.to_str o)
  | _ => value
  end.

Definition tipos_permitidos : list string :=
  ["text/plain"; "application/pdf"; "application/msword";
   "application/vnd.openxmlformats-officedocument.wordprocessingml.document"].

Section Endpoints.

(** [str(e)] for an [HTTPException], which the Starlette at hand
    decides. *)
Variable http_str : Z -> string -> string.

Definition exception_str (e : exception) : string :=
  match e with
  | Plain e => exn_str e
  | ImportError msg => msg
  | HTTPException status_code detail => http_str status_code detail
  end.

(** [logger.<level>(message)] in [main.py], where the name is not
    defined. *)
Definition logger (level message : string) : H Server unit :=
  on_world (call (Main.logger level message)).

Definition verificar_status_redacao (redacao_id : string) : H World StatusResponse :=
  try_h
    (redacao <- call (find_by_id (D := Redacao) redacao_id) ;;
     match redacao with
     | None => raise_h (HTTPException 404 "Redação não encontrada")
     | Some redacao =>
         analise <-
           (if String.eqb (r_status redacao) "concluida"
            then call (AnaliseRepository.find_by_redacao redacao_id)
            else ret_h None) ;;
         ret_h {| sr_redacao_id := redacao_id;
                  sr_status := r_status redacao;
                  sr_titulo := r_titulo redacao;
                  sr_data_envio := r_data_envio redacao;
                  sr_data_conclusao := r_data_conclusao redacao;
                  sr_analise_disponivel :=
                    match analise with Some _ => true | None => false end |}
     end)
    (fun e =>
       raise_h (HTTPException 500 ("Erro ao verificar status: " ++ exception_str e))).

(** The analysis as the endpoint hands it out: every value that is an
    [ObjectId] becomes its string, and [_id] moves to [id]. *)
Definition analise_publica (analise : dict) : dict :=
  let analise := map (fun kv => (fst kv, stringify (snd kv))) analise in
  match dict_get "_id" analise with
  | Some id => dict_del "_id" (dict_set "id" (VStr (Main.py_str id)) analise)
  | None => analise
  end.

Definition obter_analise_redacao (redacao_id : string) : H World dict :=
  try_h
    (redacao <- call (find_by_id (D := Redacao) redacao_id) ;;
     match redacao with
     | None => raise_h (HTTPException 404 "Redação não encontrada")
     | Some redacao =>
         if negb (String.eqb (r_status redacao) "concluida") then
           ret_h [("status", VStr (r_status redacao));
                  ("redacao_id", VStr redacao_id);
                  ("mensagem",
                   VStr "Redação ainda está sendo processada ou ocorreu um erro")]
         else
           analise <- call (AnaliseRepository.find_by_redacao redacao_id) ;;
           match analise with
           | Some (kv :: analise) => ret_h (analise_publica (kv :: analise))
           | _ => raise_h (HTTPException 404 "Análise não encontrada")
           end
     end)
    (fun e =>
       raise_h (HTTPException 500 ("Erro ao obter análise: " ++ exception_str e))).

(** [open(path)] and [json.load] *)
Variable json_load : string -> outcome pyval.

Definition get_exemplo (titulo : string) : H World pyval :=
  try_h
    (let exemplo_path := ("data/redacoes/" ++ titulo ++ ".json")%string in
     found <- call (gets (fun w => path_exists (svc w) exemplo_path)) ;;
     if negb found then
       raise_h (HTTPException 404 ("Exemplo '" ++ titulo ++ "' não encontrado"))
     else call (lift (json_load exemplo_path)))
    (fun e =>
       raise_h (HTTPException 500 ("Erro ao buscar exemplo: " ++ exception_str e))).

(** *** [analisar_redacao] *)

(** pathlib, the temporary file and the libraries of the file processor
    (see [FileProcessor]). *)
Variable suffix_lower : string -> string.
Variable write_temporary : string -> outcome string.
Variable unlink : string -> outcome unit.
Variable read_pdf read_docx read_doc read_txt : string -> outcome string.

(** The instance [file_processor = FileProcessor()]. *)
Variable file_processor : FileProcessor.t.

(** The body of the [try] that finds or creates the user, through
    [user_repository] on the [users] collection, which lies outside the
    modelled store: what it does stands here as a parameter.  It gives the
    user's id, or [None] when the insertion failed. *)
Variable usuario : option string -> M (option string).

(** [datetime.now().strftime('%d/%m/%Y')] *)
Variable strftime : Z -> string.

(** [os.makedirs(dir, exist_ok=True)], and [open(path, "wb")] with the
    write. *)
Variable makedirs : string -> outcome unit.
Variable write_binary : string -> string -> outcome unit.

(** The format check: the content type, then the extension. *)
Definition tipo_valido (arquivo : UploadFile) : bool :=
  let tipo_valido :=
    match content_type arquivo with
    | Some t => existsb (String.eqb t) tipos_permitidos
    | None => false
    end in
  if tipo_valido then true
  else
    let extensao :=
      match filename arquivo with
      | Some (String c n) => suffix_lower (String c n)
      | _ => ""
      end in
    existsb (String.eqb extensao) [".txt"; ".pdf"; ".doc"; ".docx"].

(** [ObjectId()] *)
Definition new_object_id : H Server N :=
  on_world (call (o <- gets next_oid ;;
                  modify (fun w => with_next_oid (N.succ o) w) ;;;
                  ret o)%py).

(** [ObjectId(usuario_id)]: [ObjectId(None)] is a new id. *)
Definition usuario_object_id (usuario_id : option string) : H Server N :=
  match usuario_id with
  | Some id => on_world (call (lift (ObjectId.of_str id)))
  | None => new_object_id
  end.

(** [f"{v}"] for an optional string *)
Definition format_optional (v : option string) : string :=
  match v with Some s => s | None => "None" end.

Definition save_file (path conteudo : string) : H Server unit :=
  fun s =>
    match write_binary path conteudo with
    | Return _ =>
        (Returns tt,
         {| world := world s; background_tasks := background_tasks s;
            files := files s ++ [(path, conteudo)] |})
    | Raise e => (Raises (Plain e), s)
    end.

Definition add_task (task : Task) : H Server unit :=
  fun s =>
    (Returns tt,
     {| world := world s; background_tasks := background_tasks s ++ [task];
        files := files s |}).

Definition analisar_redacao (arquivo : UploadFile) (titulo : option string)
    (usuario_email : option string) (usar_agente_ia : bool) : H Server Accepted :=
  try_h
    (if negb (tipo_valido arquivo) then
       raise_h (HTTPException 400
                  "Formato de arquivo não suportado. Use .txt, .pdf, .doc ou .docx")
     else
       let conteudo := content arquivo in
       usuario_id <-
         try_h (on_world (call (usuario usuario_email)))
           (fun e =>
              logger "ERROR" ("Erro ao processar usuário: " ++ exception_str e) ;;;
              ret_h (Some "000000000000000000000000")) ;;
       texto <-
         try_h
           (on_world
              (FileProcessor.extract_text suffix_lower write_temporary unlink
                 read_pdf read_docx read_doc read_txt file_processor
                 conteudo (filename arquivo) (content_type arquivo)))
           (fun e =>
              raise_h (HTTPException 400
                         ("Não foi possível extrair texto do arquivo: "
                            ++ exception_str e))) ;;
       if String.eqb texto "" || Nat.ltb (String.length (PyStr.strip texto)) 50 then
         raise_h (HTTPException 400 "Texto extraído muito curto ou vazio")
       else
         new_id <- new_object_id ;;
         let redacao_id := ObjectId.to_str new_id in
         id <- on_world (call (lift (ObjectId.of_str redacao_id))) ;;
         usuario_oid <- usuario_object_id usuario_id ;;
         titulo_padrao <-
           match titulo with
           | Some (String c t) => ret_h (String c t)
           | _ =>
               now <- on_world (call datetime_now) ;;
               ret_h ("Redação " ++ strftime now)%string
           end ;;
         now <- on_world (call datetime_now) ;;
         on_world (call (insert_one (Some id)
           {| r_id := id;
              r_usuario_id := usuario_oid;
              r_titulo := Some titulo_padrao;
              r_status := "processando";
              r_data_envio := now;
              r_data_conclusao := None;
              r_texto_extraido := texto;
              r_mensagem_erro := None;
              r_analise_disponivel := None |})) ;;;
         arquivo_salvo <-
           (if usar_agente_ia then
              let arquivo_dir := "data/redacoes" in
              on_world (call (lift (makedirs arquivo_dir))) ;;;
              let arquivo_path :=
                (arquivo_dir ++ "/" ++ redacao_id ++ "_"
                   ++ format_optional (filename arquivo))%string in
              save_file arquivo_path conteudo ;;;
              logger "INFO"
                ("Arquivo salvo em " ++ arquivo_path
                   ++ " para processamento pelo agente de IA") ;;;
              ret_h (Some arquivo_path)
            else ret_h None) ;;
         add_task {| task_redacao_id := redacao_id;
                     task_texto := texto;
                     task_titulo := titulo;
                     task_usuario_id := usuario_id;
                     task_file_path := arquivo_salvo |} ;;;
         ret_h {| ac_status := "processando";
                  ac_redacao_id := redacao_id;
                  ac_mensagem := "Redação recebida e está sendo processada" |})
    (fun e =>
       match e with
       | HTTPException _ _ => raise_h e
       | _ =>
           logger "ERROR"
             ("Erro ao processar upload de redação: " ++ exception_str e) ;;;
           raise_h (HTTPException 500
                      ("Erro ao processar a redação: " ++ exception_str e))
       end).

End Endpoints.

End Endpoints.

(** * Statements

    The predicates the properties below are stated with. *)

Module Props.

Import RAGManager.

(** A number is a NaN exactly when it differs from itself. *)
Definition is_number (x : float) : bool := PrimFloat.eqb x x.

Definition zero_norm (v : list float) : Prop :=
  PrimFloat.eqb (Numpy.norm v) 0 = true.

(** The property of [_cosine_similarity] as the specification words it:
    whenever one of the two vectors has norm zero the function returns
    0.0. *)
Definition returns_zero_on_zero_norm (vec1 vec2 : list float) : Prop :=
  zero_norm vec1 \/ zero_norm vec2 ->
  _cosine_similarity vec1 vec2 = Return 0%float.

(** No entry is followed by one with a larger score. *)
Definition descending (l : list Hit) : Prop :=
  Sorted (fun a b => PrimFloat.leb (h_score b) (h_score a) = true) l.

(** Every entry is followed by one with a smaller score. *)
Definition strictly_descending (l : list Hit) : Prop :=
  Sorted (fun a b => PrimFloat.ltb (h_score b) (h_score a) = true) l.

Definition has_vector (doc : Embedding) : bool :=
  match e_vector_embedding doc with Some _ => true | None => false end.

(** Every stored vector has as many components as the query vector. *)
Definition same_dimension (query : list float) (docs : list Embedding) : Prop :=
  Forall (fun doc => forall v, e_vector_embedding doc = Some v ->
                               List.length v = List.length query) docs.

(** No similarity computed against the query vector is a NaN. *)
Definition scores_are_numbers (query : list float) (docs : list Embedding) : Prop :=
  Forall (fun doc => forall v s, e_vector_embedding doc = Some v ->
                                 _cosine_similarity query v = Return s ->
                                 is_number s = true) docs.

(** The entry the scan builds for a stored record and a score. *)
Definition entry_of (doc : Embedding) (score : float) : Hit :=
  {| h_id := e_id doc;
     h_redacao_id := e_redacao_id doc;
     h_titulo := e_titulo doc;
     h_texto_snippet := match e_texto_snippet doc with Some s => s | None => "" end;
     h_score := score |}.

(** [h] is the entry of the stored record [doc], and its score is the
    cosine similarity of the record's vector to the query. *)
Definition scored_by_cosine (query : list float) (doc : Embedding) (h : Hit) : Prop :=
  exists v,
    e_vector_embedding doc = Some v /\
    _cosine_similarity query v = Return (h_score h) /\
    h = entry_of doc (h_score h).

(** [hits] are the leading entries of a descending arrangement of the
    entries of all stored records that carry a vector, each scored by
    cosine similarity to the query. *)
Definition best_by_cosine (query : list float) (docs : list Embedding)
    (hits : list Hit) : Prop :=
  exists entries ranked rest,
    Forall2 (scored_by_cosine query) (filter has_vector docs) entries /\
    Permutation entries ranked /\
    descending ranked /\
    ranked = hits ++ rest.

(** The ranking of the exhaustive scan as the specification words it. *)
Definition ranks_strictly (query : list float) (docs : list Embedding) (k : Z) : Prop :=
  exists hits,
    exhaustive_scan query docs k = Return hits /\
    strictly_descending hits /\
    Z.of_nat (List.length hits) = Z.min k (Z.of_nat (List.length docs)).

(** The vector [generate_embedding] hands back for [text] in world [w],
    when the client is configured: the provider's first embedding, or
    1536 zeros when the provider fails. *)
Definition generated_vector (w : World) (text : string) : list float :=
  match embeddings_create (svc w) (List.length (embedding_requests w))
          (substring 0 8000 text) with
  | Return (embedding :: _) => embedding
  | _ => repeat 0%float 1536
  end.

(** The native index gives [vector_search] nothing to return: it is not
    there, the aggregation fails, or it finds no record. *)
Definition native_search_empty (self : t) (w : World) (query : list float) (k : Z) : Prop :=
  has_vector_search self = false \/
  match vector_search_aggregate (svc w) query k with
  | Return (_ :: _) => False
  | _ => True
  end.

(** A stored embedding record. *)
Definition embedding_doc (id redacao : N) (v : option (list float)) : Embedding :=
  {| e_id := id; e_redacao_id := redacao; e_titulo := None;
     e_texto_snippet := Some "texto"; e_vector_embedding := v;
     e_modelo_embedding := "text-embedding-3-small"; e_data_criacao := 0 |}.

Definition numbered (h : Hit) : Prop := is_number (h_score h) = true.

(** [w'] has the documents, the services, the identifier counter and the
    clock of [w]: what happened in between only asked the providers and
    wrote to the log. *)
Definition same_store (w w' : World) : Prop :=
  db w' = db w /\ svc w' = svc w /\ next_oid w' = next_oid w /\ clock w' = clock w.

Definition configured : RAGManager.t :=
  {| openai_client := Some "sk-test"; has_vector_search := false |}.

Definition unconfigured : RAGManager.t :=
  {| openai_client := None; has_vector_search := false |}.

(** Services in which the embedding provider answers [[1.0, 0.0]], the
    chat provider answers text that is not JSON, the native index finds
    nothing, every collection can be reached and no file exists. *)
Definition plain_services : Services :=
  {| embeddings_create := fun _ _ => Return [[1; 0]%float];
     chat_acreate := fun _ _ => Return (Malformed "not json");
     vector_search_aggregate := fun _ _ => Return [];
     collection_down := fun _ => false;
     path_exists := fun _ => false;
     extract_file_text := fun path => Raise (OSError path) |}.

Definition world_of (d : Database) (s : Services) : World :=
  {| db := d; next_oid := 100; clock := 0; svc := s;
     embedding_requests := []; chat_requests := []; sleeps := []; log := [] |}.

Definition empty_db : Database :=
  {| redacoes := []; analises := []; embeddings := []; corpus_exemplos := [] |}.

(** Two stored records with the same vector. *)
Definition twin_embeddings : list Embedding :=
  [embedding_doc 1 11 (Some [1; 0]%float); embedding_doc 2 12 (Some [1; 0]%float)].

(** One stored record, whose vector has three components. *)
Definition wide_embeddings : list Embedding :=
  [embedding_doc 1 11 (Some [1; 0; 0]%float)].

(** Three stored records, the second without a vector. *)
Definition ranked_db : Database :=
  {| redacoes := []; analises := [];
     embeddings := [embedding_doc 1 11 (Some [0; 1]%float);
                    embedding_doc 2 12 None;
                    embedding_doc 3 13 (Some [1; 0]%float)];
     corpus_exemplos := [] |}.

End Props.

Module StoreProps.

Import RAGManager Props.

(** The store gives every embedding record its own [_id], below the next
    identifier it will hand out. *)
Definition well_formed (w : World) : Prop :=
  NoDup (map e_id (embeddings (db w))) /\
  Forall (fun e => (e_id e < next_oid w)%N) (embeddings (db w)).

(** At most one embedding record per redação. *)
Definition one_embedding_per_redacao (w : World) : Prop :=
  NoDup (map e_redacao_id (embeddings (db w))).

Definition of_redacao (o : N) (e : Embedding) : bool := N.eqb (e_redacao_id e) o.

(** A call of [store_redacao_embedding]: the id, the text and the title. *)
Definition call : Type := (string * string * option string)%type.

(** The world after a sequence of calls, whatever each returned or
    raised. *)
Fixpoint store_all (self : t) (calls : list call) (w : World) : World :=
  match calls with
  | [] => w
  | (redacao_id, texto, titulo) :: rest =>
      store_all self rest
        (snd (store_redacao_embedding self redacao_id texto titulo w))
  end.

(** What a successful call for redação [o] leaves behind in [w'], having
    started in [w]: exactly one record for [o], holding the vector just
    generated, the first 1000 characters, the title and the time of the
    call; a record that was there before keeps its [_id] and its place;
    the records of other redações are still there. *)
Definition upserted (w w' : World) (o : N) (texto : string)
    (titulo : option string) (returned : string) : Prop :=
  exists r,
    filter (of_redacao o) (embeddings (db w')) = [r] /\
    e_vector_embedding r = Some (generated_vector w texto) /\
    e_texto_snippet r = Some (substring 0 1000 texto) /\
    e_titulo r = titulo /\
    e_data_criacao r = clock w /\
    returned = ObjectId.to_str (e_id r) /\
    (forall old, find (of_redacao o) (embeddings (db w)) = Some old ->
       map e_id (embeddings (db w')) = map e_id (embeddings (db w)) /\
       e_id r = e_id old) /\
    (forall e, In e (embeddings (db w)) -> e_redacao_id e <> o ->
       In e (embeddings (db w'))).

(** Services whose embedding provider answers the first request with
    [[1.0, 0.0]] and every later one with [[0.0, 1.0]]. *)
Definition changing_services : Services :=
  {| embeddings_create := fun n _ =>
       match n with
       | O => Return [[1; 0]%float]
       | S _ => Return [[0; 1]%float]
       end;
     chat_acreate := fun _ _ => Return (Malformed "not json");
     vector_search_aggregate := fun _ _ => Return [];
     collection_down := fun _ => false;
     path_exists := fun _ => false;
     extract_file_text := fun path => Raise (OSError path) |}.

End StoreProps.

Module StatusProps.

Import Repositories Props.

(** The two states the specification calls terminal. *)
Definition terminal (status : string) : bool :=
  String.eqb status "concluida" || String.eqb status "erro".

(** How far a status is along [pendente], [processando], then
    [concluida] or [erro]. *)
Definition rank (status : string) : option nat :=
  if String.eqb status "pendente" then Some 0
  else if String.eqb status "processando" then Some 1
  else if terminal status then Some 2
  else None.

(** [new] may stand where [old] stood: it is [old], or it lies further
    along the order. *)
Definition follows (old new : string) : bool :=
  String.eqb old new
  || match rank old, rank new with
     | Some m, Some n => Nat.ltb m n
     | _, _ => false
     end.

(** The stored status of redação [o]. *)
Definition status_of (o : N) (w : World) : option string :=
  option_map r_status (find (has_id o) (redacoes (db w))).

(** An operation leaves a redação that reached a terminal state in that
    state. *)
Definition keeps_terminal (operation : M bool) (o : N) (w : World) : Prop :=
  forall status,
    status_of o w = Some status -> terminal status = true ->
    status_of o (snd (operation w)) = Some status.

(** A redação as the ingestion endpoint creates it. *)
Definition redacao_doc (o : N) (status texto : string) : Redacao :=
  {| r_id := o; r_usuario_id := 0; r_titulo := Some "Redação";
     r_status := status; r_data_envio := 0; r_data_conclusao := None;
     r_texto_extraido := texto; r_mensagem_erro := None;
     r_analise_disponivel := None |}.

Definition db_with_redacao (o : N) (status texto : string) : Database :=
  {| redacoes := [redacao_doc o status texto]; analises := [];
     embeddings := []; corpus_exemplos := [] |}.

(** The id ["000000000000000000000001"]. *)
Definition id1 : string := ObjectId.to_str 1.

End StatusProps.

Module RetryProps.

Import IAAgent Props.

(** A decorated function that notes each time it runs and always fails. *)
Definition always_failing (e : exn) : M unit :=
  emit "ATTEMPT" "" ;;; raise e.

(** A chat provider that fails on its first two requests and answers the
    third with [{"pontos": ["tese"]}]. *)
Definition flaky_services : Services :=
  {| embeddings_create := fun _ _ => Return [[1; 0]%float];
     chat_acreate := fun n _ =>
       if Nat.ltb n 2 then Raise (ProviderError "rate limit")
       else Return (Parsed (VDict [("pontos", VList [VStr "tese"])]));
     vector_search_aggregate := fun _ _ => Return [];
     collection_down := fun _ => false;
     path_exists := fun _ => false;
     extract_file_text := fun path => Raise (OSError path) |}.

(** With a budget of three attempts, a call whose provider fails twice
    makes three requests and returns the third answer. *)
Definition third_attempt_succeeds (call : M pyval) (w : World) (answer : pyval) : Prop :=
  List.length (chat_requests (snd (call w))) = 3 /\
  fst (call w) = Return answer.

End RetryProps.

Module EnrichProps.

Import RAGManager Props.

Definition returns_normally {A} (m : M A) (w : World) : Prop :=
  exists a, fst (m w) = Return a.

(** The stored recommendations of an analysis, when they are a list, hold
    strings, numbers or other hashable values. *)
Definition hashable_recomendacoes (analise : dict) : Prop :=
  forall l, dict_get "recomendacoes" analise = Some (VList l) ->
            forallb hashable l = true.

(** The recommendations attached to an entry of the similar set can be
    iterated and put in a set. *)
Definition usable (s : Similar) : Prop :=
  forall a, s_analise s = Some a ->
    exists items, items_of (sa_principais_recomendacoes a) = Return items /\
                  forallb hashable items = true.

(** What a hit contributes to the similar set in the store of [w]: the
    entry its join with the redação and the analysis builds, and nothing
    when the join finds no redação or raises. *)
Definition contribution (w : World) (emb : Hit) : list Similar :=
  match fst (similar_of_hit emb w) with
  | Return (Some s) => [s]
  | _ => []
  end.

(** The embedding provider answers the next request for [texto] with an
    error, or with no embedding. *)
Definition provider_fails (w : World) (texto : string) : Prop :=
  match embeddings_create (svc w) (List.length (embedding_requests w))
          (substring 0 8000 texto) with
  | Return (_ :: _) => False
  | _ => True
  end.

(** Services of which one collection cannot be reached. *)
Definition services_without (c : collection) : Services :=
  {| embeddings_create := fun _ _ => Return [[1; 0]%float];
     chat_acreate := fun _ _ => Return (Malformed "not json");
     vector_search_aggregate := fun _ _ => Return [];
     collection_down := fun c' =>
       String.eqb (collection_name c') (collection_name c);
     path_exists := fun _ => false;
     extract_file_text := fun path => Raise (OSError path) |}.

(** Services whose embedding provider fails. *)
Definition services_with_failing_provider : Services :=
  {| embeddings_create := fun _ _ => Raise (ProviderError "rate limit");
     chat_acreate := fun _ _ => Return (Malformed "not json");
     vector_search_aggregate := fun _ _ => Return [];
     collection_down := fun _ => false;
     path_exists := fun _ => false;
     extract_file_text := fun path => Raise (OSError path) |}.

(** A store that holds a redação and an embedding of the provider's
    dimension for it. *)
Definition db_with_full_embedding : Database :=
  {| redacoes :=
       [ {| r_id := 1; r_usuario_id := 0; r_titulo := Some "Tema";
            r_status := "concluida"; r_data_envio := 0;
            r_data_conclusao := Some 1%Z; r_texto_extraido := "O texto.";
            r_mensagem_erro := None; r_analise_disponivel := Some true |} ];
     analises := [];
     embeddings := [embedding_doc 7 1 (Some (repeat 1%float 1536))];
     corpus_exemplos := [] |}.

Definition wide_db : Database :=
  {| redacoes := []; analises := []; embeddings := wide_embeddings;
     corpus_exemplos := [] |}.

(** A store that holds a redação, its embedding and an analysis whose
    recommendations are objects. *)
Definition db_with_object_recommendations : Database :=
  {| redacoes :=
       [ {| r_id := 1; r_usuario_id := 0; r_titulo := Some "Tema";
            r_status := "concluida"; r_data_envio := 0;
            r_data_conclusao := Some 1%Z; r_texto_extraido := "O texto.";
            r_mensagem_erro := None; r_analise_disponivel := Some true |} ];
     analises :=
       [ [("_id", VObjectId 5); ("redacao_id", VObjectId 1);
          ("recomendacoes", VList [VDict [("texto", VStr "Revisar")]])] ];
     embeddings := [embedding_doc 7 1 (Some [1; 0]%float)];
     corpus_exemplos := [] |}.

End EnrichProps.

Module PipelineProps.

Import RAGManager Repositories Props StatusProps.

(** No entry of a similar set is the redação with the given id. *)
Definition excludes (redacao_id : string) (similares : list Similar) : Prop :=
  Forall (fun s => s_id s <> redacao_id) similares.

(** The similar set retrieved for the text of a redação leaves that
    redação out. *)
Definition similar_set_excludes (self : t) (redacao_id texto : string)
    (w : World) : Prop :=
  forall similares,
    fst (get_similar_redacoes self texto 3 w) = Return similares ->
    excludes redacao_id similares.

(** A store that holds redação 1 and the embedding of its text. *)
Definition db_with_own_embedding : Database :=
  {| redacoes := [redacao_doc 1 "processando" "O texto da redacao."];
     analises := [];
     embeddings := [embedding_doc 7 1 (Some [1; 0]%float)];
     corpus_exemplos := [] |}.



(** A text of 50 characters. *)
Definition texto_50 : string := "Este texto tem exatos cinquenta caracteres ao todo".

(** The [mensagem_erro] stored for redação [o]. *)
Definition mensagem_erro_of (o : N) (w : World) : option (option string) :=
  option_map r_mensagem_erro (find (has_id o) (redacoes (db w))).

End PipelineProps.

Module AgentProps.

Import IAAgent Props.

(** Services whose chat provider gives every request the same answer. *)
Definition answering (answer : outcome content) : Services :=
  {| embeddings_create := fun _ _ => Return [[1; 0]%float];
     chat_acreate := fun _ _ => answer;
     vector_search_aggregate := fun _ _ => Return [];
     collection_down := fun _ => false;
     path_exists := fun _ => false;
     extract_file_text := fun path => Raise (OSError path) |}.

(** An answer to the key-point request that names no [pontos]: the list
    is found under another key. *)
Definition answer_with_topics : dict :=
  [("idioma", VStr "pt");
   ("topicos", VList [VStr "tese"; VStr "argumento"; VStr "proposta"])].

(** The text [analyze_text] sends for [text]. *)
Definition scored_text (text : string) : string :=
  if Nat.ltb 14000 (String.length text)
  then (substring 0 14000 text ++ "...")%string
  else text.

(** The excerpt [process_document] reports. *)
Definition text_extracted (text : string) : string :=
  if Nat.ltb 300 (String.length text)
  then (substring 0 300 text ++ "...")%string
  else text.

(** The answer of [analyze_text] to what the provider gave. *)
Definition analysis_of (answer : outcome content) : pyval :=
  match answer with
  | Return (Parsed analysis) => analysis
  | Return (Malformed _) =>
      VDict [("error", VStr "Resposta da IA não está em formato JSON válido")]
  | Raise e => VDict [("error", VStr ("Falha na análise: " ++ exn_str e))]
  end.

(** A competência the agent counts as weak: it carries a [nota] that is a
    number below 7.0 (or a boolean, which Python orders below 7.0). *)
Definition marked_weak (competencia : pyval) : bool :=
  match competencia with
  | VDict d =>
      match dict_get "nota" d with
      | Some (VNum x) => PrimFloat.ltb x 7
      | Some (VBool _) => true
      | _ => false
      end
  | _ => false
  end.

(** The competência and the justification of a weak point. *)
Definition point_of (competencia : pyval) : pyval * pyval :=
  match competencia with
  | VDict d =>
      (dict_get_default "competencia" VNone d,
       dict_get_default "justificativa" (VStr "") d)
  | _ => (VNone, VStr "")
  end.

Definition rubric_with_one_weak_point : list pyval :=
  [VDict [("competencia", VStr "Argumentação"); ("justificativa", VStr "Boa.")];
   VDict [("competencia", VStr "Proposta"); ("nota", VNum 6);
          ("justificativa", VStr "Pouco detalhada.")]].

End AgentProps.

Module RetrievalProps.

Import RAGManager Props.

(** The last record of a log. *)
Definition last_error (l : list LogRecord) : option LogRecord :=
  match rev l with
  | r :: _ => Some r
  | [] => None
  end.

(** From [w] to [w'] nothing was written: the documents, the services,
    the identifier counter and the clock are those of [w], no chat request
    was made and nothing waited; at most one embedding request was sent,
    carrying [sent]. *)
Definition read_only (w w' : World) (sent : string) : Prop :=
  same_store w w' /\
  chat_requests w' = chat_requests w /\
  sleeps w' = sleeps w /\
  (embedding_requests w' = embedding_requests w \/
   embedding_requests w' = embedding_requests w ++ [sent]).

(** From [w] to [w'] no provider was asked and nothing was written but
    log records. *)
Definition only_logged (w w' : World) : Prop :=
  same_store w w' /\
  embedding_requests w' = embedding_requests w /\
  chat_requests w' = chat_requests w /\
  sleeps w' = sleeps w.

(** The entry the scan builds for a stored record when every score is
    0.0. *)
Definition unranked (doc : Embedding) : Hit :=
  {| h_id := e_id doc;
     h_redacao_id := e_redacao_id doc;
     h_titulo := e_titulo doc;
     h_texto_snippet := match e_texto_snippet doc with Some s => s | None => "" end;
     h_score := 0 |}.

(** The entry [s] of a similar set was built from the hit [h] and the
    stored redação it names. *)
Definition built_from (w : World) (h : Hit) (s : Similar) : Prop :=
  exists redacao,
    In redacao (redacoes (db w)) /\
    r_id redacao = h_redacao_id h /\
    s_id s = ObjectId.to_str (r_id redacao) /\
    s_similarity_score s = h_score h /\
    s_texto_snippet s = h_texto_snippet h.

(** No value of the list equals an earlier one. *)
Definition distinct (l : list pyval) : Prop :=
  ForallOrdPairs (fun earlier later => hashable_eqb later earlier = false) l.

(** The recommendation [v] is one of those attached to an entry of the
    similar set. *)
Definition recommended_by (similares : list Similar) (v : pyval) : Prop :=
  exists s a items,
    In s similares /\ s_analise s = Some a /\
    items_of (sa_principais_recomendacoes a) = Return items /\ In v items.

(** The exemplar [x] reports a stored corpus example of category
    [exemplar] whose quality is at least 8.0. *)
Definition reports_exemplar (w : World) (x : Exemplo) : Prop :=
  exists c,
    In c (corpus_exemplos (db w)) /\
    x_id x = ObjectId.to_str (c_id c) /\
    x_titulo x = c_titulo c /\
    x_nivel_qualidade x = c_nivel_qualidade c /\
    c_categoria c = "exemplar" /\
    PrimFloat.leb 8 (c_nivel_qualidade c) = true.

(** The hit [h] reports a stored record that carries a vector, with the
    cosine of that vector and the query as its score. *)
Definition reports_record (query : list float) (docs : list Embedding) (h : Hit)
  : Prop :=
  exists doc v,
    In doc docs /\
    e_vector_embedding doc = Some v /\
    h_id h = e_id doc /\
    h_redacao_id h = e_redacao_id doc /\
    _cosine_similarity query v = Return (h_score h).

(** An entry of a similar set with the given recommendations. *)
Definition similar_with (id : string) (recomendacoes : list pyval) : Similar :=
  {| s_id := id; s_titulo := "Tema"; s_texto_snippet := "texto";
     s_similarity_score := 1;
     s_analise := Some {| sa_nota_geral := VNum 8; sa_resumo := VStr "";
                          sa_principais_recomendacoes := VList recomendacoes |} |}.

(** Three entries with seven recommendations, six of them different. *)
Definition overlapping_similares : list Similar :=
  [similar_with "a" [VStr "r1"; VStr "r2"; VStr "r3"];
   similar_with "b" [VStr "r2"; VStr "r4"; VStr "r5"];
   similar_with "c" [VStr "r6"]].

(** Services whose embedding provider fails. *)
Definition services_without_provider : Services :=
  {| embeddings_create := fun _ _ => Raise (ProviderError "rate limit");
     chat_acreate := fun _ _ => Return (Malformed "not json");
     vector_search_aggregate := fun _ _ => Return [];
     collection_down := fun _ => false;
     path_exists := fun _ => false;
     extract_file_text := fun path => Raise (OSError path) |}.

(** Services whose native index finds one record. *)
Definition native_hit : Hit :=
  {| h_id := 7; h_redacao_id := 1; h_titulo := None;
     h_texto_snippet := "texto"; h_score := 0.5 |}.

Definition services_with_index : Services :=
  {| embeddings_create := fun _ _ => Return [[1; 0]%float];
     chat_acreate := fun _ _ => Return (Malformed "not json");
     vector_search_aggregate := fun _ _ => Return [native_hit];
     collection_down := fun _ => false;
     path_exists := fun _ => false;
     extract_file_text := fun path => Raise (OSError path) |}.

Definition with_index : RAGManager.t :=
  {| openai_client := Some "sk-test"; has_vector_search := true |}.

(** Two stored records whose vectors have 1536 components. *)
Definition full_size_db : Database :=
  {| redacoes := []; analises := [];
     embeddings := [embedding_doc 1 11 (Some (repeat 1%float 1536));
                    embedding_doc 2 12 (Some (repeat 2%float 1536))];
     corpus_exemplos := [] |}.

Definition corpus_doc (id : N) (categoria : string) (nivel : float) : CorpusExemplo :=
  {| c_id := id; c_titulo := "Exemplo"; c_categoria := categoria;
     c_temas := ["educação"]; c_nivel_qualidade := nivel |}.

(** A corpus of four examples, three of them exemplars of quality 8.0 or
    more. *)
Definition corpus_db : Database :=
  {| redacoes := []; analises := []; embeddings := [];
     corpus_exemplos := [corpus_doc 1 "exemplar" 9;
                         corpus_doc 2 "regular" 9.5;
                         corpus_doc 3 "exemplar" 8;
                         corpus_doc 4 "exemplar" 10] |}.

End RetrievalProps.

Module RepositoryProps.

Import Repositories RepositoryQueries Props StatusProps.

(** Three redações, the first and the last pending. *)
Definition queue_db : Database :=
  {| redacoes := [redacao_doc 1 "pendente" "a"; redacao_doc 2 "concluida" "b";
                  redacao_doc 3 "pendente" "c"];
     analises := []; embeddings := []; corpus_exemplos := [] |}.

(** The id ["000000000000000000000002"]. *)
Definition id2 : string := ObjectId.to_str 2.

(** The ids of the stored redações are unique, as MongoDB keeps them. *)
Definition unique_ids (w : World) : Prop :=
  NoDup (map r_id (redacoes (db w))).

End RepositoryProps.

Module EndpointProps.

Import Repositories RepositoryQueries Endpoints Props StatusProps.

(** The file types the processor knows. *)
Definition known_types : list string := ["pdf"; "docx"; "doc"; "txt"].

(** An endpoint's failure is the response 500. *)
Definition answers_500 {A} (r : result A) : Prop :=
  forall e, r = Raises e -> exists detail, e = HTTPException 500 detail.

(** No value at the top level of the dictionary is an [ObjectId]. *)
Definition no_object_id (d : dict) : Prop :=
  Forall (fun kv => forall o, snd kv <> VObjectId o) d.

(** Whatever [m] does, it schedules no task, and an [HTTPException] it
    raises is a 400. *)
Definition schedules_nothing {A} (m : H Server A) : Prop :=
  forall s r s',
    m s = (r, s') ->
    background_tasks s' = background_tasks s /\
    (forall status_code detail,
       r = Raises (HTTPException status_code detail) -> status_code = 400%Z).

(** [m] schedules nothing and never returns. *)
Definition halts {A} (m : H Server A) : Prop :=
  forall s r s',
    m s = (r, s') ->
    background_tasks s' = background_tasks s /\
    (forall status_code detail,
       r = Raises (HTTPException status_code detail) -> status_code = 400%Z) /\
    (forall a, r <> Returns a).

(** What an upload can leave behind: the redações stored, the files
    saved and the tasks scheduled. *)
Definition same_trace (s s' : Server) : Prop :=
  redacoes (db (world s')) = redacoes (db (world s)) /\
  files s' = files s /\
  background_tasks s' = background_tasks s.

(** [m] leaves no trace, whatever it answers. *)
Definition traceless {A} (m : H Server A) : Prop :=
  forall s r s', m s = (r, s') -> same_trace s s'.

(** An [HTTPException] of [m] is a 400, raised before [m] left a
    trace. *)
Definition rejects_cleanly {A} (m : H Server A) : Prop :=
  forall s s' status_code detail,
    m s = (Raises (HTTPException status_code detail), s') ->
    status_code = 400%Z /\ same_trace s s'.

(** [m] raises no [HTTPException]. *)
Definition raises_no_http {A} (m : H Server A) : Prop :=
  forall s s' status_code detail,
    m s <> (Raises (HTTPException status_code detail), s').

(** [str(e)] of an [HTTPException] in recent Starlette:
    ["<status>: <detail>"], with the status codes the endpoints use. *)
Definition http_str (status_code : Z) (detail : string) : string :=
  ((if (status_code =? 404)%Z then "404"
    else if (status_code =? 400)%Z then "400"
    else "500") ++ ": " ++ detail)%string.

(** A store with redação 1, concluded, and its analysis. *)
Definition db_with_analysis : Database :=
  {| redacoes := [redacao_doc 1 "concluida" "O texto da redacao."];
     analises :=
       [ [("_id", VObjectId 5); ("redacao_id", VObjectId 1);
          ("nota_geral", VNum 8); ("recomendacoes", VList [VStr "Revisar"])] ];
     embeddings := []; corpus_exemplos := [] |}.

(** A server whose world is [w], with no task and no file. *)
Definition server_of (w : World) : Server :=
  {| world := w; background_tasks := []; files := [] |}.

(** An upload of a text file of 50 characters. *)
Definition upload_txt : UploadFile :=
  {| content_type := Some "text/plain"; filename := Some "redacao.txt";
     content := PipelineProps.texto_50 |}.

(** An upload the browser gave no usable content type. *)
Definition upload_by_extension : UploadFile :=
  {| content_type := Some "application/octet-stream";
     filename := Some "redacao.PDF"; content := "%PDF" |}.

(** A stand-in for pathlib on the two names above. *)
Definition suffix_of_examples (name : string) : string :=
  if String.eqb name "redacao.txt" then ".txt"
  else if String.eqb name "redacao.PDF" then ".pdf"
  else "".

(** Services whose store cannot reach the redações. *)
Definition services_without_redacoes : Services :=
  {| embeddings_create := fun _ _ => Return [[1; 0]%float];
     chat_acreate := fun _ _ => Return (Malformed "not json");
     vector_search_aggregate := fun _ _ => Return [];
     collection_down := fun c =>
       match c with Redacoes => true | _ => false end;
     path_exists := fun _ => false;
     extract_file_text := fun path => Raise (OSError path) |}.

(** A text file too short to be a redação. *)
Definition upload_curto : UploadFile :=
  {| content_type := Some "text/plain"; filename := Some "redacao.txt";
     content := "Texto curto." |}.

Definition all_libraries : FileProcessor.t :=
  {| FileProcessor.has_pdf_support := true;
     FileProcessor.has_docx_support := true;
     FileProcessor.has_doc_support := true |}.

(** The upload endpoint where the disk and the libraries work, a
    temporary file reads back as the 50-character text, and the user is
    known under the id 9. *)
Definition analisar_exemplo (arquivo : UploadFile) (usar_agente_ia : bool)
  : H Server Accepted :=
  analisar_redacao http_str suffix_of_examples
    (fun _ => Return "/tmp/tmp0") (fun _ => Return tt)
    (fun _ => Return PipelineProps.texto_50)
    (fun _ => Return PipelineProps.texto_50)
    (fun _ => Return PipelineProps.texto_50)
    (fun _ => Return PipelineProps.texto_50)
    all_libraries
    (fun _ => ret (Some (ObjectId.to_str 9)))
    (fun _ => "03/11/2026")
    (fun _ => Return tt) (fun _ _ => Return tt)
    arquivo None (Some "aluna@elysia.com") usar_agente_ia.

End EndpointProps.

(** * Evaluations

    The embedded functions on small inputs. *)

Module Evaluations.

Import Props StoreProps StatusProps RetryProps EnrichProps PipelineProps.

Example cosine_of_parallel_vectors :
  RAGManager._cosine_similarity [1; 2; 3]%float [1; 2; 3]%float = Return 1%float.
Proof. reflexivity. Qed.

Example cosine_of_orthogonal_vectors :
  RAGManager._cosine_similarity [1; 0]%float [0; 1]%float = Return 0%float.
Proof. reflexivity. Qed.

Example object_id_of_str :
  ObjectId.of_str "0000000000000000000000ff" = Return 255%N /\
  ObjectId.of_str "0000000000000000000000FF" = Return 255%N /\
  ObjectId.to_str 255 = "0000000000000000000000ff" /\
  ObjectId.of_str "ff" = Raise (InvalidId "ff").
Proof. repeat split. Qed.

Example waits_of_the_first_seven_attempts :
  map (Tenacity.wait_exponential IAAgent.analyze_text_policy) [1; 2; 3; 4; 5; 6; 7]
  = [1; 2; 4; 8; 16; 32; 60]%Z.
Proof. reflexivity. Qed.

Example slices :
  RAGManager.slice_to 2 [1; 2; 3] = [1; 2] /\
  RAGManager.slice_to 5 [1; 2; 3] = [1; 2; 3] /\
  RAGManager.slice_to (-1) [1; 2; 3] = [1; 2] /\
  RAGManager.slice_to (-5) [1; 2; 3] = [].
Proof. repeat split. Qed.

Example scan_of_three_records :
  option_map (map h_id)
    (match RAGManager.exhaustive_scan [1; 0]%float (embeddings ranked_db) 5 with
     | Return hits => Some hits
     | Raise _ => None
     end)
  = Some [3; 1]%N.
Proof. reflexivity. Qed.

Example malformed_answer_of_the_scoring_provider :
  fst (IAAgent.analyze_text IAAgent.ia_agent "O texto da redacao."
         (world_of empty_db plain_services))
  = Return (VDict [("error", VStr "Resposta da IA não está em formato JSON válido")]).
Proof. reflexivity. Qed.

Example same_redacao_stored_twice :
  let id := "0123456789abcdef01234567" in
  let w := store_all configured
             [(id, "primeira versao", None); (id, "segunda versao", Some "Tema")]
             (world_of empty_db plain_services) in
  map (fun e => (e_id e, e_texto_snippet e, e_titulo e)) (embeddings (db w))
  = [(100%N, Some "segunda versao", Some "Tema")].
Proof. reflexivity. Qed.

End Evaluations.

(** * Properties *)

(** ** The order of binary64 numbers *)

Module FloatOrder.

Import Props.

Lemma SFcompare_swap (x y : SpecFloat.spec_float) :
  SpecFloat.SFcompare y x = option_map CompOpp (SpecFloat.SFcompare x y).
Proof.
  destruct x as [sx | sx | | sx mx ex], y as [sy | sy | | sy my ey];
    simpl; try reflexivity;
    try (destruct sx; reflexivity); try (destruct sy; reflexivity);
    try (destruct sx, sy; reflexivity).
  destruct sx, sy; simpl; try reflexivity.
  - rewrite (Z.compare_antisym ex ey).
    destruct (ex ?= ey)%Z; simpl; try reflexivity.
    rewrite CompOpp_involutive. f_equal.
    exact (Pos.compare_cont_antisym my mx Eq).
  - rewrite (Z.compare_antisym ex ey).
    destruct (ex ?= ey)%Z; simpl; try reflexivity.
    f_equal. symmetry. exact (Pos.compare_cont_antisym mx my Eq).
Qed.

Lemma ltb_leb (x y : float) :
  PrimFloat.ltb x y = true -> PrimFloat.leb x y = true.
Proof.
  rewrite ltb_spec, leb_spec. unfold SpecFloat.SFltb, SpecFloat.SFleb.
  destruct (SpecFloat.SFcompare (Prim2SF x) (Prim2SF y)) as [[ | | ] | ];
    congruence.
Qed.

Lemma compare_numbers (x y : float) :
  is_number x = true -> is_number y = true ->
  SpecFloat.SFcompare (Prim2SF x) (Prim2SF y) <> None.
Proof.
  unfold is_number. rewrite !eqb_spec. unfold SpecFloat.SFeqb.
  destruct (Prim2SF x), (Prim2SF y); simpl; congruence.
Qed.

Lemma not_ltb_leb (x y : float) :
  is_number x = true -> is_number y = true ->
  PrimFloat.ltb x y = false -> PrimFloat.leb y x = true.
Proof.
  intros Hx Hy. pose proof (compare_numbers x y Hx Hy) as Hc.
  rewrite ltb_spec, leb_spec. unfold SpecFloat.SFltb, SpecFloat.SFleb.
  rewrite (SFcompare_swap (Prim2SF x) (Prim2SF y)).
  destruct (SpecFloat.SFcompare (Prim2SF x) (Prim2SF y)) as [[ | | ] | ];
    simpl; congruence.
Qed.

End FloatOrder.

(** ** Cosine similarity *)

Module CosineFacts.

Import RAGManager Props.

Lemma dot_from_zeros (n : nat) :
  Numpy.dot_from 0 (repeat 0%float n) (repeat 0%float n) = 0%float.
Proof.
  induction n as [ | n IH]; simpl; [reflexivity | ].
  change (0 + 0 * 0)%float with 0%float. exact IH.
Qed.

(** The vector [[0.0] * n], the fallback of [generate_embedding], has norm
    zero. *)
Lemma zero_vector_zero_norm (n : nat) : zero_norm (repeat 0%float n).
Proof.
  unfold zero_norm, Numpy.norm. rewrite dot_from_zeros. reflexivity.
Qed.

(** C10, as stated, fails: [np.dot] is evaluated before the norms are
    looked at, and it raises [ValueError] on vectors of different lengths.
    With [vec1 = [0.0, 0.0]] (norm zero) and [vec2 = [1.0, 2.0, 3.0]] the
    function raises instead of returning 0.0. *)
Lemma cosine_zero_norm_shape_mismatch :
  ~ returns_zero_on_zero_norm [0; 0]%float [1; 2; 3]%float.
Proof.
  intros H.
  assert (Hz : zero_norm [0; 0]%float) by reflexivity.
  specialize (H (or_introl Hz)). vm_compute in H. discriminate H.
Qed.

(** C10 (amended): for two vectors of the same length, one of which has
    norm zero, [_cosine_similarity] returns exactly 0.0 and raises
    nothing; in particular no division takes place. *)
Theorem cosine_similarity_zero_norm (vec1 vec2 : list float) :
  List.length vec1 = List.length vec2 ->
  zero_norm vec1 \/ zero_norm vec2 ->
  _cosine_similarity vec1 vec2 = Return 0%float.
Proof.
  intros Hlen Hz. unfold _cosine_similarity, Numpy.dot.
  rewrite Hlen, Nat.eqb_refl.
  unfold zero_norm in Hz.
  destruct Hz as [Hz | Hz]; rewrite Hz; [ reflexivity | ].
  now rewrite orb_true_r.
Qed.

(** The zero vector against [[1.0, 2.0, 3.0]]. *)
Lemma cosine_similarity_zero_norm_witness :
  List.length [0; 0; 0]%float = List.length [1; 2; 3]%float /\
  (zero_norm [0; 0; 0]%float \/ zero_norm [1; 2; 3]%float) /\
  _cosine_similarity [0; 0; 0]%float [1; 2; 3]%float = Return 0%float.
Proof.
  split; [ reflexivity | ].
  split; [ left; reflexivity | ].
  apply (cosine_similarity_zero_norm [0; 0; 0]%float [1; 2; 3]%float).
  - reflexivity.
  - left. reflexivity.
Defined.

(** With equal lengths the function always returns. *)
Lemma cosine_similarity_returns (vec1 vec2 : list float) :
  List.length vec1 = List.length vec2 ->
  exists s, _cosine_similarity vec1 vec2 = Return s.
Proof.
  intros Hlen. unfold _cosine_similarity, Numpy.dot.
  rewrite Hlen, Nat.eqb_refl.
  destruct (_ || _); eauto.
Qed.

End CosineFacts.

(** ** The exhaustive scan of [vector_search] *)

Module ScanFacts.

Import RAGManager Props FloatOrder.

Lemma insert_by_score_length (x : Hit) (l : list Hit) :
  List.length (insert_by_score x l) = S (List.length l).
Proof.
  induction l as [ | y l IH]; simpl; [ reflexivity | ].
  destruct (PrimFloat.ltb (h_score x) (h_score y)); simpl; congruence.
Qed.

Lemma sort_by_score_length (l : list Hit) :
  List.length (sort_by_score l) = List.length l.
Proof.
  induction l as [ | x l IH]; simpl; [ reflexivity | ].
  rewrite insert_by_score_length. congruence.
Qed.

Lemma insert_by_score_permutation (x : Hit) (l : list Hit) :
  Permutation (x :: l) (insert_by_score x l).
Proof.
  induction l as [ | y l IH]; simpl; [ reflexivity | ].
  destruct (PrimFloat.ltb (h_score x) (h_score y)); [ | reflexivity ].
  rewrite perm_swap. now apply perm_skip.
Qed.

(** Sorting rearranges the entries and drops none. *)
Lemma sort_by_score_permutation (l : list Hit) :
  Permutation l (sort_by_score l).
Proof.
  induction l as [ | x l IH]; simpl; [ constructor | ].
  rewrite <- insert_by_score_permutation. now apply perm_skip.
Qed.

Lemma insert_by_score_Forall (P : Hit -> Prop) (x : Hit) (l : list Hit) :
  P x -> Forall P l -> Forall P (insert_by_score x l).
Proof.
  intros Hx Hl. induction Hl as [ | y l Hy Hl IH]; simpl.
  - constructor; [ exact Hx | constructor ].
  - destruct (PrimFloat.ltb (h_score x) (h_score y));
      repeat constructor; assumption.
Qed.

Lemma sort_by_score_Forall (P : Hit -> Prop) (l : list Hit) :
  Forall P l -> Forall P (sort_by_score l).
Proof.
  induction 1 as [ | x l Hx Hl IH]; simpl; [ constructor | ].
  now apply insert_by_score_Forall.
Qed.

Lemma insert_by_score_descending (x : Hit) (l : list Hit) :
  numbered x -> Forall numbered l ->
  descending l -> descending (insert_by_score x l).
Proof.
  unfold descending. intros Hx Hl Hs.
  induction l as [ | y l IH]; simpl.
  - repeat constructor.
  - inversion Hl as [ | ? ? Hy Hl']; subst.
    inversion Hs as [ | ? ? Hs' Hhd]; subst.
    destruct (PrimFloat.ltb (h_score x) (h_score y)) eqn:E.
    + constructor; [ now apply IH | ].
      destruct l as [ | z l]; simpl.
      * constructor. now apply ltb_leb.
      * destruct (PrimFloat.ltb (h_score x) (h_score z)).
        -- inversion Hhd; subst. now constructor.
        -- constructor. now apply ltb_leb.
    + constructor; [ assumption | ].
      constructor. now apply not_ltb_leb.
Qed.

Lemma sort_by_score_descending (l : list Hit) :
  Forall numbered l -> descending (sort_by_score l).
Proof.
  induction 1 as [ | x l Hx Hl IH]; simpl.
  - constructor.
  - apply insert_by_score_descending; auto using sort_by_score_Forall.
Qed.

Lemma firstn_Sorted {A} (R : A -> A -> Prop) (n : nat) (l : list A) :
  Sorted R l -> Sorted R (firstn n l).
Proof.
  revert l. induction n as [ | n IH]; intros l Hs; simpl; [ constructor | ].
  destruct l as [ | x l]; [ constructor | ].
  inversion Hs as [ | ? ? Hs' Hhd]; subst.
  constructor; [ now apply IH | ].
  destruct n; simpl; [ constructor | ].
  destruct l; [ constructor | ].
  inversion Hhd; subst. now constructor.
Qed.

Lemma slice_to_descending (k : Z) (l : list Hit) :
  descending l -> descending (slice_to k l).
Proof.
  unfold descending, slice_to. intros Hs.
  destruct (0 <=? k)%Z; now apply firstn_Sorted.
Qed.

Lemma slice_to_length {A} (k : Z) (l : list A) :
  (0 <= k)%Z ->
  Z.of_nat (List.length (slice_to k l)) = Z.min k (Z.of_nat (List.length l)).
Proof.
  intros Hk. unfold slice_to.
  destruct (Z.leb_spec 0 k) as [ _ | Hneg ]; [ | lia ].
  rewrite length_firstn. lia.
Qed.

(** The loop returns when every stored vector has the query's dimension,
    with one entry for each record that carries a vector. *)
Lemma similarities_returns (q : list float) (docs : list Embedding) :
  same_dimension q docs ->
  exists l,
    similarities q docs = Return l /\
    List.length l = List.length (filter has_vector docs) /\
    (scores_are_numbers q docs -> Forall numbered l).
Proof.
  unfold same_dimension, scores_are_numbers.
  induction 1 as [ | doc docs Hd Hdocs IH]; simpl.
  - exists []. repeat split; constructor.
  - destruct IH as (l & Hl & Hlen & Hnum).
    unfold has_vector at 1.
    destruct (e_vector_embedding doc) as [v | ] eqn:Ev.
    + destruct (CosineFacts.cosine_similarity_returns q v) as [s Hs].
      { symmetry. now apply Hd. }
      rewrite Hs, Hl. eexists. split; [ reflexivity | ].
      split; [ simpl; congruence | ].
      intros Hall. inversion Hall as [ | ? ? Hdoc Hrest]; subst.
      constructor; [ | now apply Hnum ].
      unfold numbered. simpl. now apply (Hdoc v).
    + exists l. split; [ exact Hl | ]. split; [ exact Hlen | ].
      intros Hall. inversion Hall; subst. now apply Hnum.
Qed.

(** A record whose vector has another dimension makes the scan raise. *)
Lemma similarities_mismatch (q : list float) (docs : list Embedding)
    (doc : Embedding) (v : list float) :
  e_vector_embedding doc = Some v ->
  List.length v <> List.length q ->
  exhaustive_scan q (doc :: docs) 5 = Raise (ValueError "shapes not aligned").
Proof.
  intros Ev Hlen. unfold exhaustive_scan. simpl. rewrite Ev.
  unfold _cosine_similarity, Numpy.dot.
  assert (E : Nat.eqb (List.length q) (List.length v) = false)
    by (apply Nat.eqb_neq; congruence).
  now rewrite E.
Qed.

Lemma exhaustive_scan_ranking (q : list float) (docs : list Embedding) (k : Z) :
  same_dimension q docs ->
  scores_are_numbers q docs ->
  exists hits,
    exhaustive_scan q docs k = Return hits /\
    descending hits /\
    ((0 <= k)%Z ->
     Z.of_nat (List.length hits)
     = Z.min k (Z.of_nat (List.length (filter has_vector docs)))).
Proof.
  intros Hdim Hnum.
  destruct (similarities_returns q docs Hdim) as (l & Hl & Hlen & Hn).
  unfold exhaustive_scan. rewrite Hl. eexists. split; [ reflexivity | ].
  split.
  - apply slice_to_descending, sort_by_score_descending. now apply Hn.
  - intros Hk. rewrite slice_to_length by exact Hk.
    now rewrite sort_by_score_length, Hlen.
Qed.

(** The loop of the scan scores every record that carries a vector by
    the cosine similarity of that vector to the query. *)
Lemma similarities_scored (q : list float) (docs : list Embedding) (l : list Hit) :
  similarities q docs = Return l ->
  Forall2 (scored_by_cosine q) (filter has_vector docs) l.
Proof.
  revert l. induction docs as [ | doc docs IH]; intros l; simpl.
  - intros H. injection H as <-. constructor.
  - unfold has_vector at 1.
    destruct (e_vector_embedding doc) as [v | ] eqn:Ev; [ | apply IH ].
    destruct (_cosine_similarity q v) as [s | e] eqn:Es; [ | discriminate ].
    destruct (similarities q docs) as [l' | e]; [ | discriminate ].
    intros H. injection H as <-.
    constructor; [ | now apply IH ].
    exists v. cbn [h_score]. now repeat split.
Qed.

End ScanFacts.

(** ** [generate_embedding] *)

(** Unfolds the operations of the monad. *)
Ltac run_py :=
  cbv beta iota delta
    [bind ret raise try_except lift gets modify reach emit datetime_now].

Tactic Notation "run_py" "in" hyp(H) :=
  cbv beta iota delta
    [bind ret raise try_except lift gets modify reach emit datetime_now] in H.

(** Reduces the projections of a [World] built with the [with_] updates. *)
Ltac world :=
  cbn [db next_oid clock svc embedding_requests chat_requests sleeps log
       with_db with_next_oid with_clock with_embedding_requests
       with_chat_requests with_sleeps with_log
       redacoes analises embeddings corpus_exemplos
       with_redacoes with_analises with_embeddings fst snd].

Tactic Notation "world" "in" hyp(H) :=
  cbn [db next_oid clock svc embedding_requests chat_requests sleeps log
       with_db with_next_oid with_clock with_embedding_requests
       with_chat_requests with_sleeps with_log
       redacoes analises embeddings corpus_exemplos
       with_redacoes with_analises with_embeddings fst snd] in H.

Module EmbeddingFacts.

Import RAGManager Props.

Lemma substring_length_le (n : nat) (s : string) :
  String.length (substring 0 n s) <= n.
Proof.
  revert s. induction n as [ | n IH]; intros [ | c s]; simpl; try lia.
  specialize (IH s). lia.
Qed.

Lemma same_store_refl (w : World) : same_store w w.
Proof. repeat split. Qed.

Lemma same_store_trans (w1 w2 w3 : World) :
  same_store w1 w2 -> same_store w2 w3 -> same_store w1 w3.
Proof.
  unfold same_store. intros (? & ? & ? & ?) (? & ? & ? & ?).
  repeat split; congruence.
Qed.

(** What one call does when the client is configured: exactly one request,
    carrying the first 8000 characters; the result is the provider's
    embedding or the zero vector; nothing is raised. *)
Lemma generate_embedding_configured (self : t) (key text : string) (w : World) :
  openai_client self = Some key ->
  exists w',
    generate_embedding self text w = (Return (generated_vector w text), w') /\
    same_store w w' /\
    embedding_requests w' = embedding_requests w ++ [substring 0 8000 text] /\
    chat_requests w' = chat_requests w /\
    sleeps w' = sleeps w.
Proof.
  intros Hkey. unfold generate_embedding, generated_vector. rewrite Hkey.
  unfold try_except, bind, openai_embeddings_create.
  destruct (embeddings_create (svc w) (List.length (embedding_requests w))
              (substring 0 8000 text)) as [[ | v data] | e];
    eexists; (split; [ reflexivity | ]); repeat split.
Qed.

Lemma generate_embedding_unconfigured (self : t) (text : string) (w : World) :
  openai_client self = None ->
  generate_embedding self text w
  = (Raise (ValueError "OpenAI API não configurada. Defina OPENAI_API_KEY."), w).
Proof.
  intros Hkey. unfold generate_embedding. now rewrite Hkey.
Qed.

Lemma substring_length (n : nat) (s : string) :
  String.length (substring 0 n s) = Nat.min n (String.length s).
Proof.
  revert s. induction n as [ | n IH]; intros [ | c s]; simpl; try reflexivity.
  now rewrite IH.
Qed.

Lemma substring_prefix (n : nat) (s : string) :
  prefix (substring 0 n s) s = true.
Proof.
  revert s. induction n as [ | n IH]; intros [ | c s]; simpl; try reflexivity.
  destruct (ascii_dec c c) as [ _ | Hne ]; [ apply IH | now destruct Hne ].
Qed.

(** C7: [generate_embedding] cuts its input to the first 8000 characters
    before it calls the embedding provider, and a provider error does not
    leave it.  With a client configured, a call sends exactly one
    request, which carries that prefix of the text; it returns the
    provider's embedding when the provider gives one, and
    [[0.0] * 1536], a vector of length 1536, when the provider answers
    the request with an error (or with no embedding at all): no
    exception reaches the caller.  Without an API key the function
    raises [ValueError] before any request is sent. *)
Theorem generate_embedding_truncates_and_falls_back
    (self : t) (text : string) (w : World) :
  let sent := substring 0 8000 text in
  let answer :=
    embeddings_create (svc w) (List.length (embedding_requests w)) sent in
  let run := generate_embedding self text w in
  (String.length sent = Nat.min 8000 (String.length text) /\
   prefix sent text = true) /\
  (forall key,
     openai_client self = Some key ->
     embedding_requests (snd run) = embedding_requests w ++ [sent] /\
     (forall embedding rest,
        answer = Return (embedding :: rest) -> fst run = Return embedding) /\
     ((exists e, answer = Raise e) \/ answer = Return [] ->
      fst run = Return (repeat 0%float 1536)) /\
     same_store w (snd run)) /\
  (openai_client self = None ->
   fst run = Raise (ValueError "OpenAI API não configurada. Defina OPENAI_API_KEY.") /\
   embedding_requests (snd run) = embedding_requests w) /\
  List.length (repeat 0%float 1536) = 1536.
Proof.
  intros sent answer run.
  split; [ split; [ apply substring_length | apply substring_prefix ] | ].
  split; [ | split; [ | apply repeat_length ] ].
  - intros key Hkey.
    destruct (generate_embedding_configured self key text w Hkey)
      as (w' & Hrun & Hsame & Hreq & _).
    subst run. rewrite Hrun. cbn [fst snd].
    split; [ exact Hreq | ].
    unfold generated_vector. fold sent. fold answer.
    split; [ | split; [ | exact Hsame ] ].
    + intros embedding rest ->. reflexivity.
    + intros [[e ->] | ->]; reflexivity.
  - intros Hkey. subst run.
    rewrite generate_embedding_unconfigured by exact Hkey. now split.
Qed.

(** With the client configured the function always returns a vector. *)
Lemma generate_embedding_returns (self : t) (key text : string) (w : World) :
  openai_client self = Some key ->
  exists v, fst (generate_embedding self text w) = Return v.
Proof.
  intros Hkey.
  destruct (generate_embedding_configured self key text w Hkey) as (w' & Hrun & _).
  rewrite Hrun. now exists (generated_vector w text).
Qed.

End EmbeddingFacts.

(** ** [vector_search] *)

Module SearchFacts.

Import RAGManager Props EmbeddingFacts ScanFacts.

(** Without a usable native index, [vector_search] is the exhaustive scan
    of the stored records against the generated query vector. *)
Lemma vector_search_fallback (self : t) (key text : string) (k : Z) (w : World) :
  openai_client self = Some key ->
  native_search_empty self w (generated_vector w text) k ->
  collection_down (svc w) Embeddings = false ->
  exists w',
    vector_search self text k w
    = (exhaustive_scan (generated_vector w text) (embeddings (db w)) k, w') /\
    same_store w w'.
Proof.
  intros Hkey Hnative Hup.
  destruct (generate_embedding_configured self key text w Hkey)
    as (w1 & Hrun & Hsame & _).
  destruct Hsame as (Hdb & Hsvc & Hoid & Hclock).
  unfold vector_search, bind at 1. rewrite Hrun.
  assert (Hscan : forall w2, same_store w1 w2 ->
            (all_embeddings <- embeddings_find_all ;;
             lift (exhaustive_scan (generated_vector w text) all_embeddings k)) w2
            = (exhaustive_scan (generated_vector w text) (embeddings (db w)) k, w2)).
  { intros w2 (Hdb2 & Hsvc2 & _).
    unfold embeddings_find_all. run_py.
    rewrite Hsvc2, Hsvc, Hup, Hdb2, Hdb.
    now destruct (exhaustive_scan _ _ _). }
  destruct Hnative as [Hoff | Hnone].
  - rewrite Hoff. unfold bind at 1, ret at 1.
    rewrite (Hscan w1 (same_store_refl w1)).
    eexists; split; [ reflexivity | repeat split; assumption ].
  - destruct (has_vector_search self).
    + unfold bind at 1, try_except, embeddings_vector_search.
      rewrite Hsvc.
      destruct (vector_search_aggregate (svc w) (generated_vector w text) k)
        as [[ | h hits] | e]; [ | contradiction | ].
      * rewrite (Hscan w1 (same_store_refl w1)).
        eexists; split; [ reflexivity | repeat split; assumption ].
      * unfold bind at 1, logger, emit, modify, ret at 1.
        rewrite Hscan by (repeat split).
        eexists; split; [ reflexivity | repeat split; assumption ].
    + unfold bind at 1, ret at 1.
      rewrite (Hscan w1 (same_store_refl w1)).
      eexists; split; [ reflexivity | repeat split; assumption ].
Qed.

(** C3, as stated, fails.  On ties: two stored records with the same
    vector get the same score, so the ranking of the query [[1.0, 0.0]]
    over them is not strictly descending.  On the count: a stored record
    without [vector_embedding] is skipped, so three records of which two
    carry a vector give two results for [k = 3].  On the result itself:
    a stored vector of another dimension makes the scan raise. *)
Lemma exhaustive_scan_not_as_stated :
  ~ ranks_strictly [1; 0]%float twin_embeddings 2 /\
  ~ ranks_strictly [1; 0]%float (embeddings ranked_db) 3 /\
  ~ ranks_strictly [1; 0]%float wide_embeddings 1.
Proof.
  split; [ | split ].
  - intros (hits & Hscan & Hstrict & _).
    vm_compute in Hscan. injection Hscan as <-.
    inversion Hstrict as [ | ? ? _ Hhd]; subst.
    inversion Hhd as [ | ? ? Hlt]; subst.
    vm_compute in Hlt. discriminate Hlt.
  - intros (hits & Hscan & _ & Hlen).
    vm_compute in Hscan. injection Hscan as <-.
    vm_compute in Hlen. discriminate Hlen.
  - intros (hits & Hscan & _).
    vm_compute in Hscan. discriminate Hscan.
Qed.

Lemma slice_to_prefix {A} (k : Z) (l : list A) :
  exists rest, l = slice_to k l ++ rest.
Proof.
  unfold slice_to.
  destruct (0 <=? k)%Z; eexists; symmetry; apply firstn_skipn.
Qed.

(** C3 (amended): with the client configured and the embeddings readable,
    whenever the native index gives nothing [vector_search] returns the
    exhaustive scan of the stored records against the query vector, a
    function of the query vector, the stored records and [k] alone.  If
    every stored vector has the query's dimension and no score is a NaN,
    the scan returns; every result is the entry of a stored record that
    carries a [vector_embedding], scored with the cosine similarity of
    that vector to the query; the results are the leading entries of a
    descending arrangement of all those entries, so they are in
    descending order of score (equal scores may follow one another); and
    for [k >= 0] there are exactly
    [min(k, number of records that carry a vector_embedding)] of them. *)
Theorem fallback_search_ranking (query : list float) (docs : list Embedding) (k : Z) :
  same_dimension query docs ->
  scores_are_numbers query docs ->
  exists hits,
    exhaustive_scan query docs k = Return hits /\
    (forall self key text w,
       openai_client self = Some key ->
       collection_down (svc w) Embeddings = false ->
       native_search_empty self w query k ->
       generated_vector w text = query ->
       embeddings (db w) = docs ->
       fst (vector_search self text k w) = Return hits) /\
    best_by_cosine query docs hits /\
    descending hits /\
    ((0 <= k)%Z ->
     Z.of_nat (List.length hits)
     = Z.min k (Z.of_nat (List.length (filter has_vector docs)))).
Proof.
  intros Hdim Hnum.
  destruct (similarities_returns query docs Hdim) as (l & Hl & Hlen & Hn).
  exists (slice_to k (sort_by_score l)).
  assert (Hscan : exhaustive_scan query docs k = Return (slice_to k (sort_by_score l))).
  { unfold exhaustive_scan. now rewrite Hl. }
  assert (Hsorted : descending (sort_by_score l)).
  { apply sort_by_score_descending. now apply Hn. }
  split; [ exact Hscan | ]. split; [ | split; [ | split ] ].
  - intros self key text w Hkey Hup Hnative Hquery Hdocs.
    rewrite <- Hquery in Hnative.
    destruct (vector_search_fallback self key text k w Hkey Hnative Hup)
      as (w' & Hrun & _).
    now rewrite Hrun, Hquery, Hdocs, Hscan.
  - destruct (slice_to_prefix k (sort_by_score l)) as [rest Hrest].
    exists l, (sort_by_score l), rest.
    split; [ now apply similarities_scored | ].
    split; [ apply sort_by_score_permutation | ].
    split; [ exact Hsorted | exact Hrest ].
  - now apply slice_to_descending.
  - intros Hk. rewrite slice_to_length by exact Hk.
    now rewrite sort_by_score_length, Hlen.
Qed.

(** The ranking of three stored records, one of them without a vector,
    against the query [[1.0, 0.0]]: the record whose vector is the query
    comes first with score 1.0, the one at a right angle second with
    score 0.0. *)
Lemma fallback_search_ranking_witness :
  exists hits,
    fst (vector_search configured "O texto da redacao." 2
           (world_of ranked_db plain_services)) = Return hits /\
    best_by_cosine [1; 0]%float (embeddings ranked_db) hits /\
    descending hits /\
    map h_id hits = [3; 1]%N /\
    map h_score hits = [1; 0]%float.
Proof.
  destruct (fallback_search_ranking [1; 0]%float (embeddings ranked_db) 2)
    as (hits & Hscan & Hsearch & Hbest & Hdesc & _).
  - repeat constructor; intros v Hv;
      try discriminate Hv; injection Hv as <-; reflexivity.
  - repeat constructor; intros v s Hv Hs;
      try discriminate Hv; injection Hv as <-;
      vm_compute in Hs; injection Hs as <-; reflexivity.
  - exists hits.
    split.
    { apply (Hsearch configured "sk-test" "O texto da redacao."
               (world_of ranked_db plain_services));
        try reflexivity. now left. }
    split; [ exact Hbest | ]. split; [ exact Hdesc | ].
    vm_compute in Hscan. injection Hscan as <-. split; reflexivity.
Defined.

End SearchFacts.

(** ** [store_redacao_embedding] *)

Module StoreFacts.

Import RAGManager Props StoreProps EmbeddingFacts.

Lemma update_first_map {A B} (g : A -> B) (p : A -> bool) (f : A -> A) (l : list A) :
  (forall x, g (f x) = g x) ->
  map g (update_first p f l) = map g l.
Proof.
  intros Hg. induction l as [ | x l IH]; simpl; [ reflexivity | ].
  destruct (p x); simpl; congruence.
Qed.

Lemma update_first_Forall {A} (P : A -> Prop) (p : A -> bool) (f : A -> A) (l : list A) :
  (forall x, P x -> P (f x)) ->
  Forall P l -> Forall P (update_first p f l).
Proof.
  intros Hf. induction 1 as [ | x l Hx Hl IH]; simpl; [ constructor | ].
  destruct (p x); constructor; auto.
Qed.

Lemma update_first_keeps {A} (p : A -> bool) (f : A -> A) (l : list A) (x : A) :
  In x l -> p x = false -> In x (update_first p f l).
Proof.
  intros Hin Hp. induction l as [ | y l IH]; simpl in *; [ contradiction | ].
  destruct Hin as [-> | Hin].
  - rewrite Hp. now left.
  - destruct (p y); right; auto.
Qed.

Lemma NoDup_map_eq {A B} (g : A -> B) (l : list A) (x y : A) :
  NoDup (map g l) -> In x l -> In y l -> g x = g y -> x = y.
Proof.
  induction l as [ | z l IH]; simpl; intros Hnd Hx Hy Hg; [ contradiction | ].
  inversion Hnd as [ | ? ? Hnotin Hnd']; subst.
  destruct Hx as [-> | Hx], Hy as [-> | Hy]; auto.
  - exfalso. apply Hnotin. rewrite Hg. now apply in_map.
  - exfalso. apply Hnotin. rewrite <- Hg. now apply in_map.
Qed.

Lemma find_In {A} (p : A -> bool) (l : list A) (x : A) :
  find p l = Some x -> In x l /\ p x = true.
Proof. apply find_some. Qed.

(** In a store with distinct [_id]s, rewriting the record with the [_id]
    of the record found for a redação rewrites that very record. *)
Lemma find_after_update (o : N) (f : Embedding -> Embedding)
    (l : list Embedding) (ex : Embedding) :
  (forall e, e_redacao_id (f e) = e_redacao_id e) ->
  NoDup (map e_id l) ->
  find (of_redacao o) l = Some ex ->
  find (of_redacao o) (update_first (fun e => N.eqb (e_id e) (e_id ex)) f l)
  = Some (f ex).
Proof.
  intros Hf. induction l as [ | x l IH]; simpl; intros Hnd Hfind; [ discriminate | ].
  inversion Hnd as [ | ? ? Hnotin Hnd']; subst.
  destruct (of_redacao o x) eqn:Ex.
  - injection Hfind as <-. rewrite N.eqb_refl. simpl.
    unfold of_redacao in *. now rewrite Hf, Ex.
  - destruct (find_In _ _ _ Hfind) as [Hin _].
    destruct (N.eqb_spec (e_id x) (e_id ex)) as [Heq | Hne].
    + exfalso. apply Hnotin. rewrite Heq. now apply in_map.
    + simpl. rewrite Ex. now apply IH.
Qed.

Lemma find_none_not_in (o : N) (l : list Embedding) :
  find (of_redacao o) l = None -> ~ In o (map e_redacao_id l).
Proof.
  intros Hfind Hin. apply in_map_iff in Hin as (e & He & Hin).
  apply (find_none _ _ Hfind) in Hin. unfold of_redacao in Hin.
  rewrite He, N.eqb_refl in Hin. discriminate.
Qed.

Lemma find_app_new (o : N) (l : list Embedding) (e : Embedding) :
  find (of_redacao o) l = None -> e_redacao_id e = o ->
  find (of_redacao o) (l ++ [e]) = Some e.
Proof.
  intros Hnone He. induction l as [ | x l IH]; simpl in *.
  - unfold of_redacao. now rewrite He, N.eqb_refl.
  - destruct (of_redacao o x); [ discriminate | auto ].
Qed.

Lemma NoDup_snoc {A} (l : list A) (x : A) :
  NoDup l -> ~ In x l -> NoDup (l ++ [x]).
Proof.
  intros Hnd Hnotin. apply NoDup_app; [ exact Hnd | repeat constructor; auto | ].
  intros y Hy [<- | []]. contradiction.
Qed.

(** With one record per redação, the record found is the only one. *)
Lemma unique_record (o : N) (l : list Embedding) (r : Embedding) :
  NoDup (map e_redacao_id l) ->
  find (of_redacao o) l = Some r ->
  filter (of_redacao o) l = [r].
Proof.
  induction l as [ | x l IH]; simpl; intros Hnd Hfind; [ discriminate | ].
  inversion Hnd as [ | ? ? Hnotin Hnd']; subst.
  destruct (of_redacao o x) eqn:Ex.
  - injection Hfind as <-. f_equal.
    unfold of_redacao in Ex. apply N.eqb_eq in Ex.
    destruct (filter (of_redacao o) l) as [ | y ys] eqn:Ef; [ reflexivity | ].
    exfalso. apply Hnotin.
    assert (Hy : In y (filter (of_redacao o) l)) by (rewrite Ef; now left).
    apply filter_In in Hy as [Hy Hoy]. unfold of_redacao in Hoy.
    apply N.eqb_eq in Hoy. rewrite Ex, <- Hoy. now apply in_map.
  - now apply IH.
Qed.

Lemma generated_vector_with_log (l : list LogRecord) (w : World) (texto : string) :
  generated_vector (with_log l w) texto = generated_vector w texto.
Proof. reflexivity. Qed.

Lemma store_redacao_embedding_step (self : t) (redacao_id texto : string)
    (titulo : option string) (w w' : World) (result : outcome string) :
  well_formed w -> one_embedding_per_redacao w ->
  store_redacao_embedding self redacao_id texto titulo w = (result, w') ->
  well_formed w' /\ one_embedding_per_redacao w' /\
  (forall s, result = Return s ->
     exists o, ObjectId.of_str redacao_id = Return o /\
               upserted w w' o texto titulo s).
Proof.
  intros [Hids Hbelow] Hone Hrun.
  unfold store_redacao_embedding in Hrun.
  unfold try_except, bind at 1, lift in Hrun.
  destruct (ObjectId.of_str redacao_id) as [o | e] eqn:Eo.
  2:{ unfold logger in Hrun. run_py in Hrun. injection Hrun as <- <-.
      repeat split; try assumption. discriminate. }
  unfold bind at 1, embeddings_find_one in Hrun. run_py in Hrun.
  destruct (collection_down (svc w) Embeddings) eqn:Eup.
  { unfold logger in Hrun. run_py in Hrun. injection Hrun as <- <-.
    repeat split; try assumption. discriminate. }
  fold (of_redacao o) in Hrun.
  destruct (find (of_redacao o) (embeddings (db w))) as [ex | ] eqn:Efind.
  - (* a record exists: it is rewritten *)
    unfold logger at 1 in Hrun. run_py in Hrun.
    destruct (openai_client self) as [key | ] eqn:Ekey.
    + match type of Hrun with
      | context [generate_embedding self texto ?w0] =>
          destruct (generate_embedding_configured self key texto w0 Ekey)
            as (w1 & Hgen & (Hdb & Hsvc & Hoid & Hclock) & _)
      end.
      rewrite Hgen, generated_vector_with_log in Hrun.
      world in Hdb. world in Hsvc. world in Hoid. world in Hclock.
      unfold embeddings_update_one in Hrun. run_py in Hrun.
      rewrite Hsvc, Eup, Hdb, Hclock in Hrun. injection Hrun as <- <-.
      unfold well_formed, one_embedding_per_redacao, upserted. world.
      rewrite Hoid.
      rewrite !update_first_map by reflexivity.
      split; [ split; [ exact Hids | ] | ].
      { apply update_first_Forall; [ | exact Hbelow ]. intros x Hx. exact Hx. }
      split; [ exact Hone | ].
      intros s Hs. injection Hs as <-. exists o. split; [ reflexivity | ].
      eexists. split.
      { apply unique_record.
        - now rewrite update_first_map by reflexivity.
        - apply find_after_update; [ reflexivity | exact Hids | exact Efind ]. }
      cbn [e_vector_embedding e_texto_snippet e_titulo e_data_criacao e_id].
      repeat (split; [ reflexivity | ]).
      split.
      * intros old Hold. rewrite Efind in Hold. injection Hold as <-.
        split; reflexivity.
      * intros e0 Hin Hne. apply update_first_keeps; [ exact Hin | ].
        apply N.eqb_neq. intros Heq.
        destruct (find_In _ _ _ Efind) as [Hex Hpo].
        unfold of_redacao in Hpo. apply N.eqb_eq in Hpo.
        apply Hne. rewrite <- Hpo. f_equal.
        now apply (NoDup_map_eq e_id (embeddings (db w))).
    + rewrite generate_embedding_unconfigured in Hrun by exact Ekey.
      unfold logger in Hrun. run_py in Hrun. injection Hrun as <- <-.
      repeat split; try assumption. discriminate.
  - (* no record yet: one is appended, with a fresh [_id] *)
    assert (Hfresh : ~ In (next_oid w) (map e_id (embeddings (db w)))).
    { intros Hin. apply in_map_iff in Hin as (e & He & Hin).
      rewrite Forall_forall in Hbelow. specialize (Hbelow e Hin). lia. }
    destruct (openai_client self) as [key | ] eqn:Ekey.
    + destruct (generate_embedding_configured self key texto w Ekey)
        as (w1 & Hgen & (Hdb & Hsvc & Hoid & Hclock) & _).
      rewrite Hgen in Hrun.
      unfold embeddings_insert_one, logger in Hrun. run_py in Hrun.
      rewrite Hsvc, Eup, Hdb, Hclock, Hoid in Hrun. injection Hrun as <- <-.
      unfold well_formed, one_embedding_per_redacao, upserted. world.
      rewrite !map_app. cbn [map e_id e_redacao_id].
      assert (Hone' : NoDup (map e_redacao_id (embeddings (db w)) ++ [o])).
      { apply NoDup_snoc; [ exact Hone | now apply find_none_not_in ]. }
      split; [ split | ].
      { now apply NoDup_snoc. }
      { apply Forall_app. split.
        - eapply Forall_impl; [ | exact Hbelow ]. cbv beta. intros; lia.
        - repeat constructor. cbn [e_id]. lia. }
      split; [ exact Hone' | ].
      intros s Hs. injection Hs as <-. exists o. split; [ reflexivity | ].
      eexists. split.
      { apply unique_record.
        - rewrite map_app. exact Hone'.
        - now apply find_app_new. }
      cbn [e_vector_embedding e_texto_snippet e_titulo e_data_criacao e_id].
      repeat (split; [ reflexivity | ]).
      split.
      * intros old Hold. rewrite Efind in Hold. discriminate.
      * intros e0 Hin _. apply in_or_app. now left.
    + rewrite generate_embedding_unconfigured in Hrun by exact Ekey.
      unfold logger in Hrun. run_py in Hrun. injection Hrun as <- <-.
      repeat split; try assumption. discriminate.
Qed.

Lemma store_all_consistent (self : t) (calls : list call) (w : World) :
  well_formed w -> one_embedding_per_redacao w ->
  well_formed (store_all self calls w) /\
  one_embedding_per_redacao (store_all self calls w).
Proof.
  revert w. induction calls as [ | [[redacao_id texto] titulo] calls IH];
    intros w Hwf Hone; simpl; [ now split | ].
  destruct (store_redacao_embedding self redacao_id texto titulo w)
    as [result w'] eqn:Hrun.
  destruct (store_redacao_embedding_step _ _ _ _ _ _ _ Hwf Hone Hrun)
    as (Hwf' & Hone' & _).
  now apply IH.
Qed.

(** A call leaves the services as they were. *)
Lemma store_redacao_embedding_svc (self : t) (redacao_id texto : string)
    (titulo : option string) (w : World) :
  svc (snd (store_redacao_embedding self redacao_id texto titulo w)) = svc w.
Proof.
  unfold store_redacao_embedding.
  unfold try_except, bind at 1, lift.
  destruct (ObjectId.of_str redacao_id) as [o | e];
    [ | unfold logger; run_py; reflexivity ].
  unfold bind at 1, embeddings_find_one. run_py.
  destruct (collection_down (svc w) Embeddings) eqn:Eup;
    [ unfold logger; run_py; reflexivity | ].
  destruct (find _ (embeddings (db w))) as [ex | ].
  - unfold logger at 1. run_py.
    destruct (openai_client self) as [key | ] eqn:Ekey.
    + match goal with
      | |- context [generate_embedding self texto ?w0] =>
          destruct (generate_embedding_configured self key texto w0 Ekey)
            as (w1 & Hgen & (_ & Hsvc & _) & _)
      end.
      rewrite Hgen. world in Hsvc.
      unfold embeddings_update_one. run_py. rewrite Hsvc, Eup. world.
      exact Hsvc.
    + rewrite generate_embedding_unconfigured by exact Ekey.
      unfold logger. run_py. reflexivity.
  - destruct (openai_client self) as [key | ] eqn:Ekey.
    + destruct (generate_embedding_configured self key texto w Ekey)
        as (w1 & Hgen & (_ & Hsvc & _) & _).
      rewrite Hgen.
      unfold embeddings_insert_one, logger. run_py. rewrite Hsvc, Eup. world.
      exact Hsvc.
    + rewrite generate_embedding_unconfigured by exact Ekey.
      unfold logger. run_py. reflexivity.
Qed.

Lemma store_all_svc (self : t) (calls : list call) (w : World) :
  svc (store_all self calls w) = svc w.
Proof.
  revert w. induction calls as [ | [[redacao_id texto] titulo] calls IH];
    intros w; simpl; [ reflexivity | ].
  now rewrite IH, store_redacao_embedding_svc.
Qed.

(** With a valid id, a configured client and the embeddings within reach
    the call returns, whatever the embedding provider answers. *)
Lemma store_redacao_embedding_returns (self : t) (redacao_id texto key : string)
    (titulo : option string) (o : N) (w : World) :
  ObjectId.of_str redacao_id = Return o ->
  openai_client self = Some key ->
  collection_down (svc w) Embeddings = false ->
  exists s, fst (store_redacao_embedding self redacao_id texto titulo w) = Return s.
Proof.
  intros Ho Hkey Hup.
  unfold store_redacao_embedding.
  unfold try_except, bind at 1, lift. rewrite Ho.
  unfold bind at 1, embeddings_find_one. run_py. rewrite Hup.
  destruct (find _ (embeddings (db w))) as [ex | ].
  - unfold logger at 1. run_py.
    match goal with
    | |- context [generate_embedding self texto ?w0] =>
        destruct (generate_embedding_configured self key texto w0 Hkey)
          as (w1 & Hgen & (_ & Hsvc & _) & _)
    end.
    rewrite Hgen. world in Hsvc.
    unfold embeddings_update_one. run_py. rewrite Hsvc, Hup.
    eexists. reflexivity.
  - destruct (generate_embedding_configured self key texto w Hkey)
      as (w1 & Hgen & (_ & Hsvc & _) & _).
    rewrite Hgen.
    unfold embeddings_insert_one, logger. run_py. rewrite Hsvc, Hup.
    eexists. reflexivity.
Qed.

(** C6: starting from a store with at most one embedding record per
    redação, after any sequence of [store_redacao_embedding] calls and one
    more call the store still has at most one record per redação.  That
    last call returns whenever its id is a valid ObjectId, the client is
    configured and the embeddings can be reached, and a call that
    returns leaves exactly one record for its redação, with the vector
    generated in that call, the new snippet, title and time: if a record
    for the redação was already there, it was rewritten in place (same
    [_id], same number of records) instead of a second one being
    inserted. *)
Theorem store_redacao_embedding_upserts (self : t) (calls : list call)
    (redacao_id texto : string) (titulo : option string) (w : World) :
  well_formed w -> one_embedding_per_redacao w ->
  let before := store_all self calls w in
  let run := store_redacao_embedding self redacao_id texto titulo before in
  one_embedding_per_redacao before /\
  one_embedding_per_redacao (snd run) /\
  (forall s, fst run = Return s ->
     exists o, ObjectId.of_str redacao_id = Return o /\
               upserted before (snd run) o texto titulo s) /\
  (forall o key,
     ObjectId.of_str redacao_id = Return o ->
     openai_client self = Some key ->
     collection_down (svc w) Embeddings = false ->
     exists s, fst run = Return s /\
               upserted before (snd run) o texto titulo s).
Proof.
  intros Hwf Hone before run.
  destruct (store_all_consistent self calls w Hwf Hone) as [Hwf' Hone'].
  fold before in Hwf', Hone'.
  destruct run as [result w'] eqn:Hrun. subst run.
  destruct (store_redacao_embedding_step _ _ _ _ _ _ _ Hwf' Hone' Hrun)
    as (_ & Hone'' & Hup).
  cbn [fst snd].
  split; [ exact Hone' | ]. split; [ exact Hone'' | ]. split; [ exact Hup | ].
  intros o key Ho Hkey Hreach.
  destruct (store_redacao_embedding_returns self redacao_id texto key titulo o before
              Ho Hkey) as [s Hs].
  { unfold before. now rewrite store_all_svc. }
  rewrite Hrun in Hs. cbn [fst] in Hs. exists s. split; [ exact Hs | ].
  destruct (Hup s Hs) as (o' & Ho' & Hupserted).
  rewrite Ho in Ho'. injection Ho' as <-. exact Hupserted.
Qed.

(** The same redação stored twice, starting from an empty store, with a
    provider that answers the second request with another vector: the
    second call returns, and the store holds one record, with the second
    vector and the second text. *)
Lemma store_redacao_embedding_upserts_witness :
  let w := world_of empty_db changing_services in
  let id := "0123456789abcdef01234567" in
  let before := store_all configured [(id, "primeira versao", None)] w in
  let run := store_redacao_embedding configured id "segunda versao" None before in
  map e_vector_embedding (embeddings (db before)) = [Some [1; 0]%float] /\
  exists s r,
    fst run = Return s /\
    embeddings (db (snd run)) = [r] /\
    e_vector_embedding r = Some [0; 1]%float /\
    e_texto_snippet r = Some "segunda versao" /\
    s = ObjectId.to_str (e_id r).
Proof.
  intros w id before run.
  split; [ reflexivity | ].
  destruct (store_redacao_embedding_upserts configured
              [(id, "primeira versao", None)] id "segunda versao" None w)
    as (_ & _ & _ & Hreturns).
  - split; constructor.
  - constructor.
  - destruct (Hreturns _ "sk-test" eq_refl eq_refl eq_refl)
      as (s & Hs & r & Hfilter & Hv & Hsnippet & _ & _ & Hid & _).
    exists s, r. split; [ exact Hs | ].
    split; [ exact Hfilter | ]. split; [ exact Hv | ].
    split; [ exact Hsnippet | exact Hid ].
Defined.

End StoreFacts.

(** ** [RedacaoRepository.update_status] *)

Module StatusFacts.

Import Repositories Props StatusProps.

Lemma find_update_first_same {A} (p : A -> bool) (l : list A) (d d' : A) :
  find p l = Some d -> p d' = true ->
  find p (update_first p (fun _ => d') l) = Some d'.
Proof.
  intros Hfind Hd'. induction l as [ | x l IH]; simpl in *; [ discriminate | ].
  destruct (p x) eqn:Ex; simpl.
  - now rewrite Hd'.
  - rewrite Ex. now apply IH.
Qed.

Lemma update_first_other {A} (p : A -> bool) (f : A -> A) (l : list A) (x : A) :
  In x l -> p x = false -> In x (update_first p f l).
Proof.
  intros Hin Hp. induction l as [ | y l IH]; simpl in *; [ contradiction | ].
  destruct Hin as [-> | Hin].
  - rewrite Hp. now left.
  - destruct (p y); right; auto.
Qed.

Lemma set_fields_id (fields : list RedacaoField) (r : Redacao) :
  r_id (fold_left set_redacao_field fields r) = r_id r.
Proof.
  revert r. induction fields as [ | f fields IH]; intros r; simpl; [ reflexivity | ].
  now rewrite IH.
Qed.

(** What [update_one] does to a redação that is there. *)
Lemma update_one_found (redacao_id : string) (fields : list RedacaoField)
    (o : N) (old : Redacao) (w : World) :
  ObjectId.of_str redacao_id = Return o ->
  collection_down (svc w) Redacoes = false ->
  find (has_id o) (redacoes (db w)) = Some old ->
  let new := fold_left set_redacao_field fields old in
  update_one (D := Redacao) redacao_id fields w
  = (Return (negb (redacao_eqb old new)),
     with_db (with_redacoes
                (update_first (has_id o) (fun _ => new) (redacoes (db w)))
                (db w)) w).
Proof.
  intros Ho Hup Hfind new. unfold update_one.
  unfold try_except, bind at 1, lift. rewrite Ho.
  unfold bind, reach. cbn [coll redacoes_collection]. rewrite Hup.
  cbn [docs redacoes_collection]. rewrite Hfind. reflexivity.
Qed.

Lemma update_status_found (redacao_id status : string) (o : N)
    (old : Redacao) (w : World) :
  ObjectId.of_str redacao_id = Return o ->
  collection_down (svc w) Redacoes = false ->
  find (has_id o) (redacoes (db w)) = Some old ->
  let new :=
    fold_left set_redacao_field
      (if String.eqb status "concluida"
       then [Status status; DataConclusao (clock w)]
       else [Status status]) old in
  RedacaoRepository.update_status redacao_id status w
  = (Return (negb (redacao_eqb old new)),
     with_db (with_redacoes
                (update_first (has_id o) (fun _ => new) (redacoes (db w)))
                (db w)) w).
Proof.
  intros Ho Hup Hfind new. subst new.
  unfold RedacaoRepository.update_status.
  destruct (String.eqb status "concluida").
  - unfold bind at 1, bind at 1, datetime_now, gets, ret.
    now rewrite (update_one_found redacao_id _ o old w Ho Hup Hfind).
  - unfold bind at 1, ret.
    now rewrite (update_one_found redacao_id _ o old w Ho Hup Hfind).
Qed.

(** [update_status] writes the status it is given over any other: a
    redação that is [concluida] is back in [processando] after
    [update_status(id, "processando")]. *)
Lemma update_status_leaves_terminal_state :
  ~ keeps_terminal (RedacaoRepository.update_status id1 "processando") 1
      (world_of (db_with_redacao 1 "concluida" "texto") plain_services).
Proof.
  intros H. specialize (H "concluida" eq_refl eq_refl).
  vm_compute in H. discriminate H.
Qed.

(** X29: [update_status] does not look at the status a redação has.  For
    a redação that is there, whatever its current status, terminal or
    not, it leaves it with the status it was given; [data_conclusao]
    becomes the time of the call exactly when that status is
    ["concluida"]; the other fields and the other redações stay as they
    were; and the call answers whether the record changed. *)
Theorem update_status_overwrites (redacao_id status : string) (o : N)
    (old : Redacao) (w : World) :
  ObjectId.of_str redacao_id = Return o ->
  collection_down (svc w) Redacoes = false ->
  find (has_id o) (redacoes (db w)) = Some old ->
  let run := RedacaoRepository.update_status redacao_id status w in
  exists new,
    find (has_id o) (redacoes (db (snd run))) = Some new /\
    status_of o (snd run) = Some status /\
    r_data_conclusao new
    = (if String.eqb status "concluida" then Some (clock w)
       else r_data_conclusao old) /\
    (r_id new = r_id old /\ r_usuario_id new = r_usuario_id old /\
     r_titulo new = r_titulo old /\ r_data_envio new = r_data_envio old /\
     r_texto_extraido new = r_texto_extraido old /\
     r_mensagem_erro new = r_mensagem_erro old /\
     r_analise_disponivel new = r_analise_disponivel old) /\
    fst run = Return (negb (redacao_eqb old new)) /\
    (forall r, In r (redacoes (db w)) -> has_id o r = false ->
               In r (redacoes (db (snd run)))).
Proof.
  intros Ho Hup Hfind run. subst run.
  rewrite (update_status_found redacao_id status o old w Ho Hup Hfind).
  assert (Hid : has_id o old = true) by (apply (find_some _ _ Hfind)).
  unfold status_of. world.
  set (new := fold_left set_redacao_field _ old).
  assert (Hnew : find (has_id o)
                   (update_first (has_id o) (fun _ => new) (redacoes (db w)))
                 = Some new).
  { apply find_update_first_same with (d := old); [ exact Hfind | ].
    unfold has_id, redacoes_collection in *. subst new.
    now rewrite set_fields_id. }
  exists new. rewrite Hnew.
  split; [ reflexivity | ].
  subst new. cbn [option_map].
  destruct (String.eqb status "concluida"); cbn;
    (repeat split; try reflexivity);
    intros r Hin Hr; now apply update_first_other.
Qed.

(** A redação that is [concluida], written as [erro]. *)
Lemma update_status_overwrites_witness :
  status_of 1
    (snd (RedacaoRepository.update_status id1 "erro"
            (world_of (db_with_redacao 1 "concluida" "texto") plain_services)))
  = Some "erro".
Proof.
  destruct (update_status_overwrites id1 "erro" 1
              (redacao_doc 1 "concluida" "texto")
              (world_of (db_with_redacao 1 "concluida" "texto") plain_services)
              eq_refl eq_refl eq_refl)
    as (new & _ & Hstatus & _).
  exact Hstatus.
Defined.

End StatusFacts.

(** ** Retries and the scoring calls *)

Module RetryFacts.

Import IAAgent Props RetryProps.

Lemma wait_exponential_bounds (p : Tenacity.policy) (attempt : nat) :
  Tenacity.wait_min p = 1%Z -> Tenacity.wait_max p = 60%Z ->
  Tenacity.wait_exponential p attempt = Z.min (2 ^ Z.of_nat (attempt - 1)) 60 /\
  (1 <= Tenacity.wait_exponential p attempt <= 60)%Z.
Proof.
  intros Hmin Hmax. unfold Tenacity.wait_exponential. rewrite Hmin, Hmax.
  assert (0 < 2 ^ Z.of_nat (attempt - 1))%Z by (apply Z.pow_pos_nonneg; lia).
  lia.
Qed.

(** A call that returns is not repeated. *)
Lemma retry_returns {A} (p : Tenacity.policy) (f : M A) (w w' : World) (a : A) :
  f w = (Return a, w') -> Tenacity.retry p f w = (Return a, w').
Proof.
  intros Hf. unfold Tenacity.retry.
  destruct (Tenacity.stop_after_attempt p - 1); simpl; now rewrite Hf.
Qed.

Lemma json_answer (self : t) (text : string) (w : World) :
  exists v w', analyze_text_body self text w = (Return v, w').
Proof.
  unfold analyze_text_body, try_except, bind at 1, openai_chat.
  match goal with
  | |- context [chat_acreate ?s ?n ?r] => destruct (chat_acreate s n r) as [[raw | v] | e]
  end; cbn [json_loads]; unfold logger; run_py; eauto.
Qed.

(** [analyze_text] catches every exception itself, so the decorator never
    sees one: each call makes a single attempt. *)
Lemma analyze_text_single_attempt (self : t) (text : string) (w : World) :
  analyze_text self text w = analyze_text_body self text w.
Proof.
  destruct (json_answer self text w) as (v & w' & Hbody).
  unfold analyze_text. rewrite Hbody. now apply retry_returns.
Qed.

Lemma extract_key_points_once (self : t) (text : string) (max_points : Z)
    (w w' : World) (result : outcome pyval) :
  extract_key_points self text max_points w = (result, w') ->
  (exists v, result = Return v) /\
  chat_requests w' = chat_requests w ++ [key_points_request self text max_points] /\
  sleeps w' = sleeps w /\
  (forall e,
     chat_acreate (svc w) (List.length (chat_requests w))
       (key_points_request self text max_points) = Raise e ->
     result = Return (VList [])).
Proof.
  unfold extract_key_points, try_except, bind at 1, openai_chat.
  destruct (chat_acreate (svc w) (List.length (chat_requests w))
              (key_points_request self text max_points))
    as [[raw | v] | e]; cbn [json_loads]; unfold logger, items; run_py.
  - intros H; injection H as <- <-. world.
    repeat split; eauto; discriminate.
  - destruct v as [ | b | x | s | o | l | d];
      try (intros H; injection H as <- <-; world;
           repeat split; eauto; discriminate).
    destruct (dict_get "pontos" d); [ | destruct (dict_get "points" d);
      [ | destruct (first_list_value d) ] ];
      intros H; injection H as <- <-; world;
      repeat split; eauto; discriminate.
  - intros H; injection H as <- <-. world.
    repeat split; eauto.
Qed.

Lemma generate_improvement_suggestions_once (self : t) (text : string)
    (analysis : pyval) (w w' : World) (result : outcome pyval) :
  generate_improvement_suggestions self text analysis w = (result, w') ->
  (exists v, result = Return v) /\
  (chat_requests w' = chat_requests w \/
   exists weak, weak_points analysis = Return weak /\
                chat_requests w' = chat_requests w ++ [suggestions_request self weak]) /\
  sleeps w' = sleeps w /\
  (forall weak e,
     weak_points analysis = Return weak ->
     chat_acreate (svc w) (List.length (chat_requests w))
       (suggestions_request self weak) = Raise e ->
     result = Return (VList [])).
Proof.
  unfold generate_improvement_suggestions, try_except, bind at 1, lift.
  destruct (weak_points analysis) as [weak | e0].
  2:{ unfold logger. run_py. intros H; injection H as <- <-. world.
      repeat split; eauto; discriminate. }
  unfold bind at 1, openai_chat.
  destruct (chat_acreate (svc w) (List.length (chat_requests w))
              (suggestions_request self weak))
    as [[raw | v] | e] eqn:Echat; cbn [json_loads]; unfold logger, items; run_py.
  - intros H; injection H as <- <-. world.
    split; [ eauto | split; [ right; eauto | split; [ reflexivity | ] ] ].
    intros weak' e' Hw He. injection Hw as <-. rewrite Echat in He. discriminate.
  - destruct v as [ | b | x | s | o | l | d];
      try (intros H; injection H as <- <-; world;
           split; [ eauto | split; [ right; eauto | split; [ reflexivity | ] ] ];
           intros weak' e' Hw He; injection Hw as <-; rewrite Echat in He;
           discriminate).
    destruct (dict_get "sugestoes" d); [ | destruct (dict_get "suggestions" d);
      [ | destruct (first_list_value d) ] ];
      intros H; injection H as <- <-; world;
      (split; [ eauto | split; [ right; eauto | split; [ reflexivity | ] ] ]);
      intros weak' e' Hw He; injection Hw as <-; rewrite Echat in He;
      discriminate.
  - intros H; injection H as <- <-. world.
    split; [ eauto | split; [ right; eauto | split; [ reflexivity | ] ] ].
    reflexivity.
Qed.

(** C2, as stated, fails for the secondary calls: neither has a retry
    policy.  With a provider that fails twice and would answer the third
    request, each makes one request and gives up with [[]]. *)
Lemma secondary_calls_give_up_at_once :
  ~ third_attempt_succeeds
      (extract_key_points ia_agent "O texto da redacao." 5)
      (world_of empty_db flaky_services)
      (VList [VStr "tese"]) /\
  ~ third_attempt_succeeds
      (generate_improvement_suggestions ia_agent "O texto da redacao."
         (VDict [("nota_geral", VNum 5)]))
      (world_of empty_db flaky_services)
      (VList [VStr "tese"]).
Proof.
  split; intros [Hrequests _]; vm_compute in Hrequests; discriminate Hrequests.
Qed.

(** C2 (amended): the two decorated entry points carry an exponential
    backoff whose wait after the n-th failed attempt is
    [min(2 ** (n - 1), 60)], so 1 at first and never above 60, with a
    budget of 5 attempts on [process_document] and of 3 attempts on
    [analyze_text]: a decorated function that fails every time is run 5
    (resp. 3) times, with waits 1, 2, 4, 8 (resp. 1, 2) in between, and
    then [RetryError] is raised.  The secondary calls carry no retry
    policy: [extract_key_points] sends exactly one request and
    [generate_improvement_suggestions] at most one, neither waits, both
    return, and the answer is the empty list when the request fails. *)
Theorem retry_policies_and_secondary_calls :
  (forall attempt,
     Tenacity.wait_exponential process_document_policy attempt
     = Z.min (2 ^ Z.of_nat (attempt - 1)) 60 /\
     Tenacity.wait_exponential analyze_text_policy attempt
     = Z.min (2 ^ Z.of_nat (attempt - 1)) 60 /\
     (1 <= Tenacity.wait_exponential process_document_policy attempt <= 60)%Z /\
     (1 <= Tenacity.wait_exponential analyze_text_policy attempt <= 60)%Z) /\
  Tenacity.wait_exponential process_document_policy 1 = 1%Z /\
  Tenacity.wait_exponential analyze_text_policy 1 = 1%Z /\
  (forall e w,
     let run := Tenacity.retry process_document_policy (always_failing e) w in
     fst run = Raise RetryError /\
     List.length (log (snd run)) = List.length (log w) + 5 /\
     sleeps (snd run) = sleeps w ++ [1; 2; 4; 8]%Z) /\
  (forall e w,
     let run := Tenacity.retry analyze_text_policy (always_failing e) w in
     fst run = Raise RetryError /\
     List.length (log (snd run)) = List.length (log w) + 3 /\
     sleeps (snd run) = sleeps w ++ [1; 2]%Z) /\
  (forall self text max_points w,
     let run := extract_key_points self text max_points w in
     let request := key_points_request self text max_points in
     (exists v, fst run = Return v) /\
     chat_requests (snd run) = chat_requests w ++ [request] /\
     sleeps (snd run) = sleeps w /\
     (forall e,
        chat_acreate (svc w) (List.length (chat_requests w)) request = Raise e ->
        fst run = Return (VList []))) /\
  (forall self text analysis w,
     let run := generate_improvement_suggestions self text analysis w in
     (exists v, fst run = Return v) /\
     (chat_requests (snd run) = chat_requests w \/
      exists weak,
        weak_points analysis = Return weak /\
        chat_requests (snd run) = chat_requests w ++ [suggestions_request self weak]) /\
     sleeps (snd run) = sleeps w /\
     (forall weak e,
        weak_points analysis = Return weak ->
        chat_acreate (svc w) (List.length (chat_requests w))
          (suggestions_request self weak) = Raise e ->
        fst run = Return (VList []))).
Proof.
  split.
  { intros attempt.
    destruct (wait_exponential_bounds process_document_policy attempt eq_refl eq_refl).
    destruct (wait_exponential_bounds analyze_text_policy attempt eq_refl eq_refl).
    auto. }
  split; [ reflexivity | ]. split; [ reflexivity | ].
  split.
  { intros e w run. subst run. cbn. rewrite !length_app, <- !app_assoc. cbn.
    repeat split. lia. }
  split.
  { intros e w run. subst run. cbn. rewrite !length_app, <- !app_assoc. cbn.
    repeat split. lia. }
  split.
  - intros self text max_points w run request.
    destruct run as [result w'] eqn:Hrun. subst run request.
    exact (extract_key_points_once _ _ _ _ _ _ Hrun).
  - intros self text analysis w run.
    destruct run as [result w'] eqn:Hrun. subst run.
    exact (generate_improvement_suggestions_once _ _ _ _ _ _ Hrun).
Qed.

End RetryFacts.

(** ** [get_similar_redacoes] and [enrich_with_rag] *)

Module EnrichFacts.

Import RAGManager Props EnrichProps EmbeddingFacts ScanFacts.

Lemma forallb_firstn {A} (p : A -> bool) (n : nat) (l : list A) :
  forallb p l = true -> forallb p (firstn n l) = true.
Proof.
  revert l. induction n as [ | n IH]; intros [ | x l]; simpl; auto.
  intros H. apply andb_true_iff in H as [Hx Hl]. now rewrite Hx, IH.
Qed.

Lemma chars_hashable (s : string) :
  forallb hashable (map (fun c => VStr (String c "")) (list_ascii_of_string s)) = true.
Proof. induction s; simpl; auto. Qed.

(** The sliced recommendations of a stored analysis can be iterated and
    hashed, or the slice raises. *)
Lemma slice3_usable (analise : dict) (v : pyval) :
  hashable_recomendacoes analise ->
  slice3 (dict_get_default "recomendacoes" (VList []) analise) = Return v ->
  exists items, items_of v = Return items /\ forallb hashable items = true.
Proof.
  unfold hashable_recomendacoes, dict_get_default. intros Hh.
  destruct (dict_get "recomendacoes" analise) as [[ | b | x | s | o | l | d] | ];
    cbn [slice3]; intros Hs; try discriminate; injection Hs as <-;
    cbn [items_of].
  - eexists; split; [ reflexivity | apply chars_hashable ].
  - eexists; split; [ reflexivity | ].
    exact (forallb_firstn hashable 3 l (Hh l eq_refl)).
  - eexists; split; [ reflexivity | reflexivity ].
Qed.

(** One turn of the loop of [get_similar_redacoes]: whatever fails while
    the hit is joined with its redação and analysis is caught. *)
Lemma similar_of_hit_caught (emb : Hit) (w : World) :
  exists r w',
    try_except (similar_of_hit emb)
      (fun e =>
         logger "ERROR" ("Erro ao processar redação similar: " ++ exn_str e) ;;;
         ret None) w
    = (Return r, w') /\
    same_store w w' /\
    (Forall hashable_recomendacoes (analises (db w)) ->
     forall s, r = Some s -> usable s) /\
    (collection_down (svc w) Redacoes = true \/
     collection_down (svc w) Analises = true -> r = None).
Proof.
  unfold similar_of_hit, try_except, bind at 1, redacoes_find_one, logger.
  run_py.
  destruct (collection_down (svc w) Redacoes) eqn:Ered.
  { do 2 eexists. split; [ reflexivity | ]. split; [ repeat split | ].
    split; [ discriminate | reflexivity ]. }
  destruct (find _ (redacoes (db w))) as [redacao | ].
  2:{ do 2 eexists. split; [ reflexivity | ]. split; [ repeat split | ].
      split; [ discriminate | reflexivity ]. }
  unfold analises_find_one. run_py.
  destruct (collection_down (svc w) Analises) eqn:Eana.
  { do 2 eexists. split; [ reflexivity | ]. split; [ repeat split | ].
    split; [ discriminate | reflexivity ]. }
  assert (Hup : false = true \/ false = true -> forall r : option Similar, r = None)
    by (intros [H | H]; discriminate H).
  destruct (find (has_redacao_id (h_redacao_id emb)) (analises (db w)))
    as [analise | ] eqn:Efind.
  2:{ do 2 eexists. split; [ reflexivity | ]. split; [ repeat split | ].
      split; [ | intros H; now apply Hup ].
      intros _ s Hs. injection Hs as <-. intros a Ha. discriminate Ha. }
  destruct (truthy (VDict analise)).
  2:{ do 2 eexists. split; [ reflexivity | ]. split; [ repeat split | ].
      split; [ | intros H; now apply Hup ].
      intros _ s Hs. injection Hs as <-. intros a Ha. discriminate Ha. }
  destruct (slice3 (dict_get_default "recomendacoes" (VList []) analise))
    as [v | e] eqn:Eslice.
  - do 2 eexists. split; [ reflexivity | ]. split; [ repeat split | ].
    split; [ | intros H; now apply Hup ].
    intros Hall s Hs. injection Hs as <-. intros a Ha.
    cbn [s_analise] in Ha. injection Ha as <-. cbn [sa_principais_recomendacoes].
    apply (slice3_usable analise); [ | exact Eslice ].
    rewrite Forall_forall in Hall. apply Hall.
    now apply (find_some _ _ Efind).
  - do 2 eexists. split; [ reflexivity | ]. split; [ repeat split | ].
    split; [ discriminate | reflexivity ].
Qed.

Lemma similar_loop_cons (emb : Hit) (hits : list Hit) (acc : list Similar) :
  similar_loop (emb :: hits) acc
  = (r <- try_except (similar_of_hit emb)
            (fun e =>
               logger "ERROR" ("Erro ao processar redação similar: " ++ exn_str e) ;;;
               ret None) ;;
     similar_loop hits
       (match r with
        | Some result => acc ++ [result]
        | None => acc
        end)).
Proof. reflexivity. Qed.

Lemma similar_loop_returns (hits : list Hit) (acc : list Similar) (w : World) :
  exists l w',
    similar_loop hits acc w = (Return l, w') /\
    same_store w w' /\
    (Forall hashable_recomendacoes (analises (db w)) ->
     Forall usable acc -> Forall usable l) /\
    (collection_down (svc w) Redacoes = true \/
     collection_down (svc w) Analises = true -> l = acc).
Proof.
  revert acc w. induction hits as [ | emb hits IH]; intros acc w.
  - do 2 eexists. split; [ reflexivity | ].
    split; [ apply same_store_refl | ]. split; auto.
  - rewrite similar_loop_cons. unfold bind at 1.
    destruct (similar_of_hit_caught emb w) as (r & w1 & Hrun & Hsame & Hus & Hdown).
    rewrite Hrun.
    destruct (IH (match r with Some result => acc ++ [result] | None => acc end) w1)
      as (l & w2 & Hloop & Hsame2 & Hus2 & Hdown2).
    exists l, w2. split; [ exact Hloop | ].
    split; [ now apply same_store_trans with w1 | ].
    destruct Hsame as (Hdb & Hsvc & _).
    split.
    + intros Hall Hacc. apply Hus2; [ now rewrite Hdb | ].
      destruct r as [s | ]; [ | exact Hacc ].
      apply Forall_app. split; [ exact Hacc | ].
      constructor; [ now apply Hus | constructor ].
    + intros Hred. rewrite Hdown2 by (now rewrite Hsvc).
      now rewrite (Hdown Hred).
Qed.

Lemma all_recomendacoes_returns (similares : list Similar) :
  Forall usable similares ->
  exists items,
    all_recomendacoes similares = Return items /\ forallb hashable items = true.
Proof.
  induction 1 as [ | s l Hs Hl IH]; simpl.
  - now exists [].
  - destruct IH as (rest & Hrest & Hhash).
    destruct (s_analise s) as [a | ] eqn:Ea.
    + destruct (Hs a Ea) as (items & Hitems & Hh).
      rewrite Hitems, Hrest. eexists. split; [ reflexivity | ].
      rewrite forallb_app. now rewrite Hh, Hhash.
    + now exists rest.
Qed.

Lemma list_of_set_returns (l seen : list pyval) :
  forallb hashable l = true -> exists unique, list_of_set l seen = Return unique.
Proof.
  revert seen. induction l as [ | v l IH]; intros seen; simpl.
  - eauto.
  - intros H. apply andb_true_iff in H as [Hv Hl]. rewrite Hv. now apply IH.
Qed.

Lemma recomendacoes_contextuais_returns (similares : list Similar) :
  Forall usable similares ->
  exists l, _gerar_recomendacoes_contextuais similares = Return l.
Proof.
  intros Hus. unfold _gerar_recomendacoes_contextuais.
  destruct (all_recomendacoes_returns similares Hus) as (items & Hitems & Hh).
  rewrite Hitems.
  destruct (list_of_set_returns items [] Hh) as (unique & Hunique).
  rewrite Hunique. eauto.
Qed.

(** [vector_search] returns when the client is configured, the embeddings
    can be read and every stored vector has the query's dimension. *)
Lemma vector_search_returns (self : t) (key text : string) (k : Z) (w : World) :
  openai_client self = Some key ->
  collection_down (svc w) Embeddings = false ->
  same_dimension (generated_vector w text) (embeddings (db w)) ->
  exists hits w',
    vector_search self text k w = (Return hits, w') /\ same_store w w'.
Proof.
  intros Hkey Hup Hdim.
  assert (Hfallback :
            native_search_empty self w (generated_vector w text) k ->
            exists hits w',
              vector_search self text k w = (Return hits, w') /\ same_store w w').
  { intros Hnative.
    destruct (SearchFacts.vector_search_fallback self key text k w Hkey Hnative Hup)
      as (w' & Hrun & Hsame).
    destruct (similarities_returns _ _ Hdim) as (l & Hl & _).
    unfold exhaustive_scan in Hrun. rewrite Hl in Hrun. eauto. }
  destruct (has_vector_search self) eqn:Hnative;
    [ | apply Hfallback; now left ].
  destruct (vector_search_aggregate (svc w) (generated_vector w text) k)
    as [[ | h hits] | e] eqn:Eagg;
    try (apply Hfallback; right; now rewrite Eagg).
  destruct (generate_embedding_configured self key text w Hkey)
    as (w1 & Hrun & Hsame & _).
  unfold vector_search, bind at 1. rewrite Hrun, Hnative.
  unfold bind at 1, try_except, embeddings_vector_search.
  destruct Hsame as (Hdb & Hsvc & Hrest). rewrite Hsvc, Eagg.
  do 2 eexists. split; [ reflexivity | ]. repeat split; tauto.
Qed.

(** C8, as stated, fails.  Without an API key [generate_embedding] raises
    [ValueError] before its [try], and nothing between it and the caller
    of [enrich_with_rag] catches the exception.  With a key, the call
    still raises when the embeddings or the corpus examples cannot be
    read, when a stored vector has another dimension than the query
    vector, and when a stored recommendation is not hashable. *)
Lemma enrich_with_rag_raises :
  let texto := "O texto da redacao." in
  ~ returns_normally (enrich_with_rag unconfigured texto)
      (world_of empty_db plain_services) /\
  ~ returns_normally (enrich_with_rag configured texto)
      (world_of empty_db (services_without Embeddings)) /\
  ~ returns_normally (enrich_with_rag configured texto)
      (world_of empty_db (services_without CorpusExemplos)) /\
  ~ returns_normally (enrich_with_rag configured texto)
      (world_of wide_db plain_services) /\
  ~ returns_normally (enrich_with_rag configured texto)
      (world_of db_with_object_recommendations plain_services).
Proof.
  repeat split; intros [bundle Hrun]; vm_compute in Hrun; discriminate Hrun.
Qed.

(** The join of a hit reads the store and leaves the world as it was. *)
Lemma similar_of_hit_world (emb : Hit) (w : World) :
  snd (similar_of_hit emb w) = w.
Proof.
  unfold similar_of_hit, bind at 1, redacoes_find_one. run_py.
  destruct (collection_down (svc w) Redacoes); [ reflexivity | ].
  destruct (find _ (redacoes (db w))) as [redacao | ]; [ | reflexivity ].
  unfold analises_find_one. run_py.
  destruct (collection_down (svc w) Analises); [ reflexivity | ].
  destruct (find _ (analises (db w))) as [analise | ]; [ | reflexivity ].
  destruct (truthy (VDict analise)); [ | reflexivity ].
  destruct (slice3 _); reflexivity.
Qed.

Lemma similar_of_hit_same_store (emb : Hit) (w w' : World) :
  same_store w w' ->
  fst (similar_of_hit emb w') = fst (similar_of_hit emb w).
Proof.
  intros (Hdb & Hsvc & _).
  unfold similar_of_hit, redacoes_find_one, analises_find_one. run_py.
  rewrite Hsvc.
  destruct (collection_down (svc w) Redacoes); [ reflexivity | ].
  rewrite Hdb.
  destruct (find _ (redacoes (db w))) as [redacao | ]; [ | reflexivity ].
  rewrite Hsvc.
  destruct (collection_down (svc w) Analises); [ reflexivity | ].
  rewrite Hdb.
  destruct (find _ (analises (db w))) as [analise | ]; [ | reflexivity ].
  destruct (truthy (VDict analise)); [ | reflexivity ].
  destruct (slice3 _); reflexivity.
Qed.

Lemma contribution_same_store (emb : Hit) (w w' : World) :
  same_store w w' -> contribution w' emb = contribution w emb.
Proof.
  intros Hsame. unfold contribution.
  now rewrite (similar_of_hit_same_store emb w w' Hsame).
Qed.

(** An entry carries the score of its hit. *)
Lemma contribution_score (emb : Hit) (w : World) :
  Forall (fun s => s_similarity_score s = h_score emb) (contribution w emb).
Proof.
  unfold contribution, similar_of_hit, bind at 1, redacoes_find_one. run_py.
  destruct (collection_down (svc w) Redacoes); [ constructor | ].
  destruct (find _ (redacoes (db w))) as [redacao | ]; [ | constructor ].
  unfold analises_find_one. run_py.
  destruct (collection_down (svc w) Analises); [ constructor | ].
  destruct (find _ (analises (db w))) as [analise | ];
    [ | repeat constructor ].
  destruct (truthy (VDict analise)); [ | repeat constructor ].
  destruct (slice3 _); repeat constructor.
Qed.

(** The loop of [get_similar_redacoes] appends what each hit contributes,
    in the order of the hits. *)
Lemma similar_loop_contributions (hits : list Hit) (acc : list Similar) (w : World) :
  exists w',
    similar_loop hits acc w
    = (Return (acc ++ flat_map (contribution w) hits), w') /\
    same_store w w'.
Proof.
  revert acc w. induction hits as [ | emb hits IH]; intros acc w.
  - exists w. cbn [similar_loop flat_map]. rewrite app_nil_r.
    split; [ reflexivity | apply same_store_refl ].
  - rewrite similar_loop_cons. unfold bind at 1, try_except.
    pose proof (similar_of_hit_world emb w) as Hw.
    cbn [flat_map]. unfold contribution at 1.
    destruct (similar_of_hit emb w) as [[r | e] w1]; cbn [fst snd] in *; subst w1.
    + destruct (IH (match r with Some result => acc ++ [result] | None => acc end) w)
        as (w' & Hloop & Hsame).
      exists w'. rewrite Hloop. split; [ | exact Hsame ].
      destruct r as [result | ]; [ now rewrite <- app_assoc | reflexivity ].
    + unfold logger. run_py.
      match goal with
      | |- context [similar_loop hits acc ?w1] =>
          destruct (IH acc w1) as (w' & Hloop & Hsame);
          assert (Hlog : same_store w w1) by (repeat split)
      end.
      exists w'. rewrite Hloop. split.
      * f_equal. f_equal. cbn [app]. f_equal. apply flat_map_ext. intros h.
        now apply contribution_same_store.
      * now apply same_store_trans with (2 := Hsame).
Qed.

(** Against the zero vector every score is 0.0. *)
Lemma scored_by_zero_vector (n : nat) (doc : Embedding) (h : Hit) :
  scored_by_cosine (repeat 0%float n) doc h -> h_score h = 0%float.
Proof.
  intros (v & _ & Hs & _). revert Hs.
  unfold _cosine_similarity. destruct (Numpy.dot _ v); [ | discriminate ].
  pose proof (CosineFacts.zero_vector_zero_norm n) as Hz.
  unfold zero_norm in Hz. rewrite Hz. cbn [orb]. congruence.
Qed.

Lemma Forall_slice_to {A} (P : A -> Prop) (k : Z) (l : list A) :
  Forall P l -> Forall P (slice_to k l).
Proof.
  unfold slice_to. intros H.
  assert (Hfirst : forall n, Forall P (firstn n l)).
  { intros n. rewrite <- (firstn_skipn n l) in H.
    now apply Forall_app in H as [Hfirst _]. }
  destruct (0 <=? k)%Z; apply Hfirst.
Qed.

Lemma scan_with_zero_vector (n : nat) (docs : list Embedding) (k : Z) (hits : list Hit) :
  exhaustive_scan (repeat 0%float n) docs k = Return hits ->
  Forall (fun h => h_score h = 0%float) hits.
Proof.
  unfold exhaustive_scan.
  destruct (similarities (repeat 0%float n) docs) as [l | e] eqn:El;
    [ | discriminate ].
  intros H. injection H as <-.
  apply Forall_slice_to, sort_by_score_Forall.
  pose proof (similarities_scored _ _ _ El) as Hscored.
  clear El. induction Hscored as [ | doc h docs' l' Hh _ IH]; constructor.
  - exact (scored_by_zero_vector n doc h Hh).
  - exact IH.
Qed.

Lemma provider_fails_zero_vector (w : World) (texto : string) :
  provider_fails w texto -> generated_vector w texto = repeat 0%float 1536.
Proof.
  unfold provider_fails, generated_vector.
  destruct (embeddings_create _ _ _) as [[ | v data] | e];
    [ reflexivity | contradiction | reflexivity ].
Qed.

(** C8 (amended): [enrich_with_rag] returns a context bundle whenever the
    OpenAI client is configured, the embeddings and the corpus examples
    can be read, every stored vector has the dimension of the query
    vector and the stored recommendations are hashable, whatever the
    embedding provider answers and whether or not redações and analyses
    can be read.  The similar set of the bundle is what the hits of the
    search contribute, hit by hit: a hit whose join with its redação and
    analysis raises, or finds no redação, contributes nothing, so that
    with the redações or the analyses out of reach the similar set is
    empty.  An error of the embedding provider does not empty anything:
    the query is then [[0.0] * 1536], and when the scan does the search it
    still returns the stored records that carry a vector, up to five,
    every one with the score 0.0, which their entries carry on. *)
Theorem enrich_with_rag_degrades (self : t) (key texto : string) (w : World) :
  openai_client self = Some key ->
  collection_down (svc w) Embeddings = false ->
  collection_down (svc w) CorpusExemplos = false ->
  same_dimension (generated_vector w texto) (embeddings (db w)) ->
  Forall hashable_recomendacoes (analises (db w)) ->
  exists bundle hits,
    fst (enrich_with_rag self texto w) = Return bundle /\
    fst (vector_search self texto 5 w) = Return hits /\
    redacoes_similares bundle = flat_map (contribution w) hits /\
    (collection_down (svc w) Redacoes = true \/
     collection_down (svc w) Analises = true ->
     redacoes_similares bundle = []) /\
    (provider_fails w texto ->
     native_search_empty self w (repeat 0%float 1536) 5 ->
     List.length hits
     = Nat.min 5 (List.length (filter has_vector (embeddings (db w)))) /\
     Forall (fun h => h_score h = 0%float) hits /\
     Forall (fun s => s_similarity_score s = 0%float) (redacoes_similares bundle)).
Proof.
  intros Hkey Hemb Hcorpus Hdim Hhash.
  destruct (vector_search_returns self key texto 5 w Hkey Hemb Hdim)
    as (hits & w1 & Hsearch & Hsame1).
  pose proof Hsame1 as (Hdb1 & Hsvc1 & _).
  destruct (similar_loop_returns hits [] w1)
    as (similares & w2 & Hloop & (Hdb2 & Hsvc2 & _) & Husable & Hdown).
  destruct (similar_loop_contributions hits [] w1) as (w2' & Hloop' & _).
  assert (Hsim : similares = flat_map (contribution w) hits).
  { rewrite Hloop in Hloop'. injection Hloop' as -> _. cbn [app].
    apply flat_map_ext. intros h. now apply contribution_same_store. }
  assert (Hus : Forall usable similares).
  { apply Husable; [ now rewrite Hdb1 | constructor ]. }
  destruct (recomendacoes_contextuais_returns similares Hus) as (recs & Hrecs).
  exists {| redacoes_similares := similares;
            exemplos_alta_qualidade :=
              map (fun ex =>
                     {| x_id := ObjectId.to_str (c_id ex);
                        x_titulo := c_titulo ex;
                        x_nivel_qualidade := c_nivel_qualidade ex;
                        x_temas := c_temas ex |})
                (firstn 2
                   (filter (fun c =>
                              PrimFloat.leb 8 (c_nivel_qualidade c)
                              && String.eqb (c_categoria c) "exemplar")
                      (corpus_exemplos (db w))));
            recomendacoes_contextuais := recs |}, hits.
  cbn [redacoes_similares].
  split.
  { unfold enrich_with_rag, get_similar_redacoes.
    unfold bind at 1, bind at 1. rewrite Hsearch, Hloop.
    unfold bind at 1, corpus_exemplos_find_exemplares. run_py.
    rewrite Hsvc2, Hsvc1, Hcorpus, Hrecs, Hdb2, Hdb1. reflexivity. }
  split; [ now rewrite Hsearch | ].
  split; [ exact Hsim | ].
  split; [ intros Hred; apply Hdown; now rewrite Hsvc1 | ].
  intros Hfails Hnative.
  pose proof (provider_fails_zero_vector w texto Hfails) as Hzero.
  rewrite <- Hzero in Hnative.
  destruct (SearchFacts.vector_search_fallback self key texto 5 w Hkey Hnative Hemb)
    as (w' & Hrun & _).
  rewrite Hrun in Hsearch. injection Hsearch as Hscan _.
  assert (Hscores : Forall (fun h => h_score h = 0%float) hits).
  { rewrite Hzero in Hscan. exact (scan_with_zero_vector _ _ _ _ Hscan). }
  split; [ | split; [ exact Hscores | ] ].
  - destruct (similarities_returns _ _ Hdim) as (l & Hl & Hlen & _).
    unfold exhaustive_scan in Hscan. rewrite Hl in Hscan.
    injection Hscan as <-. unfold slice_to. cbn [Z.leb Z.compare Z.to_nat].
    rewrite length_firstn, sort_by_score_length, Hlen. reflexivity.
  - rewrite Hsim. clear - Hscores.
    induction Hscores as [ | h hits Hh _ IH]; cbn [flat_map]; [ constructor | ].
    apply Forall_app. split; [ | exact IH ].
    eapply Forall_impl; [ | apply contribution_score ].
    cbv beta. intros s Hs. congruence.
Qed.

(** A store with a redação and its embedding.  With the redações out of
    reach the search finds the record, whose join fails, and the bundle
    comes back with an empty similar set.  With a provider that fails the
    bundle comes back with the redação in its similar set, at score
    0.0. *)
Lemma enrich_with_rag_degrades_witness :
  (exists bundle hits,
     fst (enrich_with_rag configured "O texto da redacao."
            (world_of PipelineProps.db_with_own_embedding (services_without Redacoes)))
     = Return bundle /\
     fst (vector_search configured "O texto da redacao." 5
            (world_of PipelineProps.db_with_own_embedding (services_without Redacoes)))
     = Return hits /\
     List.length hits = 1 /\
     redacoes_similares bundle = []) /\
  (exists bundle,
     fst (enrich_with_rag configured "O texto da redacao."
            (world_of db_with_full_embedding services_with_failing_provider))
     = Return bundle /\
     map s_id (redacoes_similares bundle) = [ObjectId.to_str 1] /\
     Forall (fun s => s_similarity_score s = 0%float) (redacoes_similares bundle)).
Proof.
  split.
  - destruct (enrich_with_rag_degrades configured "sk-test" "O texto da redacao."
                (world_of PipelineProps.db_with_own_embedding (services_without Redacoes))
                eq_refl eq_refl eq_refl)
      as (bundle & hits & Hrun & Hsearch & _ & Hempty & _).
    + repeat constructor. intros v Hv. injection Hv as <-. reflexivity.
    + constructor.
    + exists bundle, hits. split; [ exact Hrun | ]. split; [ exact Hsearch | ].
      split; [ | apply Hempty; left; reflexivity ].
      vm_compute in Hsearch. injection Hsearch as <-. reflexivity.
  - destruct (enrich_with_rag_degrades configured "sk-test" "O texto da redacao."
                (world_of db_with_full_embedding services_with_failing_provider)
                eq_refl eq_refl eq_refl)
      as (bundle & hits & Hrun & Hsearch & Hsim & _ & Hzero).
    + assert (H : forall (x : float) v,
                Some (repeat x 1536) = Some v -> List.length v = 1536).
      { intros x v Hv. assert (Hx : v = repeat x 1536) by congruence.
        rewrite Hx. apply repeat_length. }
      repeat constructor. intros v Hv.
      change (generated_vector _ _) with (repeat 0%float 1536).
      rewrite repeat_length. exact (H _ _ Hv).
    + constructor.
    + exists bundle. split; [ exact Hrun | ].
      destruct (Hzero I (or_introl eq_refl)) as (_ & _ & Hscores).
      split; [ | exact Hscores ].
      rewrite Hsim.
      assert (Hids : map h_redacao_id hits = [1%N]).
      { vm_compute in Hsearch. injection Hsearch as <-. reflexivity. }
      destruct hits as [ | h [ | h' hits]]; try discriminate Hids.
      injection Hids as Hid. cbn [flat_map]. rewrite app_nil_r.
      unfold contribution, similar_of_hit, redacoes_find_one. run_py.
      rewrite Hid. reflexivity.
Defined.

End EnrichFacts.

(** ** The similar set and the context of the pipeline *)

Module ContextFacts.

Import RAGManager Repositories Props StatusProps PipelineProps.

(** [get_similar_redacoes] takes no id to leave out: once the embedding
    of redação 1 is stored, the similar set retrieved for its text holds
    redação 1 itself. *)
Lemma similar_set_holds_the_redacao_itself :
  ~ similar_set_excludes configured id1 "O texto da redacao."
      (world_of db_with_own_embedding plain_services).
Proof.
  intros H. specialize (H _ eq_refl).
  inversion H as [ | s l Hs _]; subst. apply Hs. reflexivity.
Qed.

(** The test [similar_id != redacao_id] of the context loop compares the
    [_id] of a stored document, an [ObjectId], with the id the pipeline
    was given, a [str]: it holds for every [ObjectId], the one of the
    redação being processed included. *)
Lemma object_id_differs_from_every_str (o : N) (redacao_id : string) :
  Main.differs_from_str (VObjectId o) redacao_id = true.
Proof. reflexivity. Qed.


End ContextFacts.

(** ** [processar_redacao_async] *)

Module PipelineFacts.

Import RAGManager Repositories Props StatusProps PipelineProps.

(** Neither [RedacaoRepository] nor [BaseRepository] defines [update], and
    [main.py] binds no [logger]. *)
Lemma update_is_not_an_attribute :
  existsb (String.eqb "update") RedacaoRepository_attributes = false.
Proof. reflexivity. Qed.

Lemma logger_is_not_a_global :
  existsb (String.eqb "logger") Main.globals = false.
Proof. reflexivity. Qed.

(** The first statement of the pipeline raises [AttributeError]; the
    handler of the enclosing [try] starts by logging, which raises
    [NameError]; that exception leaves the function, and nothing was
    written. *)
Lemma processar_redacao_async_raises (rag_manager : t)
    (update : string -> list RedacaoField -> M bool)
    (create : collection -> dict -> M unit)
    (find_similar_redacoes : list float -> Z -> M (list dict))
    (redacao_id texto : string) (titulo : option string)
    (usuario_id : string) (file_path : option string) (w : World) :
  Main.processar_redacao_async rag_manager update create find_similar_redacoes
    redacao_id texto titulo usuario_id file_path w
  = (Raise (NameError "logger"), w).
Proof. reflexivity. Qed.

(** Further along the same path: [generate_embedding] is an ordinary
    function that returns a list, so awaiting its result raises; the
    [try] around it never yields an embedding. *)
Lemma awaiting_the_embedding_raises (rag_manager : t) (texto : string) (w : World) :
  exists e w',
    (v <- generate_embedding rag_manager texto ;;
     Main.await_list (A := option (list float)) v) w = (Raise e, w').
Proof.
  unfold bind, Main.await_list, raise.
  destruct (generate_embedding rag_manager texto w) as [[v | e] w']; eauto.
Qed.

(** With an empty scoring answer the assembled analysis carries the
    default rubric of five competências and the overall score 7.0. *)
Lemma default_rubric (redacao_id : string) (titulo : option string)
    (sugestoes pontos_chave : pyval) :
  exists campos notas,
    Main.campos_da_analise redacao_id titulo (VDict []) sugestoes pontos_chave
    = Return campos /\
    dict_get "nota_geral" campos = Some (VNum 7) /\
    dict_get "notas" campos = Some (VList notas) /\
    List.length notas = 5.
Proof. do 2 eexists. repeat split. Qed.

Lemma follows_refl (status : string) : follows status status = true.
Proof. unfold follows. now rewrite String.eqb_refl. Qed.

(** C4: no run of the pipeline moves a redação against the order
    pendente, processando, then concluida or erro.  Whatever the run is
    given and whatever the store holds, every stored redação has
    afterwards a status that follows the one it had, and a redação in a
    terminal state is still in that state.  (The run writes no status:
    each of its status writes is a call of [redacao_repository.update],
    which does not exist.) *)
Theorem pipeline_status_is_monotonic (rag_manager : t)
    (update : string -> list RedacaoField -> M bool)
    (create : collection -> dict -> M unit)
    (find_similar_redacoes : list float -> Z -> M (list dict))
    (redacao_id texto : string) (titulo : option string)
    (usuario_id : string) (file_path : option string)
    (w : World) (o : N) (status : string) :
  status_of o w = Some status ->
  let run :=
    Main.processar_redacao_async rag_manager update create find_similar_redacoes
      redacao_id texto titulo usuario_id file_path w in
  exists status',
    status_of o (snd run) = Some status' /\
    follows status status' = true /\
    (terminal status = true -> status' = status).
Proof.
  intros Hstatus run. subst run.
  rewrite processar_redacao_async_raises. cbn [snd].
  exists status. split; [ exact Hstatus | ].
  split; [ apply follows_refl | reflexivity ].
Qed.

(** A redação that is [concluida], for which the pipeline runs again. *)
Lemma pipeline_status_is_monotonic_witness :
  status_of 1
    (snd (Main.processar_redacao_async configured
            (fun _ _ => ret true) (fun _ _ => ret tt) (fun _ _ => ret [])
            id1 texto_50 None "000000000000000000000000" None
            (world_of (db_with_redacao 1 "concluida" texto_50) plain_services)))
  = Some "concluida".
Proof.
  destruct (pipeline_status_is_monotonic configured
              (fun _ _ => ret true) (fun _ _ => ret tt) (fun _ _ => ret [])
              id1 texto_50 None "000000000000000000000000" None
              (world_of (db_with_redacao 1 "concluida" texto_50) plain_services)
              1 "concluida" eq_refl)
    as (status' & Hstatus & _ & Hterminal).
  rewrite Hstatus. f_equal. apply Hterminal. reflexivity.
Defined.

(** C1 (the code at the failing input): for a text of 50 characters and a
    scoring provider that only answers malformed JSON, the run ends with
    [NameError]; no analysis is stored and the redação keeps the status
    [processando]. *)
Theorem malformed_scoring_run_stores_no_analysis (rag_manager : t)
    (update : string -> list RedacaoField -> M bool)
    (create : collection -> dict -> M unit)
    (find_similar_redacoes : list float -> Z -> M (list dict)) :
  let w := world_of (db_with_redacao 1 "processando" texto_50) plain_services in
  let run :=
    Main.processar_redacao_async rag_manager update create find_similar_redacoes
      id1 texto_50 None "000000000000000000000000" None w in
  String.length texto_50 = 50 /\
  (forall n request, chat_acreate (svc w) n request = Return (Malformed "not json")) /\
  fst run = Raise (NameError "logger") /\
  analises (db (snd run)) = [] /\
  status_of 1 (snd run) = Some "processando".
Proof.
  intros w run. subst run.
  rewrite processar_redacao_async_raises. repeat split.
Qed.

End PipelineFacts.

(** ** Strings and identifiers *)

Module StringFacts.

Lemma length_append (s1 s2 : string) :
  String.length (s1 ++ s2) = String.length s1 + String.length s2.
Proof. induction s1 as [ | c s1 IH]; simpl; congruence. Qed.

End StringFacts.

Module ListFacts.

Lemma In_firstn {A} (n : nat) (l : list A) (x : A) :
  In x (firstn n l) -> In x l.
Proof.
  revert l. induction n as [ | n IH]; intros l; simpl; [ intros [] | ].
  destruct l as [ | y l]; simpl; [ intros [] | ].
  intros [H | H]; [ now left | right; now apply IH ].
Qed.

Lemma filter_all {A} (l : list A) : filter (fun _ => true) l = l.
Proof. induction l as [ | x l IH]; simpl; congruence. Qed.

Lemma NoDup_firstn {A} (n : nat) (l : list A) :
  NoDup l -> NoDup (firstn n l).
Proof.
  intros H. revert n. induction H as [ | x l Hx Hl IH]; intros n.
  - rewrite firstn_nil. constructor.
  - destruct n as [ | n]; simpl; constructor; [ | apply IH ].
    intros Hin. apply Hx. now apply In_firstn with n.
Qed.

Lemma ForallOrdPairs_snoc {A} (R : A -> A -> Prop) (l : list A) (x : A) :
  ForallOrdPairs R l -> Forall (fun y => R y x) l -> ForallOrdPairs R (l ++ [x]).
Proof.
  induction 1 as [ | y l Hy Hl IH]; intros Hx; simpl.
  - constructor; constructor.
  - inversion Hx as [ | ? ? Hyx Hlx]; subst.
    constructor; [ | now apply IH ].
    apply Forall_app. split; [ exact Hy | now constructor ].
Qed.

Lemma ForallOrdPairs_firstn {A} (R : A -> A -> Prop) (n : nat) (l : list A) :
  ForallOrdPairs R l -> ForallOrdPairs R (firstn n l).
Proof.
  intros H. revert n. induction H as [ | x l Hx Hl IH]; intros n.
  - rewrite firstn_nil. constructor.
  - destruct n as [ | n]; simpl; constructor; [ | apply IH ].
    rewrite Forall_forall in Hx |- *. intros y Hy. apply Hx.
    now apply In_firstn with n.
Qed.

End ListFacts.

Module ObjectIdFacts.

Import ObjectId.

Lemma hex_value_digit (d : N) :
  (d < 16)%N -> hex_value (hex_digit d) = Some d.
Proof.
  intros Hd.
  destruct d as [ | p]; [ reflexivity | ].
  do 4 (destruct p as [p | p | ]; try reflexivity; try lia).
Qed.

Lemma hex_digits_length (n : nat) (o : N) (acc : string) :
  String.length (hex_digits n o acc) = n + String.length acc.
Proof.
  revert o acc. induction n as [ | n IH]; intros o acc; simpl; [ reflexivity | ].
  rewrite IH. simpl. lia.
Qed.

Lemma to_str_length (o : N) : String.length (to_str o) = 24.
Proof. unfold to_str. now rewrite hex_digits_length. Qed.

Lemma parse_hex_digits (n : nat) (o acc : N) (rest : string) :
  parse_hex acc (hex_digits n o rest)
  = parse_hex (acc * 16 ^ N.of_nat n + o mod 16 ^ N.of_nat n)%N rest.
Proof.
  revert o acc rest. induction n as [ | n IH]; intros o acc rest.
  - cbn [hex_digits]. change (16 ^ N.of_nat 0)%N with 1%N.
    rewrite N.mod_1_r. f_equal. lia.
  - cbn [hex_digits]. rewrite IH. cbn [parse_hex].
    rewrite hex_value_digit by (apply N.mod_lt; lia).
    f_equal. rewrite Nat2N.inj_succ, N.pow_succ_r'.
    rewrite (N.Div0.mod_mul_r o 16 (16 ^ N.of_nat n)). lia.
Qed.

(** [ObjectId(str(oid)) == oid] *)
Lemma of_str_to_str (o : N) :
  (o < 16 ^ 24)%N -> of_str (to_str o) = Return o.
Proof.
  intros Ho. unfold of_str. rewrite to_str_length. cbn [Nat.eqb].
  unfold to_str. rewrite (parse_hex_digits 24 o 0 "").
  cbn [parse_hex]. change (N.of_nat 24) with 24%N.
  rewrite N.mod_small by exact Ho. reflexivity.
Qed.

Lemma parse_hex_bound (s : string) (acc o : N) :
  parse_hex acc s = Some o ->
  (o < (acc + 1) * 16 ^ N.of_nat (String.length s))%N.
Proof.
  revert acc. induction s as [ | c s IH]; intros acc; cbn [parse_hex String.length].
  - intros H; injection H as <-. change (16 ^ N.of_nat 0)%N with 1%N. lia.
  - destruct (hex_value c) as [d | ] eqn:Ed; [ | discriminate ].
    intros H. apply IH in H.
    assert (Hd : (d < 16)%N).
    { unfold hex_value in Ed.
      repeat match type of Ed with
             | (if ?b then _ else _) = _ => destruct b eqn:?
             end; try discriminate; injection Ed as <-;
        repeat match goal with
               | H : (_ && _)%bool = true |- _ => apply andb_true_iff in H as [? ?]
               | H : (_ <=? _)%N = true |- _ => apply N.leb_le in H
               end; lia. }
    rewrite Nat2N.inj_succ, N.pow_succ_r'. nia.
Qed.

(** An accepted string denotes a 12-byte value. *)
Lemma of_str_bound (s : string) (o : N) :
  of_str s = Return o -> (o < 16 ^ 24)%N.
Proof.
  unfold of_str. destruct (Nat.eqb_spec (String.length s) 24) as [Hlen | ];
    [ | discriminate ].
  destruct (parse_hex 0 s) as [o' | ] eqn:Ep; [ | discriminate ].
  intros H; injection H as <-. apply parse_hex_bound in Ep.
  rewrite Hlen in Ep. change (N.of_nat 24) with 24%N in Ep. lia.
Qed.

End ObjectIdFacts.

(** ** The agent's scoring call and the document call *)

Module AgentFacts.

Import IAAgent Props AgentProps.

Lemma truncated_length (n : nat) (s : string) :
  String.length (if Nat.ltb n (String.length s)
                 then (substring 0 n s ++ "...")%string else s) <= n + 3.
Proof.
  destruct (Nat.ltb_spec n (String.length s)) as [Hlt | Hge].
  - rewrite StringFacts.length_append.
    pose proof (EmbeddingFacts.substring_length_le n s). simpl. lia.
  - lia.
Qed.

(** What one run of the body of [analyze_text] does. *)
Lemma analyze_text_body_run (self : t) (text : string) (w : World) :
  let request := analysis_request self (scored_text text) in
  exists w',
    analyze_text_body self text w
    = (Return (analysis_of
                 (chat_acreate (svc w) (List.length (chat_requests w)) request)),
       w') /\
    chat_requests w' = chat_requests w ++ [request] /\
    sleeps w' = sleeps w /\
    same_store w w' /\
    embedding_requests w' = embedding_requests w.
Proof.
  intros request.
  unfold analyze_text_body, try_except, bind at 1, openai_chat.
  fold (scored_text text). fold request.
  destruct (chat_acreate (svc w) (List.length (chat_requests w)) request)
    as [[raw | v] | e]; cbn [json_loads analysis_of]; unfold logger; run_py;
    eexists; (split; [ reflexivity | ]); world; repeat split.
Qed.

Lemma analyze_text_run (self : t) (text : string) (w : World) :
  let request := analysis_request self (scored_text text) in
  exists w',
    analyze_text self text w
    = (Return (analysis_of
                 (chat_acreate (svc w) (List.length (chat_requests w)) request)),
       w') /\
    chat_requests w' = chat_requests w ++ [request] /\
    sleeps w' = sleeps w /\
    same_store w w' /\
    embedding_requests w' = embedding_requests w.
Proof.
  intros request.
  destruct (analyze_text_body_run self text w) as (w' & Hbody & H).
  exists w'. split; [ | exact H ].
  unfold analyze_text. now apply RetryFacts.retry_returns.
Qed.

(** X1: [analyze_text] is decorated with three attempts but catches every
    failure itself, so a call makes exactly one request and never waits:
    it sends at most 14000 characters of the text (and ["..."]), returns
    the parsed answer, and turns a provider failure or an answer that is
    not JSON into a dictionary with the key [error]. *)
Theorem analyze_text_makes_one_request (self : t) (text : string) (w : World) :
  let request := analysis_request self (scored_text text) in
  let run := analyze_text self text w in
  String.length (scored_text text) <= 14003 /\
  chat_requests (snd run) = chat_requests w ++ [request] /\
  sleeps (snd run) = sleeps w /\
  same_store w (snd run) /\
  fst run
  = Return (analysis_of
              (chat_acreate (svc w) (List.length (chat_requests w)) request)) /\
  (forall answer,
     chat_acreate (svc w) (List.length (chat_requests w)) request = answer ->
     (forall analysis, answer <> Return (Parsed analysis)) ->
     exists message, fst run = Return (VDict [("error", VStr message)])).
Proof.
  intros request run.
  destruct (analyze_text_run self text w) as (w' & Hrun & Hreq & Hsl & Hst & _).
  subst run. rewrite Hrun. cbn [fst snd].
  split; [ exact (truncated_length 14000 text) | ].
  repeat (split; [ assumption || reflexivity | ]).
  intros answer Ha Hbad. fold request. rewrite Ha.
  destruct answer as [[raw | v] | e]; cbn [analysis_of]; eauto.
  now destruct (Hbad v).
Qed.

(** X2: [process_document] is decorated with five attempts but never
    raises, so it is never repeated and never waits.  A file that cannot
    be read, and a file with no text, give a dictionary with the key
    [error] and no request to the provider; any other file gives
    [success], an excerpt of at most 303 characters and what
    [analyze_text] answers for its text. *)
Theorem process_document_makes_one_attempt (self : t) (file_path : string)
    (w : World) :
  let run := process_document self file_path w in
  sleeps (snd run) = sleeps w /\
  same_store w (snd run) /\
  (forall e,
     extract_file_text (svc w) file_path = Raise e ->
     fst run
     = Return [("error", VStr ("Falha ao processar documento: " ++ exn_str e))] /\
     chat_requests (snd run) = chat_requests w) /\
  (extract_file_text (svc w) file_path = Return "" ->
   fst run
   = Return [("error", VStr "Não foi possível extrair texto do documento.")] /\
   chat_requests (snd run) = chat_requests w) /\
  (forall text,
     extract_file_text (svc w) file_path = Return text ->
     text <> "" ->
     fst run
     = Return [("success", VBool true);
               ("text_extracted", VStr (text_extracted text));
               ("analysis",
                analysis_of
                  (chat_acreate (svc w) (List.length (chat_requests w))
                     (analysis_request self (scored_text text))))] /\
     String.length (text_extracted text) <= 303 /\
     chat_requests (snd run)
     = chat_requests w ++ [analysis_request self (scored_text text)]).
Proof.
  intros run. subst run. unfold process_document.
  assert (Hbody : exists d w',
    process_document_body self file_path w = (Return d, w') /\
    sleeps w' = sleeps w /\ same_store w w' /\
    (forall e, extract_file_text (svc w) file_path = Raise e ->
       d = [("error", VStr ("Falha ao processar documento: " ++ exn_str e))] /\
       chat_requests w' = chat_requests w) /\
    (extract_file_text (svc w) file_path = Return "" ->
       d = [("error", VStr "Não foi possível extrair texto do documento.")] /\
       chat_requests w' = chat_requests w) /\
    (forall text, extract_file_text (svc w) file_path = Return text ->
       text <> "" ->
       d = [("success", VBool true);
            ("text_extracted", VStr (text_extracted text));
            ("analysis",
             analysis_of
               (chat_acreate (svc w) (List.length (chat_requests w))
                  (analysis_request self (scored_text text))))] /\
       chat_requests w'
       = chat_requests w ++ [analysis_request self (scored_text text)])).
  { unfold process_document_body, try_except, bind at 1.
    destruct (extract_file_text (svc w) file_path) as [text | e] eqn:Ex.
    - destruct (String.eqb_spec text "") as [-> | Hne].
      + run_py. do 2 eexists. split; [ reflexivity | ].
        repeat split; try discriminate; intros; congruence.
      + unfold bind at 1.
        destruct (analyze_text_run self text w) as (w' & Hrun & Hreq & Hsl & Hst & _).
        rewrite Hrun. run_py. do 2 eexists. split; [ reflexivity | ].
        split; [ exact Hsl | ]. split; [ exact Hst | ].
        split; [ discriminate | ].
        split; [ intros H; injection H as ->; now destruct Hne | ].
        intros text' H _. injection H as <-. now split.
    - unfold logger. run_py. do 2 eexists. split; [ reflexivity | ]. world.
      split; [ reflexivity | ]. split; [ repeat split | ].
      split; [ intros e' H; injection H as <-; now split | ].
      split; [ discriminate | discriminate ]. }
  destruct Hbody as (d & w' & Hbody & Hsl & Hst & Herr & Hempty & Hok).
  rewrite (RetryFacts.retry_returns process_document_policy _ w w' d Hbody).
  cbn [fst snd].
  split; [ exact Hsl | ]. split; [ exact Hst | ].
  split; [ intros e He; destruct (Herr e He) as [-> ?]; now split | ].
  split; [ intros He; destruct (Hempty He) as [-> ?]; now split | ].
  intros text He Hne. destruct (Hok text He Hne) as [-> ?].
  split; [ reflexivity | ]. split; [ exact (truncated_length 300 text) | assumption ].
Qed.

Lemma first_list_value_In (d : dict) (value : list pyval) :
  first_list_value d = Some value ->
  value <> [] /\ exists key, In (key, VList value) d.
Proof.
  induction d as [ | [k v] d IH]; simpl; [ discriminate | ].
  destruct v as [ | b | x | s | o | [ | y l] | d'];
    try (intros H; destruct (IH H) as [Hne [key Hin]]; split; eauto).
  intros H; injection H as <-. split; [ discriminate | eauto ].
Qed.

(** X3: when the provider answers the key-point request with an object
    that has neither [pontos] nor [points], [extract_key_points] returns
    at most [max_points] items, the first ones of a non-empty list the
    object holds, or no item when it holds none.  A value under [pontos]
    is returned as it is, whatever its length. *)
Theorem extract_key_points_bound (self : t) (text : string) (max_points : Z)
    (d : dict) (w : World) :
  (0 <= max_points)%Z ->
  chat_acreate (svc w) (List.length (chat_requests w))
    (key_points_request self text max_points) = Return (Parsed (VDict d)) ->
  let result := fst (extract_key_points self text max_points w) in
  (forall pontos, dict_get "pontos" d = Some pontos -> result = Return pontos) /\
  (dict_get "pontos" d = None -> dict_get "points" d = None ->
   exists l,
     result = Return (VList l) /\
     (Z.of_nat (List.length l) <= max_points)%Z /\
     (l = [] \/
      exists key value,
        In (key, VList value) d /\ l = firstn (Z.to_nat max_points) value)).
Proof.
  intros Hmax Hanswer result. subst result.
  destruct (extract_key_points self text max_points w) as [result w'] eqn:Hrun.
  cbn [fst]. revert Hrun.
  unfold extract_key_points, try_except, bind at 1, openai_chat.
  rewrite Hanswer. cbn [json_loads]. run_py.
  destruct (dict_get "pontos" d) as [pontos | ] eqn:Hp.
  { intros H; injection H as <- _.
    split; [ intros p Hp'; now injection Hp' as <- | discriminate ]. }
  destruct (dict_get "points" d) as [points | ] eqn:Hq.
  { intros _. split; discriminate. }
  destruct (first_list_value d) as [value | ] eqn:Ev;
    intros H; injection H as <- _; (split; [ discriminate | ]); intros _ _.
  - exists (RAGManager.slice_to max_points value).
    split; [ reflexivity | ].
    split; [ rewrite ScanFacts.slice_to_length by exact Hmax; lia | ].
    right. destruct (first_list_value_In d value Ev) as [_ [key Hin]].
    exists key, value. split; [ exact Hin | ].
    unfold RAGManager.slice_to.
    destruct (Z.leb_spec 0 max_points); [ reflexivity | lia ].
  - exists []. split; [ reflexivity | ]. split; [ simpl; lia | now left ].
Qed.

(** The answer [{"idioma": "pt", "topicos": [three items]}], asked for two
    points. *)
Lemma extract_key_points_bound_witness :
  exists l,
    fst (extract_key_points ia_agent "O texto da redacao." 2
           (world_of empty_db
              (answering (Return (Parsed (VDict answer_with_topics))))))
    = Return (VList l) /\
    (Z.of_nat (List.length l) <= 2)%Z.
Proof.
  destruct (extract_key_points_bound ia_agent "O texto da redacao." 2
              answer_with_topics
              (world_of empty_db
                 (answering (Return (Parsed (VDict answer_with_topics)))))
              ltac:(lia) eq_refl) as [_ H].
  destruct (H eq_refl eq_refl) as (l & Hl & Hlen & _).
  exists l. now split.
Defined.

(** X4: the weak points [generate_improvement_suggestions] puts in its
    prompt are exactly the competências of [notas] that carry a [nota]
    below 7.0, each with its justification and in the order of [notas]; a
    competência without [nota] counts as marked 10 and is not among
    them. *)
Theorem weak_points_are_marked_below_seven (notas : list pyval)
    (weak : list (pyval * pyval)) :
  weak_points_of notas = Return weak ->
  weak = map point_of (filter marked_weak notas).
Proof.
  revert weak. induction notas as [ | competencia rest IH]; intros weak.
  - intros H; now injection H as <-.
  - cbn [weak_points_of filter].
    destruct competencia as [ | b | x | s | o | l | d]; cbn [get_default];
      try discriminate.
    unfold marked_weak at 1. unfold dict_get_default.
    destruct (dict_get "nota" d) as [nota | ] eqn:En.
    + destruct nota as [ | b | x | s | o | l | d']; cbn [less_than_7];
        try discriminate.
      * destruct (dict_get "competencia" d) as [c | ] eqn:Ec; [ | discriminate ].
        destruct (weak_points_of rest) as [l | e]; [ | discriminate ].
        intros H; injection H as <-. rewrite (IH l eq_refl).
        cbn [map point_of]. unfold dict_get_default. now rewrite Ec.
      * destruct (PrimFloat.ltb x 7) eqn:Ex.
        -- destruct (dict_get "competencia" d) as [c | ] eqn:Ec; [ | discriminate ].
           destruct (weak_points_of rest) as [l | e]; [ | discriminate ].
           intros H; injection H as <-. rewrite (IH l eq_refl).
           cbn [map point_of]. unfold dict_get_default. now rewrite Ec.
        -- exact (IH weak).
    + cbn [less_than_7].
      change (PrimFloat.ltb 10 7) with false. cbv iota. exact (IH weak).
Qed.

(** Two competências, the second marked 6.0. *)
Lemma weak_points_are_marked_below_seven_witness :
  weak_points_of rubric_with_one_weak_point
  = Return [(VStr "Proposta", VStr "Pouco detalhada.")] /\
  [(VStr "Proposta", VStr "Pouco detalhada.")]
  = map point_of (filter marked_weak rubric_with_one_weak_point).
Proof.
  split; [ reflexivity | ].
  exact (weak_points_are_marked_below_seven rubric_with_one_weak_point
           [(VStr "Proposta", VStr "Pouco detalhada.")] eq_refl).
Defined.

End AgentFacts.

(** ** Retrieval: what the search reads, ranks and hands on *)

Module RetrievalFacts.

Import RAGManager Props RetrievalProps EmbeddingFacts.

Lemma only_logged_refl (w : World) : only_logged w w.
Proof. repeat split. Qed.

Lemma only_logged_trans (w1 w2 w3 : World) :
  only_logged w1 w2 -> only_logged w2 w3 -> only_logged w1 w3.
Proof.
  intros (Hs & He & Hc & Hsl) (Hs' & He' & Hc' & Hsl').
  split; [ now apply same_store_trans with w2 | ].
  repeat split; congruence.
Qed.

Lemma read_only_refl (w : World) (sent : string) : read_only w w sent.
Proof. repeat split. now left. Qed.

Lemma read_only_then_logged (w1 w2 w3 : World) (sent : string) :
  read_only w1 w2 sent -> only_logged w2 w3 -> read_only w1 w3 sent.
Proof.
  intros (Hs & Hc & Hsl & He) (Hs' & He' & Hc' & Hsl').
  split; [ now apply same_store_trans with w2 | ].
  split; [ congruence | ]. split; [ congruence | ].
  rewrite He'. exact He.
Qed.

(** The scan after the query vector is there. *)
Lemma scan_only_reads (q : list float) (k : Z) (w w' : World)
    (r : outcome (list Hit)) :
  (all_embeddings <- embeddings_find_all ;;
   lift (exhaustive_scan q all_embeddings k)) w = (r, w') ->
  w' = w.
Proof.
  unfold embeddings_find_all. run_py.
  destruct (collection_down (svc w) Embeddings).
  - intros H; now injection H as _ <-.
  - intros H; now injection H as _ <-.
Qed.

Lemma vector_search_read_only (self : t) (text : string) (k : Z) (w w' : World)
    (r : outcome (list Hit)) :
  vector_search self text k w = (r, w') ->
  read_only w w' (substring 0 8000 text).
Proof.
  destruct (openai_client self) as [key | ] eqn:Hkey.
  - destruct (generate_embedding_configured self key text w Hkey)
      as (w1 & Hrun & Hsame & Hreq & Hchat & Hsl).
    assert (H1 : read_only w w1 (substring 0 8000 text)).
    { split; [ exact Hsame | ]. split; [ exact Hchat | ].
      split; [ exact Hsl | now right ]. }
    unfold vector_search, bind at 1. rewrite Hrun.
    destruct (has_vector_search self).
    + unfold bind at 1, try_except, embeddings_vector_search.
      destruct (vector_search_aggregate (svc w1) (generated_vector w text) k)
        as [[ | h hits] | e].
      * intros H. apply scan_only_reads in H. now subst w'.
      * unfold ret. intros H; injection H as _ <-. exact H1.
      * unfold bind at 1, logger, emit, modify, ret at 1.
        intros H. apply scan_only_reads in H. subst w'.
        apply read_only_then_logged with w1; [ exact H1 | repeat split ].
    + unfold bind at 1, ret at 1.
      intros H. apply scan_only_reads in H. now subst w'.
  - unfold vector_search, bind at 1.
    rewrite (generate_embedding_unconfigured self text w Hkey).
    intros H; injection H as _ <-. apply read_only_refl.
Qed.

(** One turn of the loop of [get_similar_redacoes]: the lookups never
    raise past the [try], write nothing, and an entry comes from a stored
    redação with the id the hit names. *)
Lemma similar_of_hit_entry (emb : Hit) (w : World) :
  exists r w',
    try_except (similar_of_hit emb)
      (fun e =>
         logger "ERROR" ("Erro ao processar redação similar: " ++ exn_str e) ;;;
         ret None) w
    = (Return r, w') /\
    only_logged w w' /\
    (forall s, r = Some s -> built_from w emb s) /\
    (find (fun r => N.eqb (r_id r) (h_redacao_id emb)) (redacoes (db w)) = None ->
     r = None).
Proof.
  unfold similar_of_hit, try_except, bind at 1, redacoes_find_one, logger.
  run_py.
  destruct (collection_down (svc w) Redacoes) eqn:Ered.
  { do 2 eexists. split; [ reflexivity | ]. split; [ repeat split | ].
    split; [ discriminate | reflexivity ]. }
  destruct (find _ (redacoes (db w))) as [redacao | ] eqn:Efind.
  2:{ do 2 eexists. split; [ reflexivity | ]. split; [ repeat split | ].
      split; [ discriminate | reflexivity ]. }
  assert (Hbuilt : forall a,
            built_from w emb
              {| s_id := ObjectId.to_str (r_id redacao);
                 s_titulo := match r_titulo redacao with
                             | Some t => t
                             | None => "Sem título"
                             end;
                 s_texto_snippet := h_texto_snippet emb;
                 s_similarity_score := h_score emb;
                 s_analise := a |}).
  { intros a. exists redacao. apply find_some in Efind as [Hin Hid].
    apply N.eqb_eq in Hid. repeat split; assumption. }
  unfold analises_find_one. run_py.
  destruct (collection_down (svc w) Analises) eqn:Eana.
  { do 2 eexists. split; [ reflexivity | ]. split; [ repeat split | ].
    split; [ discriminate | reflexivity ]. }
  destruct (find (has_redacao_id (h_redacao_id emb)) (analises (db w)))
    as [analise | ].
  2:{ do 2 eexists. split; [ reflexivity | ]. split; [ repeat split | ].
      split; [ | discriminate ].
      intros s Hs. injection Hs as <-. apply Hbuilt. }
  destruct (truthy (VDict analise)).
  2:{ do 2 eexists. split; [ reflexivity | ]. split; [ repeat split | ].
      split; [ | discriminate ].
      intros s Hs. injection Hs as <-. apply Hbuilt. }
  destruct (slice3 (dict_get_default "recomendacoes" (VList []) analise))
    as [v | e].
  - do 2 eexists. split; [ reflexivity | ]. split; [ repeat split | ].
    split; [ | discriminate ].
    intros s Hs. injection Hs as <-. apply Hbuilt.
  - do 2 eexists. split; [ reflexivity | ]. split; [ repeat split | ].
    split; [ discriminate | discriminate ].
Qed.

Lemma built_from_same_db (w w' : World) (h : Hit) (s : Similar) :
  db w' = db w -> built_from w' h s -> built_from w h s.
Proof.
  intros Hdb (redacao & Hin & H). exists redacao. rewrite <- Hdb. now split.
Qed.

Lemma similar_loop_entries (hits : list Hit) (acc : list Similar) (w : World) :
  exists new w',
    similar_loop hits acc w = (Return (acc ++ new), w') /\
    only_logged w w' /\
    List.length new <= List.length hits /\
    Forall (fun s => exists h, In h hits /\ built_from w h s) new /\
    (Forall (fun h => find (fun r => N.eqb (r_id r) (h_redacao_id h))
                        (redacoes (db w)) = None) hits ->
     new = []).
Proof.
  revert acc w. induction hits as [ | emb hits IH]; intros acc w.
  - exists [], w. rewrite app_nil_r.
    split; [ reflexivity | ]. split; [ apply only_logged_refl | ].
    split; [ apply Nat.le_refl | ]. split; [ constructor | reflexivity ].
  - rewrite EnrichFacts.similar_loop_cons. unfold bind at 1.
    destruct (similar_of_hit_entry emb w) as (r & w1 & Hrun & Hlog & Hbuilt & Hnone).
    rewrite Hrun.
    destruct (IH (match r with Some result => acc ++ [result] | None => acc end) w1)
      as (new & w2 & Hloop & Hlog2 & Hlen & Hall & Hgone).
    assert (Hdb : db w1 = db w) by apply Hlog.
    assert (Hall' : Forall (fun s => exists h, In h (emb :: hits) /\ built_from w h s) new).
    { rewrite Forall_forall in Hall |- *. intros s Hs.
      destruct (Hall s Hs) as (h & Hin & Hb).
      exists h. split; [ now right | now apply built_from_same_db with w1 ]. }
    destruct r as [s | ].
    + exists (s :: new), w2. rewrite Hloop, <- app_assoc.
      split; [ reflexivity | ].
      split; [ now apply only_logged_trans with w1 | ].
      split; [ simpl; lia | ].
      split.
      * constructor; [ | exact Hall' ].
        exists emb. split; [ now left | now apply Hbuilt ].
      * intros Hmissing. inversion Hmissing as [ | ? ? Hemb Hrest]; subst.
        discriminate (Hnone Hemb).
    + exists new, w2. rewrite Hloop.
      split; [ reflexivity | ].
      split; [ now apply only_logged_trans with w1 | ].
      split; [ simpl; lia | ].
      split; [ exact Hall' | ].
      intros Hmissing. inversion Hmissing as [ | ? ? Hemb Hrest]; subst.
      apply Hgone. now rewrite Hdb.
Qed.

Lemma get_similar_redacoes_read_only (self : t) (texto : string) (limit : Z)
    (w w' : World) (r : outcome (list Similar)) :
  get_similar_redacoes self texto limit w = (r, w') ->
  read_only w w' (substring 0 8000 texto).
Proof.
  unfold get_similar_redacoes, bind at 1.
  destruct (vector_search self texto limit w) as [[hits | e] w1] eqn:Hsearch.
  - destruct (similar_loop_entries hits [] w1) as (new & w2 & Hloop & Hlog & _).
    rewrite Hloop. intros H; injection H as _ <-.
    apply read_only_then_logged with w1; [ | exact Hlog ].
    now apply (vector_search_read_only self texto limit w w1 (Return hits)).
  - intros H; injection H as _ <-.
    now apply (vector_search_read_only self texto limit w w1 (Raise e)).
Qed.

Lemma enrich_with_rag_read_only (self : t) (texto : string) (w w' : World)
    (r : outcome RagContext) :
  enrich_with_rag self texto w = (r, w') ->
  read_only w w' (substring 0 8000 texto).
Proof.
  unfold enrich_with_rag, bind at 1.
  destruct (get_similar_redacoes self texto 5 w) as [[similares | e] w1] eqn:Hsim.
  - pose proof (get_similar_redacoes_read_only self texto 5 w w1 _ Hsim) as H1.
    unfold corpus_exemplos_find_exemplares. run_py.
    destruct (collection_down (svc w1) CorpusExemplos).
    + intros H; now injection H as _ <-.
    + destruct (_gerar_recomendacoes_contextuais similares);
        intros H; now injection H as _ <-.
  - intros H; injection H as _ <-.
    now apply (get_similar_redacoes_read_only self texto 5 w w1 (Raise e)).
Qed.

(** X5: the three retrieval calls write nothing.  Whatever
    [vector_search], [get_similar_redacoes] and [enrich_with_rag] return or
    raise, the documents, the identifier counter and the clock are what
    they were, no chat request was made, and at most one embedding request
    was sent, carrying the first 8000 characters of the text. *)
Theorem retrieval_writes_nothing (self : t) (texto : string) (limit : Z)
    (w : World) :
  let sent := substring 0 8000 texto in
  read_only w (snd (vector_search self texto limit w)) sent /\
  read_only w (snd (get_similar_redacoes self texto limit w)) sent /\
  read_only w (snd (enrich_with_rag self texto w)) sent.
Proof.
  intros sent. split; [ | split ].
  - destruct (vector_search self texto limit w) as [r w'] eqn:Hrun.
    exact (vector_search_read_only self texto limit w w' r Hrun).
  - destruct (get_similar_redacoes self texto limit w) as [r w'] eqn:Hrun.
    exact (get_similar_redacoes_read_only self texto limit w w' r Hrun).
  - destruct (enrich_with_rag self texto w) as [r w'] eqn:Hrun.
    exact (enrich_with_rag_read_only self texto w w' r Hrun).
Qed.

(** X6: when the native index answers with at least one hit,
    [vector_search] returns those hits as the index gave them: they are
    not scored again, not sorted, not cut to [limit], and the stored
    records are not read (an unreachable collection does not matter). *)
Theorem vector_search_returns_native_hits (self : t) (key text : string)
    (k : Z) (w : World) (hit : Hit) (hits : list Hit) :
  openai_client self = Some key ->
  has_vector_search self = true ->
  vector_search_aggregate (svc w) (generated_vector w text) k
  = Return (hit :: hits) ->
  let run := vector_search self text k w in
  fst run = Return (hit :: hits) /\
  log (snd run) = log (snd (generate_embedding self text w)).
Proof.
  intros Hkey Hnative Hagg run. subst run.
  destruct (generate_embedding_configured self key text w Hkey)
    as (w1 & Hrun & Hsame & _).
  destruct Hsame as (_ & Hsvc & _).
  assert (H : vector_search self text k w = (Return (hit :: hits), w1)).
  { unfold vector_search, bind at 1. rewrite Hrun, Hnative.
    unfold bind at 1, try_except, embeddings_vector_search.
    now rewrite Hsvc, Hagg. }
  rewrite H, Hrun. split; reflexivity.
Qed.

(** An index that finds one record, over an empty store. *)
Lemma vector_search_returns_native_hits_witness :
  fst (vector_search with_index "O texto da redacao." 0
         (world_of empty_db services_with_index))
  = Return [native_hit].
Proof.
  exact (proj1 (vector_search_returns_native_hits with_index "sk-test"
                  "O texto da redacao." 0
                  (world_of empty_db services_with_index) native_hit []
                  eq_refl eq_refl eq_refl)).
Defined.

Lemma similarities_of_zero_query (docs : list Embedding) :
  Forall (fun doc => forall v, e_vector_embedding doc = Some v ->
                               List.length v = 1536) docs ->
  similarities (repeat 0%float 1536) docs
  = Return (map unranked (filter has_vector docs)).
Proof.
  induction 1 as [ | doc docs Hd Hdocs IH]; [ reflexivity | ].
  cbn [similarities filter]. unfold has_vector at 1.
  destruct (e_vector_embedding doc) as [v | ] eqn:Ev; [ | exact IH ].
  unfold _cosine_similarity, Numpy.dot.
  rewrite repeat_length, (Hd v eq_refl), Nat.eqb_refl.
  pose proof (CosineFacts.zero_vector_zero_norm 1536) as Hz.
  unfold zero_norm in Hz. rewrite Hz. cbn [orb]. rewrite IH.
  reflexivity.
Qed.

Lemma sort_unranked (docs : list Embedding) :
  sort_by_score (map unranked docs) = map unranked docs.
Proof.
  induction docs as [ | doc docs IH]; [ reflexivity | ].
  cbn [map]. unfold sort_by_score in *. cbn [fold_right]. rewrite IH.
  destruct docs as [ | doc' docs]; reflexivity.
Qed.

(** X7: when the embedding provider fails, the query vector is
    [[0.0] * 1536], every score of the exhaustive scan is 0.0 and the
    stable sort moves nothing: the search returns the first [k] stored
    records that carry a vector, in the order of the collection, whatever
    the text was. *)
Theorem search_without_provider_keeps_stored_order (self : t)
    (key text : string) (k : Z) (w : World) (e : exn) :
  openai_client self = Some key ->
  embeddings_create (svc w) (List.length (embedding_requests w))
    (substring 0 8000 text) = Raise e ->
  native_search_empty self w (repeat 0%float 1536) k ->
  collection_down (svc w) Embeddings = false ->
  Forall (fun doc => forall v, e_vector_embedding doc = Some v ->
                               List.length v = 1536) (embeddings (db w)) ->
  fst (vector_search self text k w)
  = Return (slice_to k (map unranked (filter has_vector (embeddings (db w))))).
Proof.
  intros Hkey Hfail Hnative Hup Hdim.
  assert (Hq : generated_vector w text = repeat 0%float 1536).
  { unfold generated_vector. now rewrite Hfail. }
  rewrite <- Hq in Hnative.
  destruct (SearchFacts.vector_search_fallback self key text k w Hkey Hnative Hup)
    as (w' & Hrun & _).
  rewrite Hrun, Hq. cbn [fst]. unfold exhaustive_scan.
  rewrite (similarities_of_zero_query _ Hdim). now rewrite sort_unranked.
Qed.

Lemma full_size_db_dimension :
  Forall (fun doc => forall v, e_vector_embedding doc = Some v ->
                               List.length v = 1536) (embeddings full_size_db).
Proof.
  assert (H : forall (x : float) v,
            Some (repeat x 1536) = Some v -> List.length v = 1536).
  { intros x v Hv. assert (Hx : v = repeat x 1536) by congruence.
    rewrite Hx. apply repeat_length. }
  repeat constructor; intros v; apply H.
Qed.

(** Two stored records and a provider that fails. *)
Lemma search_without_provider_keeps_stored_order_witness :
  option_map (map h_id)
    (match fst (vector_search configured "O texto da redacao." 5
                  (world_of full_size_db services_without_provider)) with
     | Return hits => Some hits
     | Raise _ => None
     end)
  = Some [1; 2]%N.
Proof.
  rewrite (search_without_provider_keeps_stored_order configured "sk-test"
             "O texto da redacao." 5
             (world_of full_size_db services_without_provider)
             (ProviderError "rate limit") eq_refl eq_refl
             (or_introl eq_refl) eq_refl).
  - reflexivity.
  - exact full_size_db_dimension.
Defined.

(** X8: [get_similar_redacoes] hands on at most one entry for each hit of
    the search, in the order of the hits; an entry carries the id of a
    stored redação, the one its hit names, with the score and the excerpt
    of that hit; a hit whose redação is not stored leaves no entry. *)
Theorem similar_set_is_built_from_the_hits (self : t) (texto : string)
    (limit : Z) (w w1 : World) (hits : list Hit) :
  vector_search self texto limit w = (Return hits, w1) ->
  exists similares,
    fst (get_similar_redacoes self texto limit w) = Return similares /\
    List.length similares <= List.length hits /\
    Forall (fun s => exists h, In h hits /\ built_from w h s) similares /\
    (Forall (fun h => find (fun r => N.eqb (r_id r) (h_redacao_id h))
                        (redacoes (db w)) = None) hits ->
     similares = []).
Proof.
  intros Hsearch.
  assert (Hdb : db w1 = db w)
    by apply (vector_search_read_only self texto limit w w1 _ Hsearch).
  unfold get_similar_redacoes, bind at 1. rewrite Hsearch.
  destruct (similar_loop_entries hits [] w1)
    as (new & w2 & Hloop & _ & Hlen & Hall & Hgone).
  rewrite Hloop. exists new. cbn [fst app].
  split; [ reflexivity | ]. split; [ exact Hlen | ].
  split.
  - rewrite Forall_forall in Hall |- *. intros s Hs.
    destruct (Hall s Hs) as (h & Hin & Hb).
    exists h. split; [ exact Hin | now apply built_from_same_db with w1 ].
  - intros Hmissing. apply Hgone. now rewrite Hdb.
Qed.

(** The store that holds redação 1 and its embedding. *)
Lemma similar_set_is_built_from_the_hits_witness :
  exists similares,
    fst (get_similar_redacoes configured "O texto da redacao." 3
           (world_of PipelineProps.db_with_own_embedding plain_services))
    = Return similares /\
    List.length similares <= 1.
Proof.
  destruct (similar_set_is_built_from_the_hits configured "O texto da redacao." 3
              (world_of PipelineProps.db_with_own_embedding plain_services)
              _ _ eq_refl)
    as (similares & Hrun & Hlen & _).
  exists similares. split; [ exact Hrun | exact Hlen ].
Defined.

(** [list(set(l))], started from the values already seen. *)
Lemma list_of_set_distinct (l seen unique : list pyval) :
  list_of_set l seen = Return unique ->
  (distinct seen -> distinct unique) /\
  (forall v, In v unique -> In v seen \/ In v l).
Proof.
  revert seen. induction l as [ | v l IH]; intros seen; cbn [list_of_set].
  - intros H; injection H as <-. split; [ auto | now left ].
  - destruct (hashable v); [ | discriminate ].
    destruct (existsb (hashable_eqb v) seen) eqn:Eseen; intros H;
      destruct (IH _ H) as [Hd Hin].
    + split; [ exact Hd | ].
      intros x Hx. destruct (Hin x Hx); [ now left | right; now right ].
    + split.
      * intros Hseen. apply Hd. apply ListFacts.ForallOrdPairs_snoc; [ exact Hseen | ].
        rewrite Forall_forall. intros y Hy.
        destruct (hashable_eqb v y) eqn:E; [ | reflexivity ].
        assert (existsb (hashable_eqb v) seen = true)
          by (apply existsb_exists; eauto).
        congruence.
      * intros x Hx. destruct (Hin x Hx) as [Hs | Hl]; [ | right; now right ].
        apply in_app_or in Hs as [Hs | [-> | []]];
          [ now left | right; now left ].
Qed.

Lemma all_recomendacoes_recommended (similares : list Similar) (all : list pyval) :
  all_recomendacoes similares = Return all ->
  Forall (recommended_by similares) all.
Proof.
  revert all. induction similares as [ | s rest IH]; intros all;
    cbn [all_recomendacoes].
  - intros H; injection H as <-. constructor.
  - assert (Hrest : forall l, Forall (recommended_by rest) l ->
                              Forall (recommended_by (s :: rest)) l).
    { intros l. apply Forall_impl. intros v (s' & a & items & Hin & H).
      exists s', a, items. split; [ now right | exact H ]. }
    destruct (s_analise s) as [a | ] eqn:Ea; [ | intros H; now apply Hrest, IH ].
    destruct (items_of (sa_principais_recomendacoes a)) as [items | e] eqn:Ei;
      [ | discriminate ].
    destruct (all_recomendacoes rest) as [l | e]; [ | discriminate ].
    intros H; injection H as <-. apply Forall_app. split.
    + rewrite Forall_forall. intros v Hv.
      exists s, a, items. repeat split; try assumption. now left.
    + now apply Hrest, IH.
Qed.

Lemma recomendacoes_contextuais_returned (similares : list Similar)
    (recomendacoes : list pyval) :
  _gerar_recomendacoes_contextuais similares = Return recomendacoes ->
  List.length recomendacoes <= 5 /\
  distinct recomendacoes /\
  Forall (recommended_by similares) recomendacoes.
Proof.
  unfold _gerar_recomendacoes_contextuais.
  destruct (all_recomendacoes similares) as [all | e] eqn:Eall; [ | discriminate ].
  destruct (list_of_set all []) as [unique | e] eqn:Eset; [ | discriminate ].
  intros H.
  assert (Hr : recomendacoes = firstn 5 unique) by congruence.
  subst recomendacoes. clear H.
  destruct (list_of_set_distinct all [] unique Eset) as [Hd Hin].
  split; [ rewrite length_firstn; lia | ].
  split.
  - apply ListFacts.ForallOrdPairs_firstn, Hd. constructor.
  - pose proof (all_recomendacoes_recommended similares all Eall) as Hall.
    rewrite Forall_forall in Hall |- *. intros v Hv.
    apply ListFacts.In_firstn in Hv. destruct (Hin v Hv) as [[] | Hv']. now apply Hall.
Qed.

(** X9: the contextual recommendations are at most five, no two of them
    are equal, and each one is a recommendation attached to an entry of
    the similar set. *)
Theorem recomendacoes_contextuais_are_distinct (similares : list Similar)
    (recomendacoes : list pyval) :
  _gerar_recomendacoes_contextuais similares = Return recomendacoes ->
  List.length recomendacoes <= 5 /\
  distinct recomendacoes /\
  Forall (recommended_by similares) recomendacoes.
Proof. exact (recomendacoes_contextuais_returned similares recomendacoes). Qed.

(** Three entries with seven recommendations, six of them different. *)
Lemma recomendacoes_contextuais_are_distinct_witness :
  exists recomendacoes,
    _gerar_recomendacoes_contextuais overlapping_similares
    = Return recomendacoes /\
    List.length recomendacoes <= 5 /\
    distinct recomendacoes.
Proof.
  eexists. split; [ reflexivity | ].
  destruct (recomendacoes_contextuais_are_distinct overlapping_similares _ eq_refl)
    as (Hlen & Hd & _).
  split; [ exact Hlen | exact Hd ].
Defined.

(** X10: the exemplars of a context bundle are at most two, and each one
    reports a stored corpus example of category [exemplar] whose quality
    is 8.0 or more, with its id, title and quality; the bundle carries at
    most five recommendations. *)
Theorem enrich_with_rag_exemplars (self : t) (texto : string) (w w' : World)
    (bundle : RagContext) :
  enrich_with_rag self texto w = (Return bundle, w') ->
  List.length (exemplos_alta_qualidade bundle) <= 2 /\
  Forall (reports_exemplar w) (exemplos_alta_qualidade bundle) /\
  List.length (recomendacoes_contextuais bundle) <= 5 /\
  _gerar_recomendacoes_contextuais (redacoes_similares bundle)
  = Return (recomendacoes_contextuais bundle).
Proof.
  unfold enrich_with_rag, bind at 1.
  destruct (get_similar_redacoes self texto 5 w) as [[similares | e] w1] eqn:Hsim;
    [ | discriminate ].
  assert (Hdb : db w1 = db w)
    by apply (get_similar_redacoes_read_only self texto 5 w w1 _ Hsim).
  unfold corpus_exemplos_find_exemplares. run_py.
  destruct (collection_down (svc w1) CorpusExemplos); [ discriminate | ].
  destruct (_gerar_recomendacoes_contextuais similares) as [recs | e] eqn:Erecs;
    [ | discriminate ].
  intros H; injection H as <- _.
  cbn [exemplos_alta_qualidade recomendacoes_contextuais redacoes_similares].
  rewrite Hdb.
  set (found := filter _ (corpus_exemplos (db w))).
  change (match found with
          | [] => []
          | a :: l => a :: match l with [] => [] | a0 :: _ => [a0] end
          end) with (firstn 2 found).
  split; [ rewrite length_map, length_firstn; lia | ].
  split.
  - rewrite Forall_forall. intros x Hx.
    apply in_map_iff in Hx as (c & <- & Hc).
    apply ListFacts.In_firstn in Hc. subst found.
    apply filter_In in Hc as [Hin Hq].
    apply andb_true_iff in Hq as [Hq Hcat]. apply String.eqb_eq in Hcat.
    exists c. repeat split; assumption.
  - split; [ | exact Erecs ].
    now destruct (recomendacoes_contextuais_returned similares recs Erecs).
Qed.

(** A corpus of four examples, three of which qualify. *)
Lemma enrich_with_rag_exemplars_witness :
  exists bundle,
    fst (enrich_with_rag configured "O texto da redacao."
           (world_of corpus_db plain_services)) = Return bundle /\
    List.length (exemplos_alta_qualidade bundle) <= 2 /\
    Forall (reports_exemplar (world_of corpus_db plain_services))
      (exemplos_alta_qualidade bundle).
Proof.
  eexists. split; [ reflexivity | ].
  destruct (enrich_with_rag_exemplars configured "O texto da redacao."
              (world_of corpus_db plain_services) _ _ eq_refl)
    as (Hlen & Hall & _).
  split; [ exact Hlen | exact Hall ].
Defined.

Lemma similarities_report (q : list float) (docs : list Embedding) (l : list Hit) :
  similarities q docs = Return l ->
  Forall (reports_record q docs) l /\
  (forall id, In id (map h_id l) -> In id (map e_id docs)) /\
  (NoDup (map e_id docs) -> NoDup (map h_id l)).
Proof.
  revert l. induction docs as [ | doc docs IH]; intros l; cbn [similarities].
  - intros H; injection H as <-. repeat split; auto; constructor.
  - assert (Hmore : forall l', Forall (reports_record q docs) l' ->
                               Forall (reports_record q (doc :: docs)) l').
    { intros l'. apply Forall_impl. intros h (d & v & Hin & H).
      exists d, v. split; [ now right | exact H ]. }
    destruct (e_vector_embedding doc) as [v | ] eqn:Ev.
    + destruct (_cosine_similarity q v) as [s | e] eqn:Es; [ | discriminate ].
      destruct (similarities q docs) as [l' | e]; [ | discriminate ].
      destruct (IH l' eq_refl) as (Hall & Hin & Hnd).
      intros H; injection H as <-. split; [ | split ].
      * constructor; [ | now apply Hmore ].
        exists doc, v. repeat split; try assumption. now left.
      * cbn [map h_id]. intros id [<- | Hid]; [ now left | right; now apply Hin ].
      * cbn [map h_id]. intros Hdocs. inversion Hdocs as [ | ? ? Hnew Hrest]; subst.
        constructor; [ | now apply Hnd ].
        intros Hold. apply Hnew. now apply Hin.
    + intros H. destruct (IH l H) as (Hall & Hin & Hnd).
      split; [ now apply Hmore | ]. split.
      * intros id Hid. right. now apply Hin.
      * intros Hdocs. inversion Hdocs; subst. now apply Hnd.
Qed.

Lemma In_slice_to {A} (k : Z) (l : list A) (x : A) :
  In x (slice_to k l) -> In x l.
Proof.
  unfold slice_to. destruct (0 <=? k)%Z; apply ListFacts.In_firstn.
Qed.

(** X11: every hit of the exhaustive scan reports a stored record that
    carries a vector, under that record's [_id] and [redacao_id], and its
    score is the cosine of the query and that vector; when the stored
    [_id]s are unique no record is returned twice. *)
Theorem scan_hits_are_stored_records (q : list float) (docs : list Embedding)
    (k : Z) (hits : list Hit) :
  exhaustive_scan q docs k = Return hits ->
  Forall (reports_record q docs) hits /\
  (NoDup (map e_id docs) -> NoDup (map h_id hits)).
Proof.
  unfold exhaustive_scan.
  destruct (similarities q docs) as [l | e] eqn:El; [ | discriminate ].
  intros H. assert (Hh : hits = slice_to k (sort_by_score l)) by congruence.
  subst hits. clear H.
  destruct (similarities_report q docs l El) as (Hall & _ & Hnd).
  split.
  - rewrite Forall_forall in Hall |- *. intros h Hh. apply Hall.
    apply In_slice_to in Hh.
    apply Permutation_in with (sort_by_score l);
      [ symmetry; apply ScanFacts.sort_by_score_permutation | exact Hh ].
  - intros Hdocs. specialize (Hnd Hdocs).
    assert (Hsorted : NoDup (map h_id (sort_by_score l))).
    { apply Permutation_NoDup with (map h_id l); [ | exact Hnd ].
      apply Permutation_map, ScanFacts.sort_by_score_permutation. }
    unfold slice_to. destruct (0 <=? k)%Z; rewrite <- firstn_map;
      now apply ListFacts.NoDup_firstn.
Qed.

(** Three stored records, the second without a vector. *)
Lemma scan_hits_are_stored_records_witness :
  exists hits,
    exhaustive_scan [1; 0]%float (embeddings ranked_db) 5 = Return hits /\
    Forall (reports_record [1; 0]%float (embeddings ranked_db)) hits /\
    NoDup (map h_id hits).
Proof.
  eexists. split; [ reflexivity | ].
  destruct (scan_hits_are_stored_records [1; 0]%float (embeddings ranked_db) 5
              _ eq_refl) as [Hall Hnd].
  split; [ exact Hall | ].
  apply Hnd. repeat constructor; simpl; intuition discriminate.
Defined.

End RetrievalFacts.

(** ** Storing an embedding: failures and the way back *)

Module StoreFailureFacts.

Import RAGManager Props StoreProps RetrievalProps EmbeddingFacts.

(** The three ways a call can fail. *)
Lemma store_redacao_embedding_outcome (self : t) (redacao_id texto : string)
    (titulo : option string) (w w' : World) (result : outcome string) :
  store_redacao_embedding self redacao_id texto titulo w = (result, w') ->
  (exists e,
     result = Raise e /\
     (ObjectId.of_str redacao_id = Raise e \/
      collection_down (svc w) Embeddings = true \/
      openai_client self = None) /\
     same_store w w' /\
     embedding_requests w' = embedding_requests w /\
     exists before,
       log w' = log w ++ before ++
                [ {| lr_level := "ERROR";
                     lr_message := "Erro ao armazenar embedding: " ++ exn_str e |} ])
  \/
  (exists s o key,
     result = Return s /\
     ObjectId.of_str redacao_id = Return o /\
     collection_down (svc w) Embeddings = false /\
     openai_client self = Some key /\
     svc w' = svc w).
Proof.
  intros Hrun.
  unfold store_redacao_embedding in Hrun.
  unfold try_except, bind at 1, lift in Hrun.
  destruct (ObjectId.of_str redacao_id) as [o | e] eqn:Eo.
  2:{ unfold logger in Hrun. run_py in Hrun. injection Hrun as <- <-.
      left. exists e. split; [ reflexivity | ]. split; [ now left | ].
      world. split; [ repeat split | ]. split; [ reflexivity | ].
      now exists []. }
  unfold bind at 1, embeddings_find_one in Hrun. run_py in Hrun.
  destruct (collection_down (svc w) Embeddings) eqn:Eup.
  { unfold logger in Hrun. run_py in Hrun. injection Hrun as <- <-.
    left. eexists. split; [ reflexivity | ]. split; [ right; now left | ].
    world. split; [ repeat split | ]. split; [ reflexivity | ].
    now exists []. }
  destruct (find _ (embeddings (db w))) as [ex | ] eqn:Efind.
  - unfold logger at 1 in Hrun. run_py in Hrun.
    destruct (openai_client self) as [key | ] eqn:Ekey.
    + match type of Hrun with
      | context [generate_embedding self texto ?w0] =>
          destruct (generate_embedding_configured self key texto w0 Ekey)
            as (w1 & Hgen & (Hdb & Hsvc & Hoid & Hclock) & _)
      end.
      rewrite Hgen in Hrun.
      world in Hsvc.
      unfold embeddings_update_one in Hrun. run_py in Hrun.
      rewrite Hsvc, Eup in Hrun. injection Hrun as <- <-.
      right. exists (ObjectId.to_str (e_id ex)), o, key. world.
      now rewrite Hsvc.
    + rewrite generate_embedding_unconfigured in Hrun by exact Ekey.
      unfold logger in Hrun. run_py in Hrun. injection Hrun as <- <-.
      left. eexists. split; [ reflexivity | ]. split; [ right; now right | ].
      world. split; [ repeat split | ]. split; [ reflexivity | ].
      eexists [_]. rewrite <- app_assoc. reflexivity.
  - destruct (openai_client self) as [key | ] eqn:Ekey.
    + destruct (generate_embedding_configured self key texto w Ekey)
        as (w1 & Hgen & (Hdb & Hsvc & Hoid & Hclock) & _).
      rewrite Hgen in Hrun.
      unfold embeddings_insert_one, logger in Hrun. run_py in Hrun.
      rewrite Hsvc, Eup in Hrun. injection Hrun as <- <-.
      right. exists (ObjectId.to_str (next_oid w1)), o, key. world.
      now rewrite Hsvc.
    + rewrite generate_embedding_unconfigured in Hrun by exact Ekey.
      unfold logger in Hrun. run_py in Hrun. injection Hrun as <- <-.
      left. eexists. split; [ reflexivity | ]. split; [ right; now right | ].
      world. split; [ repeat split | ]. split; [ reflexivity | ].
      now exists [].
Qed.

(** X12: [store_redacao_embedding] logs what it raises, and its first
    three checks fail before anything is done.  An id that is not a valid
    ObjectId, embeddings that cannot be reached or a missing API key make
    the call raise; the store is then what it was and the embedding
    provider was asked nothing.  Whatever a call raises, the last log
    record is that error. *)
Theorem store_redacao_embedding_fails_cleanly (self : t)
    (redacao_id texto : string) (titulo : option string) (w : World) :
  let run := store_redacao_embedding self redacao_id texto titulo w in
  ((exists e, ObjectId.of_str redacao_id = Raise e) \/
   collection_down (svc w) Embeddings = true \/
   openai_client self = None ->
   exists e,
     fst run = Raise e /\
     same_store w (snd run) /\
     embedding_requests (snd run) = embedding_requests w) /\
  (forall e,
     fst run = Raise e ->
     exists before,
       log (snd run)
       = log w ++ before ++
         [ {| lr_level := "ERROR";
              lr_message := "Erro ao armazenar embedding: " ++ exn_str e |} ]).
Proof.
  intros run. subst run.
  destruct (store_redacao_embedding self redacao_id texto titulo w)
    as [result w'] eqn:Hrun.
  cbn [fst snd].
  destruct (store_redacao_embedding_outcome _ _ _ _ _ _ _ Hrun)
    as [(e & -> & _ & Hsame & Hreq & Hlog)
        | (s & o & key & -> & Ho & Hup & Hkey & _)].
  - split.
    + intros _. exists e. auto.
    + intros e' He'. injection He' as <-. exact Hlog.
  - split.
    + intros [[e He] | [H | H]]; congruence.
    + intros e He. discriminate He.
Qed.

(** An id of three characters. *)
Lemma store_redacao_embedding_fails_cleanly_witness :
  let w := world_of empty_db plain_services in
  let run := store_redacao_embedding configured "abc" "O texto da redacao." None w in
  exists e,
    fst run = Raise e /\
    db (snd run) = empty_db /\
    embedding_requests (snd run) = [] /\
    option_map lr_message (last_error (log (snd run)))
    = Some ("Erro ao armazenar embedding: " ++ exn_str e)%string.
Proof.
  intros w run.
  destruct (store_redacao_embedding_fails_cleanly configured "abc"
              "O texto da redacao." None w) as [Hfails Hlogged].
  destruct Hfails as (e & Hrun & (Hdb & _) & Hreq).
  - left. eexists. reflexivity.
  - exists e. split; [ exact Hrun | ]. split; [ exact Hdb | ].
    split; [ exact Hreq | ].
    destruct (Hlogged e Hrun) as [before Hlog].
    unfold run. rewrite Hlog. unfold last_error.
    rewrite !rev_app_distr. reflexivity.
Defined.

Lemma filter_singleton_find {A} (p : A -> bool) (l : list A) (r : A) :
  filter p l = [r] -> find p l = Some r.
Proof.
  induction l as [ | x l IH]; simpl; [ discriminate | ].
  destruct (p x); [ intros H; now injection H as -> | exact IH ].
Qed.

(** X13: what [store_redacao_embedding] stored is what
    [embedding_repository.find_by_redacao] finds: after a call that
    returned, the lookup by the same redação id yields the record whose
    [_id] the call returned, holding the vector just generated, the first
    1000 characters of the text and the title. *)
Theorem stored_embedding_is_found (self : t) (redacao_id texto : string)
    (titulo : option string) (w w' : World) (returned : string) :
  well_formed w -> one_embedding_per_redacao w ->
  store_redacao_embedding self redacao_id texto titulo w = (Return returned, w') ->
  exists r,
    RepositoryQueries.embedding_find_by_redacao redacao_id w'
    = (Return (Some r), w') /\
    ObjectId.to_str (e_id r) = returned /\
    e_vector_embedding r = Some (generated_vector w texto) /\
    e_texto_snippet r = Some (substring 0 1000 texto) /\
    e_titulo r = titulo.
Proof.
  intros Hwf Hone Hrun.
  destruct (StoreFacts.store_redacao_embedding_step _ _ _ _ _ _ _ Hwf Hone Hrun)
    as (_ & _ & Hup).
  destruct (Hup returned eq_refl) as (o & Ho & r & Hfilter & Hv & Hs & Ht & _ & Hid & _).
  destruct (store_redacao_embedding_outcome _ _ _ _ _ _ _ Hrun)
    as [(e & He & _) | (s & o' & key & _ & _ & Hreach & _ & Hsvc)];
    [ discriminate He | ].
  exists r. split; [ | now repeat split ].
  unfold RepositoryQueries.embedding_find_by_redacao, Repositories.find_one.
  unfold bind at 1, lift. rewrite Ho. run_py.
  cbn [Repositories.coll Repositories.docs RepositoryQueries.embeddings_collection].
  rewrite Hsvc, Hreach.
  fold (of_redacao o). now rewrite (filter_singleton_find _ _ _ Hfilter).
Qed.

(** A first call on an empty store. *)
Lemma stored_embedding_is_found_witness :
  let w := world_of empty_db plain_services in
  let id := "0123456789abcdef01234567" in
  let run := store_redacao_embedding configured id "primeira versao" None w in
  exists r,
    fst (RepositoryQueries.embedding_find_by_redacao id (snd run)) = Return (Some r) /\
    e_texto_snippet r = Some "primeira versao".
Proof.
  intros w id run.
  destruct (stored_embedding_is_found configured id "primeira versao" None w
              (snd run) (ObjectId.to_str 100))
    as (r & Hfind & _ & _ & Hs & _).
  - split; [ constructor | constructor ].
  - constructor.
  - reflexivity.
  - exists r. rewrite Hfind. split; [ reflexivity | exact Hs ].
Defined.

End StoreFailureFacts.

(** ** The repositories: lookups that never raise, and the ones that do *)

Module RepositoryFacts.

Import Repositories RepositoryQueries Props StatusProps RetrievalProps
       RepositoryProps.

Section Lookups.

Context {D : Type} `{Collection D}.

(** X14: [find_by_id] never raises and writes nothing.  With a valid id
    and a collection it can reach it returns the stored document with
    that [_id], or [None] when there is none; with an id that is not a
    valid ObjectId, or a collection it cannot reach, it logs the error and
    returns [None] as well. *)
Theorem find_by_id_never_raises (id : string) (w : World) :
  let run := find_by_id id w in
  only_logged w (snd run) /\
  (forall o,
     ObjectId.of_str id = Return o ->
     collection_down (svc w) coll = false ->
     run = (Return (find (has_id o) (docs (db w))), w)) /\
  ((exists e, ObjectId.of_str id = Raise e) \/
   collection_down (svc w) coll = true ->
   fst run = Return None /\
   List.length (log (snd run)) = S (List.length (log w))).
Proof.
  intros run. subst run. unfold find_by_id, try_except, bind at 1, lift.
  destruct (ObjectId.of_str id) as [o | e].
  - run_py. destruct (collection_down (svc w) coll) eqn:Eup.
    + unfold logger. run_py. world.
      split; [ repeat split | ]. split; [ discriminate | ].
      intros _. split; [ reflexivity | ].
      rewrite length_app. simpl. lia.
    + split; [ repeat split | ].
      split; [ intros o' Ho' _; now injection Ho' as <- | ].
      intros [[e He] | Hdown]; discriminate.
  - unfold logger. run_py. world.
    split; [ repeat split | ]. split; [ discriminate | ].
    intros _. split; [ reflexivity | ].
    rewrite length_app. simpl. lia.
Qed.

Lemma find_many_run (filter : D -> bool) (limit skip : Z) (w : World) :
  exists l w',
    find_many filter limit skip w = (Return l, w') /\
    only_logged w w' /\
    ((0 <= skip)%Z -> collection_down (svc w) coll = false ->
     l = cursor_limit limit
           (skipn (Z.to_nat skip) (List.filter filter (docs (db w)))) /\ w' = w) /\
    ((skip < 0)%Z \/ collection_down (svc w) coll = true -> l = []).
Proof.
  unfold find_many, try_except, bind at 1, lift, cursor_skip.
  destruct (Z.ltb_spec skip 0) as [Hneg | Hpos].
  - unfold logger. run_py. do 2 eexists. split; [ reflexivity | ]. world.
    split; [ repeat split | ]. split; [ lia | reflexivity ].
  - run_py. destruct (collection_down (svc w) coll) eqn:Eup.
    + unfold logger. run_py. do 2 eexists. split; [ reflexivity | ]. world.
      split; [ repeat split | ]. split; [ discriminate | reflexivity ].
    + do 2 eexists. split; [ reflexivity | ].
      split; [ repeat split | ]. split; [ now split | ].
      intros [Hs | Hd]; [ lia | discriminate ].
Qed.

Lemma count_run (filter : option (D -> bool)) (w : World) :
  exists n w',
    count filter w = (Return n, w') /\
    only_logged w w' /\
    (collection_down (svc w) coll = false ->
     n = List.length
           (List.filter (match filter with Some f => f | None => fun _ => true end)
              (docs (db w)))) /\
    (collection_down (svc w) coll = true -> n = 0).
Proof.
  unfold count, try_except. run_py.
  destruct (collection_down (svc w) coll) eqn:Eup.
  - unfold logger. run_py. do 2 eexists. split; [ reflexivity | ]. world.
    split; [ repeat split | ]. split; [ discriminate | reflexivity ].
  - do 2 eexists. split; [ reflexivity | ].
    split; [ repeat split | ]. split; [ reflexivity | discriminate ].
Qed.

Lemma cursor_limit_length {A} (limit : Z) (l : list A) :
  (0 <= limit)%Z ->
  List.length (cursor_limit limit l)
  = if (limit =? 0)%Z then List.length l
    else Nat.min (Z.to_nat limit) (List.length l).
Proof.
  intros Hl. unfold cursor_limit.
  destruct (Z.eqb_spec limit 0) as [ | Hne]; [ reflexivity | ].
  destruct (Z.ltb_spec 0 limit); [ | lia ].
  apply length_firstn.
Qed.

(** X15: [find_many] and [count] never raise and write nothing, and they
    agree: without [skip], [find_many] returns as many documents as
    [count] reports for the same filter, but never more than a positive
    [limit] (100 when the caller names none); [limit = 0] lifts the bound.
    An unreachable collection gives [[]] and [0]. *)
Theorem find_many_agrees_with_count (filter : D -> bool) (limit : Z) (w : World) :
  (0 <= limit)%Z ->
  exists l n,
    fst (find_many filter limit 0 w) = Return l /\
    fst (count (Some filter) w) = Return n /\
    only_logged w (snd (find_many filter limit 0 w)) /\
    only_logged w (snd (count (Some filter) w)) /\
    List.length l
    = (if (limit =? 0)%Z then n else Nat.min (Z.to_nat limit) n) /\
    Forall (fun d => filter d = true /\ In d (docs (db w))) l.
Proof.
  intros Hl.
  destruct (find_many_run filter limit 0 w) as (l & w1 & Hfind & Hlog1 & Hup1 & Hdown1).
  destruct (count_run (Some filter) w) as (n & w2 & Hcount & Hlog2 & Hup2 & Hdown2).
  exists l, n. rewrite Hfind, Hcount. cbn [fst snd].
  repeat (split; [ assumption || reflexivity | ]).
  destruct (collection_down (svc w) coll) eqn:Eup.
  - rewrite (Hdown1 (or_intror eq_refl)), (Hdown2 eq_refl).
    split; [ | constructor ].
    simpl. destruct (limit =? 0)%Z; [ reflexivity | now rewrite Nat.min_0_r ].
  - destruct (Hup1 ltac:(lia) eq_refl) as [-> _]. rewrite (Hup2 eq_refl).
    change (Z.to_nat 0) with 0. cbn [skipn].
    split; [ now apply cursor_limit_length | ].
    rewrite Forall_forall. intros d Hd.
    assert (Hin : In d (List.filter filter (docs (db w)))).
    { unfold cursor_limit in Hd.
      destruct (limit =? 0)%Z; [ exact Hd | ].
      destruct (0 <? limit)%Z; now apply ListFacts.In_firstn in Hd. }
    apply filter_In in Hin. tauto.
Qed.

End Lookups.

(** Two pending redações, asked for one. *)
Lemma find_many_agrees_with_count_witness :
  exists l n,
    fst (find_pendentes 1 (world_of queue_db plain_services)) = Return l /\
    fst (count (D := Redacao) (Some (fun r => String.eqb (r_status r) "pendente"))
           (world_of queue_db plain_services)) = Return n /\
    List.length l = Nat.min 1 n.
Proof.
  destruct (find_many_agrees_with_count (D := Redacao)
              (fun r => String.eqb (r_status r) "pendente") 1
              (world_of queue_db plain_services) ltac:(lia))
    as (l & n & Hl & Hn & _ & _ & Hlen & _).
  exists l, n. split; [ exact Hl | ]. split; [ exact Hn | exact Hlen ].
Defined.

(** X16: [find_pendentes] never raises and writes nothing; what it returns
    are stored redações whose status is [pendente], in the order of the
    collection and without repetition of a position, the first [limit] of
    them for a positive [limit]. *)
Theorem find_pendentes_returns_pending (limit : Z) (w : World) :
  (0 < limit)%Z ->
  exists l,
    fst (find_pendentes limit w) = Return l /\
    only_logged w (snd (find_pendentes limit w)) /\
    (Z.of_nat (List.length l) <= limit)%Z /\
    Forall (fun r => r_status r = "pendente") l /\
    (collection_down (svc w) Redacoes = false ->
     l = firstn (Z.to_nat limit)
           (List.filter (fun r => String.eqb (r_status r) "pendente")
              (redacoes (db w)))) /\
    (collection_down (svc w) Redacoes = true -> l = []).
Proof.
  intros Hl. unfold find_pendentes.
  destruct (find_many_run (D := Redacao)
              (fun r => String.eqb (r_status r) "pendente") limit 0 w)
    as (l & w1 & Hfind & Hlog & Hup & Hdown).
  exists l. rewrite Hfind. cbn [fst snd].
  split; [ reflexivity | ]. split; [ exact Hlog | ].
  assert (Hlimit : forall A (x : list A),
            cursor_limit limit x = firstn (Z.to_nat limit) x).
  { intros A x. unfold cursor_limit.
    destruct (Z.eqb_spec limit 0); [ lia | ].
    destruct (Z.ltb_spec 0 limit); [ reflexivity | lia ]. }
  destruct (collection_down (svc w) Redacoes) eqn:Eup.
  - rewrite (Hdown (or_intror Eup)).
    split; [ simpl; lia | ]. split; [ constructor | ].
    split; [ discriminate | reflexivity ].
  - destruct (Hup ltac:(lia) Eup) as [-> _].
    change (Z.to_nat 0) with 0. cbn [skipn]. rewrite Hlimit.
    cbn [docs redacoes_collection].
    split; [ rewrite length_firstn; lia | ].
    split; [ | split; [ reflexivity | discriminate ] ].
    rewrite Forall_forall. intros r Hr. apply ListFacts.In_firstn in Hr.
    apply filter_In in Hr as [_ Hr]. now apply String.eqb_eq.
Qed.

Lemma find_pendentes_returns_pending_witness :
  exists l,
    fst (find_pendentes 10 (world_of queue_db plain_services)) = Return l /\
    map r_id l = [1; 3]%N.
Proof.
  destruct (find_pendentes_returns_pending 10 (world_of queue_db plain_services)
              ltac:(lia)) as (l & Hl & _ & _ & _ & Hup & _).
  exists l. split; [ exact Hl | ]. now rewrite (Hup eq_refl).
Defined.

Lemma update_first_same {A} (p : A -> bool) (l : list A) (d : A) :
  find p l = Some d -> update_first p (fun _ => d) l = l.
Proof.
  induction l as [ | x l IH]; simpl; [ reflexivity | ].
  destruct (p x); [ intros H; now injection H as -> | ].
  intros H. now rewrite IH.
Qed.

Lemma redacao_eqb_refl (r : Redacao) : redacao_eqb r r = true.
Proof.
  unfold redacao_eqb.
  rewrite !N.eqb_refl, !String.eqb_refl, Z.eqb_refl.
  destruct (r_titulo r), (r_data_conclusao r), (r_mensagem_erro r),
    (r_analise_disponivel r) as [[ | ] | ]; simpl;
    rewrite ?String.eqb_refl, ?Z.eqb_refl; reflexivity.
Qed.

Lemma database_eta (d : Database) : with_redacoes (redacoes d) d = d.
Proof. now destruct d. Qed.

Lemma world_eta (w : World) : with_db (db w) w = w.
Proof. now destruct w. Qed.

(** X17: [update_status] answers [False], and leaves every document as it
    was, in four cases that its caller cannot tell apart: the id is not a
    valid ObjectId, the collection cannot be reached, no redação has that
    id (nothing is created), and the redação already has that status
    (other than [concluida], which stamps the time again). *)
Theorem update_status_answers_false (redacao_id status : string) (w : World) :
  (exists e, ObjectId.of_str redacao_id = Raise e) \/
  collection_down (svc w) Redacoes = true \/
  (exists o, ObjectId.of_str redacao_id = Return o /\
             find (has_id o) (redacoes (db w)) = None) \/
  (exists o old, ObjectId.of_str redacao_id = Return o /\
                 find (has_id o) (redacoes (db w)) = Some old /\
                 r_status old = status /\ status <> "concluida") ->
  let run := RedacaoRepository.update_status redacao_id status w in
  fst run = Return false /\ db (snd run) = db w.
Proof.
  intros Hcase run. subst run.
  unfold RedacaoRepository.update_status, bind at 1.
  assert (Hone : forall fields w0, db w0 = db w -> svc w0 = svc w ->
            ((exists e, ObjectId.of_str redacao_id = Raise e) \/
             collection_down (svc w) Redacoes = true \/
             (exists o, ObjectId.of_str redacao_id = Return o /\
                        find (has_id o) (redacoes (db w)) = None) \/
             (exists o old, ObjectId.of_str redacao_id = Return o /\
                            find (has_id o) (redacoes (db w)) = Some old /\
                            fold_left set_redacao_field fields old = old)) ->
            fst (update_one (D := Redacao) redacao_id fields w0) = Return false /\
            db (snd (update_one (D := Redacao) redacao_id fields w0)) = db w).
  { intros fields w0 Hdb Hsvc Hc.
    destruct (@update_one Redacao redacoes_collection redacoes_settable
                redacao_id fields w0) as [r w'] eqn:Hrun.
    cbn [fst snd]. revert Hrun.
    unfold update_one, try_except, bind at 1, lift.
    destruct (ObjectId.of_str redacao_id) as [o | e] eqn:Eo.
    2:{ unfold logger. run_py. intros H; injection H as <- <-. world.
        now split. }
    run_py. cbn [coll docs redacoes_collection put_docs doc_eqb redacoes_settable
                 set_field].
    rewrite Hsvc.
    destruct (collection_down (svc w) Redacoes) eqn:Eup.
    { unfold logger. run_py. intros H; injection H as <- <-. world.
      now split. }
    rewrite Hdb.
    destruct Hc as [[e He] | [Hd | [(o' & Ho' & Hnone) | (o' & old & Ho' & Hsome & Hsame)]]];
      try discriminate.
    - injection Ho' as <-. rewrite Hnone.
      intros H; injection H as <- <-. now split.
    - injection Ho' as <-. rewrite Hsome.
      match goal with
      | |- context [redacao_eqb old ?x] =>
          replace x with old by (symmetry; exact Hsame)
      end.
      rewrite redacao_eqb_refl.
      intros H; injection H as <- <-. world.
      split; [ reflexivity | ].
      transitivity (with_redacoes (redacoes (db w)) (db w));
        [ f_equal; exact (update_first_same _ _ _ Hsome) | apply database_eta ]. }
  destruct (String.eqb_spec status "concluida") as [-> | Hne].
  - run_py.
    apply (Hone [Status "concluida"; DataConclusao (clock w)] w eq_refl eq_refl).
    destruct Hcase as [H | [H | [H | (o & old & _ & _ & _ & Hc)]]]; auto.
  - run_py. apply (Hone [Status status] w eq_refl eq_refl).
    destruct Hcase as [H | [H | [H | (o & old & Ho & Hfind & Hs & _)]]]; auto.
    right. right. right. exists o, old. repeat split; try assumption.
    cbn [fold_left]. unfold set_redacao_field. rewrite <- Hs. now destruct old.
Qed.

(** A redação that is already [processando], and an id nobody has. *)
Lemma update_status_answers_false_witness :
  let w := world_of (db_with_redacao 1 "processando" "texto") plain_services in
  fst (RedacaoRepository.update_status id1 "processando" w) = Return false /\
  fst (RedacaoRepository.update_status id2 "erro" w) = Return false /\
  db (snd (RedacaoRepository.update_status id2 "erro" w)) = db w.
Proof.
  intros w. split; [ | split ].
  - apply (update_status_answers_false id1 "processando" w).
    right. right. right. exists 1%N, (redacao_doc 1 "processando" "texto").
    repeat split. discriminate.
  - apply (update_status_answers_false id2 "erro" w).
    right. right. left. now exists 2%N.
  - apply (update_status_answers_false id2 "erro" w).
    right. right. left. now exists 2%N.
Defined.

Lemma find_snoc_new (o : N) (l : list Redacao) (document : Redacao) :
  ~ In o (map r_id l) -> r_id document = o ->
  find (has_id o) (l ++ [document]) = Some document.
Proof.
  intros Hnew Hid. induction l as [ | x l IH]; cbn [app find has_id redacoes_collection].
  - now rewrite Hid, N.eqb_refl.
  - destruct (N.eqb_spec (r_id x) o) as [Heq | _].
    + destruct Hnew. now left.
    + apply IH. intros Hin. apply Hnew. now right.
Qed.

Lemma existsb_has_id (o : N) (l : list Redacao) :
  existsb (has_id o) l = true <-> In o (map r_id l).
Proof.
  rewrite existsb_exists, in_map_iff. cbn [has_id redacoes_collection].
  split; intros (r & H1 & H2).
  - exists r. apply N.eqb_eq in H2. now split.
  - exists r. split; [ exact H2 | now apply N.eqb_eq ].
Qed.

Lemma insert_one_new (o : N) (document : Redacao) (w : World) :
  collection_down (svc w) Redacoes = false ->
  ~ In o (map r_id (redacoes (db w))) ->
  insert_one (Some o) document w
  = (Return (Some (ObjectId.to_str o)),
     with_db (with_redacoes (redacoes (db w) ++ [with_r_id o document]) (db w)) w).
Proof.
  intros Hup Hnew. unfold insert_one, try_except. run_py. rewrite Hup.
  destruct (existsb (has_id o) (redacoes (db w))) eqn:Eold;
    [ | reflexivity ].
  apply existsb_has_id in Eold. contradiction.
Qed.

Lemma insert_one_unreachable (_id : option N) (document : Redacao) (w : World) :
  collection_down (svc w) Redacoes = true ->
  fst (insert_one _id document w) = Return None /\
  db (snd (insert_one _id document w)) = db w.
Proof.
  intros Hdown. unfold insert_one, try_except, logger.
  destruct _id as [o | ]; run_py; world; rewrite Hdown; now split.
Qed.

(** X18: a redação that [insert_one] accepted is what [find_by_id] finds
    under the id [insert_one] returned (the [_id] it came with, or else
    the new one the driver gave it), and [count] reports one document
    more.  [insert_one] never raises: for an [_id] the collection already
    holds, or a collection it cannot reach, it returns [None] and stores
    nothing. *)
Theorem inserted_redacao_is_found (_id : option N) (document : Redacao) (w : World) :
  let o := match _id with Some o => o | None => next_oid w end in
  (o < 16 ^ 24)%N ->
  let run := insert_one _id document w in
  (collection_down (svc w) Redacoes = false ->
   ~ In o (map r_id (redacoes (db w))) ->
   exists id,
     fst run = Return (Some id) /\
     fst (find_by_id (D := Redacao) id (snd run))
     = Return (Some (with_r_id o document)) /\
     fst (count (D := Redacao) None (snd run))
     = Return (S (List.length (redacoes (db w))))) /\
  (collection_down (svc w) Redacoes = true \/
   In o (map r_id (redacoes (db w))) ->
   fst run = Return None /\ db (snd run) = db w).
Proof.
  intros o Hid run. subst run.
  destruct (insert_one _id document w) as [r w'] eqn:Hrun. cbn [fst snd].
  revert Hrun. unfold insert_one, try_except.
  assert (Hgen :
    (match _id with
     | Some o => ret o
     | None =>
         o <- gets next_oid ;;
         modify (fun w => with_next_oid (N.succ o) w) ;;;
         ret o
     end) w
    = (Return o,
       match _id with Some _ => w | None => with_next_oid (N.succ o) w end)).
  { subst o. destruct _id; reflexivity. }
  set (w1 := match _id with Some _ => w | None => with_next_oid (N.succ o) w end)
    in Hgen.
  assert (Hdb : db w1 = db w) by (subst w1; now destruct _id).
  assert (Hsvc : svc w1 = svc w) by (subst w1; now destruct _id).
  clearbody w1. unfold bind at 1. rewrite Hgen. run_py. rewrite Hsvc.
  destruct (collection_down (svc w) Redacoes) eqn:Eup.
  { unfold logger. run_py. intros H; injection H as <- <-. world.
    split; [ discriminate | now split ]. }
  rewrite Hdb.
  destruct (existsb (has_id o) (redacoes (db w))) eqn:Eold.
  - unfold logger. run_py. intros H; injection H as <- <-. world.
    split; [ | now split ].
    intros _ Hnew. apply existsb_has_id in Eold. contradiction.
  - intros H; injection H as <- <-. split.
    + intros _ Hnew. exists (ObjectId.to_str o).
      split; [ reflexivity | ].
      unfold find_by_id, count, try_except, bind at 1, lift.
      rewrite (ObjectIdFacts.of_str_to_str _ Hid). run_py. world.
      cbn [coll docs redacoes_collection]. rewrite Hsvc, Eup. world. cbn [fst].
      split.
      * now rewrite (find_snoc_new o _ (with_r_id o document) Hnew eq_refl).
      * f_equal. rewrite ListFacts.filter_all, length_app. simpl. lia.
    + intros [H | H]; [ discriminate | ].
      apply existsb_has_id in H. congruence.
Qed.

(** A document without [_id] in a store that holds another one: the
    driver gives it the next [ObjectId]. *)
Lemma inserted_redacao_is_found_witness :
  let w := world_of (db_with_redacao 1 "concluida" "texto") plain_services in
  let document := redacao_doc 0 "processando" "O texto da redacao." in
  exists id,
    fst (insert_one None document w) = Return (Some id) /\
    fst (find_by_id (D := Redacao) id (snd (insert_one None document w)))
    = Return (Some (with_r_id (next_oid w) document)).
Proof.
  intros w document.
  destruct (inserted_redacao_is_found None document w) as [Hnew _].
  - reflexivity.
  - destruct Hnew as (id & Hid & Hfind & _).
    + reflexivity.
    + vm_compute. intuition discriminate.
    + exists id. split; [ exact Hid | exact Hfind ].
Defined.

Lemma remove_first_length {A} (p : A -> bool) (l : list A) :
  List.length (remove_first p l)
  = List.length l - (if existsb p l then 1 else 0).
Proof.
  induction l as [ | x l IH]; simpl; [ reflexivity | ].
  destruct (p x); simpl; [ lia | ].
  rewrite IH. destruct (existsb p l) eqn:E; [ | lia ].
  destruct l; [ discriminate | simpl; lia ].
Qed.

Lemma remove_first_keeps {A} (p : A -> bool) (l : list A) (x : A) :
  In x l -> p x = false -> In x (remove_first p l).
Proof.
  induction l as [ | y l IH]; simpl; [ intros [] | ].
  intros [-> | Hin] Hp.
  - rewrite Hp. now left.
  - destruct (p y); [ exact Hin | right; now apply IH ].
Qed.

Lemma remove_first_unique (o : N) (l : list Redacao) :
  NoDup (map r_id l) -> find (has_id o) (remove_first (has_id o) l) = None.
Proof.
  induction l as [ | x l IH]; cbn [map remove_first find]; [ reflexivity | ].
  intros Hnd. inversion Hnd as [ | ? ? Hx Hl]; subst.
  destruct (has_id o x) eqn:Ex.
  - cbn [has_id redacoes_collection] in Ex. apply N.eqb_eq in Ex.
    destruct (find (has_id o) l) as [y | ] eqn:Ey; [ | reflexivity ].
    apply find_some in Ey as [Hin Hy].
    cbn [has_id redacoes_collection] in Hy. apply N.eqb_eq in Hy.
    destruct Hx. rewrite Ex, <- Hy. now apply in_map.
  - cbn [find]. rewrite Ex. now apply IH.
Qed.

(** X19: [delete_one] never raises.  With a valid id and a collection it
    can reach it answers whether a redação had that id; afterwards
    [find_by_id] finds none under it, the other redações are still there,
    and exactly one document is gone when the answer was [True]. *)
Theorem deleted_redacao_is_gone (id : string) (o : N) (w : World) :
  ObjectId.of_str id = Return o ->
  collection_down (svc w) Redacoes = false ->
  unique_ids w ->
  let run := delete_one (D := Redacao) id w in
  let existed := existsb (has_id o) (redacoes (db w)) in
  fst run = Return existed /\
  fst (find_by_id (D := Redacao) id (snd run)) = Return None /\
  (forall r, In r (redacoes (db w)) -> r_id r <> o ->
             In r (redacoes (db (snd run)))) /\
  List.length (redacoes (db (snd run)))
  = List.length (redacoes (db w)) - (if existed then 1 else 0).
Proof.
  intros Ho Hup Hnd run existed. subst run existed.
  destruct (@delete_one Redacao redacoes_collection redacoes_settable id w)
    as [r w'] eqn:Hrun.
  cbn [fst snd]. revert Hrun.
  unfold delete_one, try_except, bind at 1, lift. rewrite Ho. run_py.
  cbn [coll docs redacoes_collection put_docs redacoes_settable]. rewrite Hup.
  intros H; injection H as <- <-. world.
  split; [ reflexivity | ]. split; [ | split ].
  - unfold find_by_id, try_except, bind at 1, lift. rewrite Ho. run_py. world.
    cbn [coll docs redacoes_collection]. rewrite Hup. cbn [fst]. f_equal.
    exact (remove_first_unique o (redacoes (db w)) Hnd).
  - intros x Hin Hne. apply remove_first_keeps; [ exact Hin | ].
    cbn [has_id redacoes_collection]. now apply N.eqb_neq.
  - apply remove_first_length.
Qed.

(** The second of three redações. *)
Lemma deleted_redacao_is_gone_witness :
  let w := world_of queue_db plain_services in
  fst (delete_one (D := Redacao) id2 w) = Return true /\
  map r_id (redacoes (db (snd (delete_one (D := Redacao) id2 w)))) = [1; 3]%N.
Proof.
  intros w.
  destruct (deleted_redacao_is_gone id2 2 w eq_refl eq_refl) as (Hrun & _).
  - repeat constructor; simpl; intuition discriminate.
  - split; [ exact Hrun | reflexivity ].
Defined.

(** X20: the lookups that convert the id themselves raise where
    [find_by_id] does not: for an id that is not a valid ObjectId,
    [analise_repository.find_by_redacao],
    [embedding_repository.find_by_redacao] and
    [redacao_repository.find_by_user] raise [InvalidId] to their caller
    and log nothing, while [find_by_id] returns [None]. *)
Theorem lookups_by_reference_raise (id : string) (e : exn) (w : World) :
  ObjectId.of_str id = Raise e ->
  AnaliseRepository.find_by_redacao id w = (Raise e, w) /\
  embedding_find_by_redacao id w = (Raise e, w) /\
  (forall limit skip, find_by_user id limit skip w = (Raise e, w)) /\
  fst (find_by_id (D := Redacao) id w) = Return None /\
  fst (find_by_id (D := dict) id w) = Return None.
Proof.
  intros He.
  unfold AnaliseRepository.find_by_redacao, embedding_find_by_redacao,
    find_by_user, find_by_id, try_except, bind, lift.
  rewrite He. repeat split.
Qed.

Lemma lookups_by_reference_raise_witness :
  fst (AnaliseRepository.find_by_redacao "abc" (world_of empty_db plain_services))
  = Raise (InvalidId "abc").
Proof.
  now rewrite (proj1 (lookups_by_reference_raise "abc" (InvalidId "abc")
                        (world_of empty_db plain_services) eq_refl)).
Defined.

End RepositoryFacts.

(** ** The endpoints *)

(** Unfolds the operations of the web layer's monad. *)
Ltac run_http :=
  cbv beta iota delta [bind_h ret_h raise_h try_h call Endpoints.on_world].

Module EndpointFacts.

Import Repositories RepositoryQueries Endpoints Props StatusProps
       RetrievalProps EndpointProps.

Local Open Scope http_scope.

Section Format.

Variable suffix_lower : string -> string.

Lemma determined_types (file_name content_type : option string) (t : string) :
  FileProcessor._determine_file_type suffix_lower file_name content_type = Return t ->
  In t known_types.
Proof.
  unfold FileProcessor._determine_file_type, known_types.
  assert (Hname :
    match file_name with
    | Some (String c n) =>
        let extension := suffix_lower (String c n) in
        if String.eqb extension ".pdf" then Return "pdf"
        else if String.eqb extension ".docx" then Return "docx"
        else if String.eqb extension ".doc" then Return "doc"
        else if String.eqb extension ".txt" then Return "txt"
        else Raise (ValueError "Não foi possível determinar o tipo de arquivo")
    | _ => Raise (ValueError "Não foi possível determinar o tipo de arquivo")
    end = Return t -> In t ["pdf"; "docx"; "doc"; "txt"]).
  { destruct file_name as [[ | c n] | ]; try discriminate. cbv zeta.
    repeat match goal with
           | |- (if ?b then _ else _) = _ -> _ => destruct b
           end; try discriminate; intros H; injection H as <-; simpl; tauto. }
  destruct content_type as [[ | c ct] | ]; try exact Hname.
  repeat match goal with
         | |- (if ?b then _ else _) = _ -> _ => destruct b
         end; try exact Hname; intros H; injection H as <-; simpl; tauto.
Qed.

(** X21: the format check of the upload endpoint and the file processor
    agree: an upload passes the check exactly when [_determine_file_type]
    determines its type, and a type it determines is one of [pdf],
    [docx], [doc] and [txt] (so [extract_text] never reaches its
    "unsupported format" branch). *)
Theorem format_check_agrees_with_file_processor (arquivo : UploadFile) :
  (tipo_valido suffix_lower arquivo = true <->
   exists t,
     FileProcessor._determine_file_type suffix_lower
       (filename arquivo) (content_type arquivo) = Return t) /\
  (forall t,
     FileProcessor._determine_file_type suffix_lower
       (filename arquivo) (content_type arquivo) = Return t ->
     In t known_types).
Proof.
  split; [ | intros t; apply determined_types ].
  unfold tipo_valido, FileProcessor._determine_file_type, tipos_permitidos.
  assert (Hname :
    existsb
      (String.eqb match filename arquivo with
                  | Some (String c n) => suffix_lower (String c n)
                  | _ => ""
                  end) [".txt"; ".pdf"; ".doc"; ".docx"] = true <->
    exists t,
      match filename arquivo with
      | Some (String c n) =>
          let extension := suffix_lower (String c n) in
          if String.eqb extension ".pdf" then Return "pdf"
          else if String.eqb extension ".docx" then Return "docx"
          else if String.eqb extension ".doc" then Return "doc"
          else if String.eqb extension ".txt" then Return "txt"
          else Raise (ValueError "Não foi possível determinar o tipo de arquivo")
      | _ => Raise (ValueError "Não foi possível determinar o tipo de arquivo")
      end = Return t).
  { destruct (filename arquivo) as [[ | c n] | ];
      try (split; [ discriminate | intros [t Ht]; discriminate Ht ]).
    cbv zeta. cbn [existsb].
    set (extension := suffix_lower (String c n)).
    destruct (String.eqb extension ".pdf") eqn:E1,
             (String.eqb extension ".docx") eqn:E2,
             (String.eqb extension ".doc") eqn:E3,
             (String.eqb extension ".txt") eqn:E4; cbn [orb];
      split; try reflexivity; try discriminate; eauto;
      intros [t Ht]; discriminate Ht. }
  destruct (content_type arquivo) as [[ | c ct] | ]; try exact Hname.
  cbn [existsb]. set (t := String c ct).
  destruct (String.eqb t "text/plain") eqn:E1,
           (String.eqb t "application/pdf") eqn:E2,
           (String.eqb t "application/msword") eqn:E3,
           (String.eqb t
              "application/vnd.openxmlformats-officedocument.wordprocessingml.document")
             eqn:E4; cbn [orb]; try exact Hname;
    split; try reflexivity; eauto.
Qed.

End Format.

Lemma dict_get_map_values (f : pyval -> pyval) (key : string) (d : dict) :
  dict_get key (map (fun kv => (fst kv, f (snd kv))) d)
  = option_map f (dict_get key d).
Proof.
  induction d as [ | [k v] d IH]; simpl; [ reflexivity | ].
  destruct (String.eqb k key); [ reflexivity | exact IH ].
Qed.

Lemma dict_get_del_same (key : string) (d : dict) :
  dict_get key (dict_del key d) = None.
Proof.
  unfold dict_del. induction d as [ | [k v] d IH]; simpl; [ reflexivity | ].
  destruct (String.eqb k key) eqn:E; simpl; [ exact IH | ].
  now rewrite E.
Qed.

Lemma dict_get_del_other (key other : string) (d : dict) :
  key <> other -> dict_get other (dict_del key d) = dict_get other d.
Proof.
  intros Hne. unfold dict_del.
  induction d as [ | [k v] d IH]; simpl; [ reflexivity | ].
  destruct (String.eqb_spec k key) as [-> | Hk]; simpl.
  - destruct (String.eqb_spec key other); [ contradiction | exact IH ].
  - destruct (String.eqb k other); [ reflexivity | exact IH ].
Qed.

Lemma dict_get_set_same (key : string) (v : pyval) (d : dict) :
  dict_get key (dict_set key v d) = Some v.
Proof.
  unfold dict_set, dict_has.
  induction d as [ | [k x] d IH]; simpl.
  - now rewrite String.eqb_refl.
  - destruct (String.eqb k key) eqn:E; simpl.
    + now rewrite String.eqb_refl.
    + destruct (dict_get key d) eqn:Ed; simpl; rewrite E; exact IH.
Qed.

Lemma dict_get_set_other (key other : string) (v : pyval) (d : dict) :
  key <> other -> dict_get other (dict_set key v d) = dict_get other d.
Proof.
  intros Hne. unfold dict_set.
  assert (Hmap : dict_get other
                   (map (fun kv => if String.eqb (fst kv) key then (key, v) else kv) d)
                 = dict_get other d).
  { induction d as [ | [k x] d IH]; simpl; [ reflexivity | ].
    destruct (String.eqb_spec k key) as [-> | Hk]; simpl.
    - destruct (String.eqb_spec key other); [ contradiction | exact IH ].
    - destruct (String.eqb k other); [ reflexivity | exact IH ]. }
  destruct (dict_has key d); [ exact Hmap | ].
  induction d as [ | [k x] d IH]; simpl.
  - destruct (String.eqb_spec key other); [ contradiction | reflexivity ].
  - destruct (String.eqb k other); [ reflexivity | apply IH ].
    clear IH. simpl in Hmap.
    destruct (String.eqb_spec k key) as [-> | Hk]; simpl in Hmap.
    + destruct (String.eqb_spec key other); [ contradiction | exact Hmap ].
    + destruct (String.eqb k other) eqn:E; [ | exact Hmap ].
      induction d as [ | [k' x'] d IHd]; simpl; [ reflexivity | ].
      destruct (String.eqb_spec k' key) as [-> | Hk']; simpl.
      * destruct (String.eqb_spec key other); [ contradiction | exact IHd ].
      * destruct (String.eqb k' other); [ reflexivity | exact IHd ].
Qed.

Lemma stringify_no_object_id (v : pyval) (o : N) : stringify v <> VObjectId o.
Proof. destruct v; discriminate. Qed.

(** What [analise_publica] hands out. *)
Lemma analise_publica_fields (analise : dict) :
  dict_get "_id" (analise_publica analise) = None /\
  no_object_id (analise_publica analise) /\
  (forall o, dict_get "_id" analise = Some (VObjectId o) ->
             dict_get "id" (analise_publica analise)
             = Some (VStr (ObjectId.to_str o))) /\
  (forall key, key <> "_id" -> key <> "id" ->
               dict_get key (analise_publica analise)
               = option_map stringify (dict_get key analise)).
Proof.
  unfold analise_publica. cbv zeta.
  set (shown := map (fun kv => (fst kv, stringify (snd kv))) analise).
  assert (Hshown : forall key,
            dict_get key shown = option_map stringify (dict_get key analise))
    by (intros key; apply dict_get_map_values).
  assert (Hno : no_object_id shown).
  { unfold no_object_id, shown. rewrite Forall_forall. intros kv Hkv.
    apply in_map_iff in Hkv as (kv' & <- & _). intros o.
    apply stringify_no_object_id. }
  destruct (dict_get "_id" shown) as [id | ] eqn:Eid.
  - split; [ apply dict_get_del_same | ]. split; [ | split ].
    + unfold no_object_id, dict_del. rewrite Forall_forall. intros kv Hkv.
      apply filter_In in Hkv as [Hkv _]. revert kv Hkv.
      rewrite <- Forall_forall. unfold dict_set.
      destruct (dict_has "id" shown).
      * rewrite Forall_forall. intros kv Hkv.
        apply in_map_iff in Hkv as (kv' & <- & Hin).
        destruct (String.eqb (fst kv') "id"); [ discriminate | ].
        unfold no_object_id in Hno. rewrite Forall_forall in Hno. now apply Hno.
      * apply Forall_app. split; [ exact Hno | ].
        constructor; [ discriminate | constructor ].
    + intros o Ho. rewrite Hshown, Ho in Eid. injection Eid as <-.
      rewrite dict_get_del_other by discriminate.
      apply dict_get_set_same.
    + intros key H1 H2.
      rewrite dict_get_del_other by congruence.
      rewrite dict_get_set_other by congruence. apply Hshown.
  - split; [ exact Eid | ]. split; [ exact Hno | ]. split.
    + intros o Ho. rewrite Hshown, Ho in Eid. discriminate Eid.
    + intros key _ _. apply Hshown.
Qed.

Section StatusEndpoints.

Variable http_str : Z -> string -> string.
Variable json_load : string -> outcome pyval.

(** X22: the three [GET] endpoints never answer 404.  Each raises its
    [HTTPException(404)] inside a [try] whose [except Exception] catches
    it, so every failure leaves as a 500: an unknown redação, an id that
    is not a valid ObjectId and an example that does not exist are all
    answered 500, with the 404 in the detail. *)
Theorem not_found_is_answered_500 (redacao_id titulo : string) (w : World) :
  answers_500 (fst (verificar_status_redacao http_str redacao_id w)) /\
  answers_500 (fst (obter_analise_redacao http_str redacao_id w)) /\
  answers_500 (fst (get_exemplo http_str json_load titulo w)) /\
  (fst (find_by_id (D := Redacao) redacao_id w) = Return None ->
   fst (verificar_status_redacao http_str redacao_id w)
   = Raises (HTTPException 500
               ("Erro ao verificar status: "
                  ++ http_str 404 "Redação não encontrada")) /\
   fst (obter_analise_redacao http_str redacao_id w)
   = Raises (HTTPException 500
               ("Erro ao obter análise: "
                  ++ http_str 404 "Redação não encontrada"))) /\
  (path_exists (svc w) ("data/redacoes/" ++ titulo ++ ".json") = false ->
   fst (get_exemplo http_str json_load titulo w)
   = Raises (HTTPException 500
               ("Erro ao buscar exemplo: "
                  ++ http_str 404 ("Exemplo '" ++ titulo ++ "' não encontrado")))).
Proof.
  assert (Htry : forall A (body : H World A) (prefix : string) w0,
            answers_500
              (fst (try_h body
                      (fun e => raise_h (HTTPException 500
                                           (prefix ++ exception_str http_str e)))
                      w0))).
  { intros A body prefix w0 e. unfold try_h, raise_h.
    destruct (body w0) as [[a | e'] w1]; cbn [fst]; [ discriminate | ].
    intros H; injection H as <-. eauto. }
  split; [ apply Htry | ]. split; [ apply Htry | ]. split; [ apply Htry | ].
  split.
  - intros Hnone.
    unfold verificar_status_redacao, obter_analise_redacao.
    unfold try_h, bind_h at 1 3, call.
    destruct (find_by_id (D := Redacao) redacao_id w) as [r w1].
    cbn [fst] in Hnone. subst r. now split.
  - intros Hpath. unfold get_exemplo, try_h, bind_h at 1, call, gets.
    now rewrite Hpath.
Qed.

Lemma verificar_status_found (redacao_id : string) (o : N)
    (redacao : Redacao) (w : World) :
  ObjectId.of_str redacao_id = Return o ->
  collection_down (svc w) Redacoes = false ->
  find (has_id o) (redacoes (db w)) = Some redacao ->
  exists response w',
    verificar_status_redacao http_str redacao_id w = (Returns response, w') /\
    only_logged w w' /\
    sr_redacao_id response = redacao_id /\
    sr_status response = r_status redacao /\
    sr_titulo response = r_titulo redacao /\
    sr_data_envio response = r_data_envio redacao /\
    sr_data_conclusao response = r_data_conclusao redacao /\
    sr_analise_disponivel response
    = String.eqb (r_status redacao) "concluida"
      && negb (collection_down (svc w) Analises)
      && existsb (RAGManager.has_redacao_id o) (analises (db w)).
Proof.
  intros Ho Hup Hfind.
  unfold verificar_status_redacao, try_h, bind_h at 1, call.
  unfold find_by_id, try_except, bind at 1, lift. rewrite Ho. run_py.
  cbn [coll docs redacoes_collection]. rewrite Hup.
  change (find (fun r => N.eqb (r_id r) o) (redacoes (db w)))
    with (find (has_id o) (redacoes (db w))).
  rewrite Hfind. unfold bind_h at 1.
  destruct (String.eqb (r_status redacao) "concluida").
  - unfold call, AnaliseRepository.find_by_redacao, bind at 1, lift.
    rewrite Ho. unfold find_one, try_except. run_py.
    cbn [coll docs analises_collection].
    destruct (collection_down (svc w) Analises).
    + unfold logger. run_py. unfold ret_h.
      do 2 eexists. split; [ reflexivity | ]. world.
      split; [ repeat split | ]. now repeat split.
    + unfold ret_h. do 2 eexists. split; [ reflexivity | ].
      split; [ repeat split | ]. repeat (split; [ reflexivity | ]).
      cbn [sr_analise_disponivel andb negb].
      destruct (find (RAGManager.has_redacao_id o) (analises (db w)))
        as [a | ] eqn:Ea.
      * apply find_some in Ea as [Hin Ha]. symmetry.
        apply existsb_exists. eauto.
      * symmetry. apply not_true_is_false. intros Hex.
        apply existsb_exists in Hex as (a & Hin & Ha).
        now rewrite (find_none _ _ Ea a Hin) in Ha.
  - unfold ret_h. do 2 eexists. split; [ reflexivity | ].
    split; [ repeat split | ]. now repeat split.
Qed.

(** X23: for a stored redação the status endpoint reports the stored
    status, title and dates and writes nothing; it reports an available
    analysis exactly when the status is [concluida] and an analysis of
    that redação can be read, so an analysis stored for a redação in any
    other status is not reported. *)
Theorem status_of_a_stored_redacao (redacao_id : string) (o : N)
    (redacao : Redacao) (w : World) :
  ObjectId.of_str redacao_id = Return o ->
  collection_down (svc w) Redacoes = false ->
  find (has_id o) (redacoes (db w)) = Some redacao ->
  exists response w',
    verificar_status_redacao http_str redacao_id w = (Returns response, w') /\
    only_logged w w' /\
    sr_redacao_id response = redacao_id /\
    sr_status response = r_status redacao /\
    sr_titulo response = r_titulo redacao /\
    sr_data_envio response = r_data_envio redacao /\
    sr_data_conclusao response = r_data_conclusao redacao /\
    sr_analise_disponivel response
    = String.eqb (r_status redacao) "concluida"
      && negb (collection_down (svc w) Analises)
      && existsb (RAGManager.has_redacao_id o) (analises (db w)).
Proof. exact (verificar_status_found redacao_id o redacao w). Qed.

(** X24: what the analysis endpoint hands out.  For a redação that is not
    [concluida] it answers the stored status and a notice, and looks up no
    analysis.  For one that is, it answers the stored analysis without the
    key [_id], with no [ObjectId] left at the top level (each became its
    string), with [id] holding the string of the analysis' [_id], and with
    every other key as stored. *)
Theorem published_analysis (redacao_id : string) (o : N) (redacao : Redacao)
    (w : World) :
  ObjectId.of_str redacao_id = Return o ->
  collection_down (svc w) Redacoes = false ->
  collection_down (svc w) Analises = false ->
  find (has_id o) (redacoes (db w)) = Some redacao ->
  let run := obter_analise_redacao http_str redacao_id w in
  (r_status redacao <> "concluida" ->
   run = (Returns [("status", VStr (r_status redacao));
                   ("redacao_id", VStr redacao_id);
                   ("mensagem",
                    VStr "Redação ainda está sendo processada ou ocorreu um erro")],
          w)) /\
  (r_status redacao = "concluida" ->
   forall analise,
     find (RAGManager.has_redacao_id o) (analises (db w)) = Some analise ->
     exists response,
       run = (Returns response, w) /\
       dict_get "_id" response = None /\
       no_object_id response /\
       (forall id, dict_get "_id" analise = Some (VObjectId id) ->
                   dict_get "id" response = Some (VStr (ObjectId.to_str id))) /\
       (forall key, key <> "_id" -> key <> "id" ->
                    dict_get key response
                    = option_map stringify (dict_get key analise))).
Proof.
  intros Ho Hup Hupa Hfind run. subst run.
  destruct (obter_analise_redacao http_str redacao_id w) as [r w'] eqn:Hrun.
  revert Hrun.
  unfold obter_analise_redacao, try_h, bind_h at 1, call.
  unfold find_by_id, try_except, bind at 1, lift. rewrite Ho. run_py.
  cbn [coll docs redacoes_collection]. rewrite Hup.
  change (find (fun r => N.eqb (r_id r) o) (redacoes (db w)))
    with (find (has_id o) (redacoes (db w))).
  rewrite Hfind.
  destruct (String.eqb_spec (r_status redacao) "concluida") as [Hs | Hs];
    cbn [negb].
  - unfold bind_h at 1, call, AnaliseRepository.find_by_redacao, bind at 1, lift.
    rewrite Ho. unfold find_one, try_except. run_py.
    cbn [coll docs analises_collection]. rewrite Hupa.
    split; [ contradiction | ]. intros _ analise Ha. rewrite Ha in Hrun.
    destruct analise as [ | kv analise].
    { apply find_some in Ha as [_ Ha]. discriminate Ha. }
    unfold ret_h in Hrun. injection Hrun as <- <-.
    exists (analise_publica (kv :: analise)). split; [ reflexivity | ].
    apply analise_publica_fields.
  - unfold ret_h. intros H; injection H as <- <-.
    split; [ reflexivity | contradiction ].
Qed.

End StatusEndpoints.

(** The analysis of redação 1 as it goes out. *)
Lemma published_analysis_witness :
  exists response,
    fst (obter_analise_redacao http_str id1
           (world_of db_with_analysis plain_services)) = Returns response /\
    dict_get "_id" response = None /\
    dict_get "id" response = Some (VStr (ObjectId.to_str 5)) /\
    dict_get "redacao_id" response = Some (VStr id1).
Proof.
  destruct (published_analysis http_str id1 1
              (redacao_doc 1 "concluida" "O texto da redacao.")
              (world_of db_with_analysis plain_services)
              eq_refl eq_refl eq_refl eq_refl) as [_ H].
  destruct (H eq_refl _ eq_refl) as (response & Hrun & Hid & _ & Hnew & Hkeys).
  exists response. rewrite Hrun. split; [ reflexivity | ].
  split; [ exact Hid | ]. split; [ now apply Hnew | ].
  rewrite Hkeys by discriminate. reflexivity.
Defined.

(** Redação 1, concluded, with its analysis. *)
Lemma status_of_a_stored_redacao_witness :
  exists response,
    fst (verificar_status_redacao http_str id1
           (world_of db_with_analysis plain_services)) = Returns response /\
    sr_status response = "concluida" /\
    sr_analise_disponivel response = true.
Proof.
  destruct (status_of_a_stored_redacao http_str id1 1
              (redacao_doc 1 "concluida" "O texto da redacao.")
              (world_of db_with_analysis plain_services)
              eq_refl eq_refl eq_refl)
    as (response & w' & Hrun & _ & _ & Hs & _ & _ & _ & Ha).
  exists response. rewrite Hrun. split; [ reflexivity | ].
  split; [ exact Hs | exact Ha ].
Defined.

Lemma main_logger_raises (level message : string) (w : World) :
  Main.logger level message w = (Raise (NameError "logger"), w).
Proof. reflexivity. Qed.

Lemma schedules_nothing_ret {A} (a : A) : schedules_nothing (ret_h a).
Proof. intros s r s' H. injection H as <- <-. split; [ reflexivity | discriminate ]. Qed.

Lemma schedules_nothing_raise_400 {A} (detail : string) :
  schedules_nothing (A := A) (raise_h (HTTPException 400 detail)).
Proof.
  intros s r s' H. injection H as <- <-. split; [ reflexivity | ].
  intros c d Hc. now injection Hc as <- _.
Qed.

Lemma schedules_nothing_call {A} (m : M A) :
  schedules_nothing (on_world (call m)).
Proof.
  intros s r s'. unfold on_world, call.
  destruct (m (world s)) as [[a | e] w']; intros H; injection H as <- <-;
    (split; [ reflexivity | discriminate ]).
Qed.

Lemma schedules_nothing_bind {A B} (m : H Server A) (k : A -> H Server B) :
  schedules_nothing m -> (forall a, schedules_nothing (k a)) ->
  schedules_nothing (bind_h m k).
Proof.
  intros Hm Hk s r s'. unfold bind_h.
  destruct (m s) as [[a | e] s1] eqn:Em; destruct (Hm _ _ _ Em) as [Ht He].
  - intros H. destruct (Hk a _ _ _ H) as [Ht' He']. split; [ congruence | exact He' ].
  - intros H; injection H as <- <-. split; [ exact Ht | ].
    intros c d Hc. injection Hc as ->. now apply (He c d).
Qed.

Lemma halts_later {A B} (m : H Server A) (k : A -> H Server B) :
  schedules_nothing m -> (forall a, halts (k a)) -> halts (bind_h m k).
Proof.
  intros Hm Hk s r s'. unfold bind_h.
  destruct (m s) as [[a | e] s1] eqn:Em; destruct (Hm _ _ _ Em) as [Ht He].
  - intros H. destruct (Hk a _ _ _ H) as (Ht' & He' & Hr').
    split; [ congruence | ]. split; assumption.
  - intros H; injection H as <- <-.
    split; [ exact Ht | ]. split; [ | discriminate ].
    intros c d Hc. injection Hc as ->. now apply (He c d).
Qed.

Lemma halts_first {A B} (m : H Server A) (k : A -> H Server B) :
  halts m -> halts (bind_h m k).
Proof.
  intros Hm s r s'. unfold bind_h.
  destruct (m s) as [[a | e] s1] eqn:Em; destruct (Hm _ _ _ Em) as (Ht & He & Hr).
  - now destruct (Hr a).
  - intros H; injection H as <- <-.
    split; [ exact Ht | ]. split; [ | discriminate ].
    intros c d Hc. injection Hc as ->. now apply (He c d).
Qed.

Lemma halts_raise_400 {A} (detail : string) :
  halts (A := A) (raise_h (HTTPException 400 detail)).
Proof.
  intros s r s' H. injection H as <- <-. split; [ reflexivity | ].
  split; [ | discriminate ]. intros c d Hc. now injection Hc as <- _.
Qed.

Section Upload.

Variable http_str : Z -> string -> string.
Variable suffix_lower : string -> string.
Variable write_temporary : string -> outcome string.
Variable unlink : string -> outcome unit.
Variable read_pdf read_docx read_doc read_txt : string -> outcome string.
Variable file_processor : FileProcessor.t.
Variable usuario : option string -> M (option string).
Variable strftime : Z -> string.
Variable makedirs : string -> outcome unit.
Variable write_binary : string -> string -> outcome unit.

Lemma logger_raises (level message : string) (s : Server) :
  exists s',
    Endpoints.logger level message s = (Raises (Plain (NameError "logger")), s') /\
    background_tasks s' = background_tasks s.
Proof.
  unfold Endpoints.logger, on_world, call. rewrite main_logger_raises.
  eexists. split; reflexivity.
Qed.

Lemma logger_halts (level message : string) :
  halts (Endpoints.logger level message).
Proof.
  intros s r s' H. destruct (logger_raises level message s) as (s1 & Hs1 & Ht).
  rewrite Hs1 in H. injection H as <- <-.
  split; [ exact Ht | ]. split; discriminate.
Qed.

Lemma halts_schedules_nothing {A} (m : H Server A) :
  halts m -> schedules_nothing m.
Proof. intros Hm s r s' H. destruct (Hm _ _ _ H) as (Ht & He & _). now split. Qed.

Lemma save_file_schedules_nothing (path conteudo : string) :
  schedules_nothing (save_file write_binary path conteudo).
Proof.
  intros s r s'. unfold save_file.
  destruct (write_binary path conteudo); intros H; injection H as <- <-;
    (split; [ reflexivity | discriminate ]).
Qed.

Lemma new_object_id_schedules_nothing : schedules_nothing new_object_id.
Proof. apply schedules_nothing_call. Qed.

Lemma usuario_object_id_schedules_nothing (usuario_id : option string) :
  schedules_nothing (usuario_object_id usuario_id).
Proof.
  destruct usuario_id; [ apply schedules_nothing_call | apply new_object_id_schedules_nothing ].
Qed.

(** The [try] around the text extraction turns every failure into a
    400. *)
Lemma extraction_schedules_nothing (arquivo : UploadFile) :
  schedules_nothing
    (try_h
       (on_world
          (FileProcessor.extract_text suffix_lower write_temporary unlink
             read_pdf read_docx read_doc read_txt file_processor
             (content arquivo) (filename arquivo) (content_type arquivo)))
       (fun e =>
          raise_h (HTTPException 400
                     ("Não foi possível extrair texto do arquivo: "
                        ++ exception_str http_str e)))).
Proof.
  intros s r s'. unfold try_h, on_world.
  destruct (FileProcessor.extract_text _ _ _ _ _ _ _ _ _ _ _ (world s))
    as [[texto | e] w'].
  - intros H; injection H as <- <-. split; [ reflexivity | discriminate ].
  - unfold raise_h. intros H; injection H as <- <-. split; [ reflexivity | ].
    intros c d Hc. now injection Hc as <- _.
Qed.

Lemma usuario_step_schedules_nothing (usuario_email : option string) :
  schedules_nothing
    (try_h (on_world (call (usuario usuario_email)))
       (fun e =>
          Endpoints.logger "ERROR"
            ("Erro ao processar usuário: " ++ exception_str http_str e) ;;;
          ret_h (Some "000000000000000000000000"))).
Proof.
  intros s r s'. unfold try_h.
  destruct (on_world (call (usuario usuario_email)) s) as [[u | e] s1] eqn:Eu;
    destruct (schedules_nothing_call _ _ _ _ Eu) as [Ht _].
  - intros H; injection H as <- <-. split; [ exact Ht | discriminate ].
  - intros H.
    assert (Hs : schedules_nothing
                   (Endpoints.logger "ERROR"
                      ("Erro ao processar usuário: " ++ exception_str http_str e) ;;;
                    ret_h (Some "000000000000000000000000"))).
    { apply halts_schedules_nothing, halts_first, logger_halts. }
    destruct (Hs _ _ _ H) as [Ht' He]. split; [ congruence | exact He ].
Qed.

(** X25: with [usar_agente_ia] set, which is its default, the upload
    endpoint never returns its answer.  A call ends in an
    [HTTPException(400)] or, because [main.py] uses a [logger] it never
    defines, in [NameError]: a file that passed every check is saved, the
    next statement is [logger.info], and the handler of the endpoint calls
    [logger.error].  No background task is scheduled, and no failure is
    answered 500. *)
Theorem upload_with_agent_never_returns (arquivo : UploadFile)
    (titulo usuario_email : option string) (s : Server) :
  let run :=
    analisar_redacao http_str suffix_lower write_temporary unlink
      read_pdf read_docx read_doc read_txt file_processor usuario strftime
      makedirs write_binary arquivo titulo usuario_email true s in
  ((exists detail, fst run = Raises (HTTPException 400 detail)) \/
   fst run = Raises (Plain (NameError "logger"))) /\
  background_tasks (snd run) = background_tasks s.
Proof.
  intros run. subst run. unfold analisar_redacao.
  match goal with
  | |- context [try_h ?body ?handler s] => assert (Hbody : halts body)
  end.
  { destruct (tipo_valido suffix_lower arquivo); cbn [negb];
      [ | apply halts_raise_400 ].
    apply halts_later; [ apply usuario_step_schedules_nothing | ].
    intros usuario_id.
    apply halts_later; [ apply extraction_schedules_nothing | ].
    intros texto.
    destruct (String.eqb texto "" || Nat.ltb (String.length (PyStr.strip texto)) 50);
      [ apply halts_raise_400 | ].
    apply halts_later; [ apply new_object_id_schedules_nothing | ].
    intros new_id.
    apply halts_later; [ apply schedules_nothing_call | ].
    intros id.
    apply halts_later; [ apply usuario_object_id_schedules_nothing | ].
    intros usuario_oid.
    apply halts_later.
    { destruct titulo as [[ | c t] | ];
        try apply schedules_nothing_ret;
        (apply schedules_nothing_bind; [ apply schedules_nothing_call | ];
         intros now; apply schedules_nothing_ret). }
    intros titulo_padrao.
    apply halts_later; [ apply schedules_nothing_call | ].
    intros now.
    apply halts_later; [ apply schedules_nothing_call | ].
    intros _.
    apply halts_first.
    apply halts_later; [ apply schedules_nothing_call | ].
    intros _.
    apply halts_later; [ apply save_file_schedules_nothing | ].
    intros _.
    apply halts_first, logger_halts. }
  unfold try_h.
  match goal with
  | |- context [match ?body s with _ => _ end] =>
      destruct (body s) as [[a | e] s1] eqn:Erun;
        destruct (Hbody _ _ _ Erun) as (Ht & He & Hr)
  end.
  - now destruct (Hr a).
  - destruct e as [e | msg | status_code detail].
    + unfold bind_h.
      destruct (logger_raises "ERROR"
                  ("Erro ao processar upload de redação: "
                     ++ exception_str http_str (Plain e)) s1) as (s2 & Hs2 & Ht2).
      rewrite Hs2. cbn [fst snd]. split; [ now right | congruence ].
    + unfold bind_h.
      destruct (logger_raises "ERROR"
                  ("Erro ao processar upload de redação: "
                     ++ exception_str http_str (ImportError msg)) s1)
        as (s2 & Hs2 & Ht2).
      rewrite Hs2. cbn [fst snd]. split; [ now right | congruence ].
    + rewrite (He status_code detail eq_refl). unfold raise_h. cbn [fst snd].
      split; [ left; now exists detail | exact Ht ].
Qed.

Lemma strip_empty_is_short (texto : string) :
  50 <= String.length (PyStr.strip texto) ->
  String.eqb texto "" || Nat.ltb (String.length (PyStr.strip texto)) 50 = false.
Proof.
  intros Hlen. apply orb_false_iff. split.
  - destruct texto; [ simpl in Hlen; lia | reflexivity ].
  - apply Nat.ltb_ge. exact Hlen.
Qed.

(** X26: an upload that passes every check is stored as a redação in
    status [processando] before anything else happens, and the status
    endpoint reports it so.  Without the agent the endpoint then answers
    with the new id and schedules exactly one task, with no file.  With
    the agent the file is saved and the call ends in [NameError] with no
    task scheduled: the redação stays [processando]. *)
Theorem accepted_upload_is_stored (arquivo : UploadFile)
    (titulo usuario_email : option string) (usar_agente_ia : bool)
    (s : Server) (usuario_id texto : string) (u : N) (w0 w1 : World) :
  tipo_valido suffix_lower arquivo = true ->
  usuario usuario_email (world s) = (Return (Some usuario_id), w0) ->
  ObjectId.of_str usuario_id = Return u ->
  FileProcessor.extract_text suffix_lower write_temporary unlink
    read_pdf read_docx read_doc read_txt file_processor
    (content arquivo) (filename arquivo) (content_type arquivo) w0
  = (Returns texto, w1) ->
  50 <= String.length (PyStr.strip texto) ->
  (next_oid w1 < 16 ^ 24)%N ->
  collection_down (svc w1) Redacoes = false ->
  ~ In (next_oid w1) (map r_id (redacoes (db w1))) ->
  makedirs "data/redacoes" = Return tt ->
  (forall path, write_binary path (content arquivo) = Return tt) ->
  let redacao_id := ObjectId.to_str (next_oid w1) in
  let run :=
    analisar_redacao http_str suffix_lower write_temporary unlink
      read_pdf read_docx read_doc read_txt file_processor usuario strftime
      makedirs write_binary arquivo titulo usuario_email usar_agente_ia s in
  (exists redacao,
     find (has_id (next_oid w1)) (redacoes (db (world (snd run)))) = Some redacao /\
     r_status redacao = "processando" /\
     r_texto_extraido redacao = texto /\
     r_usuario_id redacao = u) /\
  (exists response,
     fst (verificar_status_redacao http_str redacao_id (world (snd run)))
     = Returns response /\
     sr_status response = "processando" /\
     sr_analise_disponivel response = false) /\
  (usar_agente_ia = false ->
   fst run = Returns {| ac_status := "processando";
                        ac_redacao_id := redacao_id;
                        ac_mensagem := "Redação recebida e está sendo processada" |} /\
   background_tasks (snd run)
   = background_tasks s ++
     [ {| task_redacao_id := redacao_id; task_texto := texto;
          task_titulo := titulo; task_usuario_id := Some usuario_id;
          task_file_path := None |} ] /\
   files (snd run) = files s) /\
  (usar_agente_ia = true ->
   fst run = Raises (Plain (NameError "logger")) /\
   background_tasks (snd run) = background_tasks s /\
   files (snd run)
   = files s ++
     [ (("data/redacoes/" ++ redacao_id ++ "_"
           ++ format_optional (filename arquivo))%string,
        content arquivo) ]).
Proof.
  intros Hvalid Husuario Hu Htexto Hlen Hoid Hup Hnew Hdirs Hwrite redacao_id run.
  assert (Hshort := strip_empty_is_short texto Hlen).
  assert (Hid := ObjectIdFacts.of_str_to_str (next_oid w1) Hoid).
  destruct run as [r s'] eqn:Hrun. subst run.
  unfold analisar_redacao in Hrun. rewrite Hvalid in Hrun. cbn [negb] in Hrun.
  cbv beta iota delta [bind_h ret_h raise_h try_h call on_world new_object_id
                       usuario_object_id add_task save_file Endpoints.logger
                       lift bind gets modify ret datetime_now] in Hrun.
  cbn [world background_tasks files] in Hrun.
  rewrite Husuario in Hrun. cbv beta iota in Hrun.
  cbn [world background_tasks files] in Hrun.
  rewrite Htexto in Hrun. cbv beta iota in Hrun. rewrite Hshort in Hrun.
  cbn [world background_tasks files] in Hrun.
  world in Hrun. rewrite Hid in Hrun. cbv beta iota in Hrun.
  cbn [world background_tasks files] in Hrun. rewrite Hu in Hrun.
  cbv beta iota in Hrun. cbn [world background_tasks files] in Hrun.
  world in Hrun.
  assert (Hstored : forall title files' tasks',
    let document :=
      {| r_id := next_oid w1; r_usuario_id := u; r_titulo := Some title;
         r_status := "processando"; r_data_envio := clock w1;
         r_data_conclusao := None; r_texto_extraido := texto;
         r_mensagem_erro := None; r_analise_disponivel := None |} in
    forall l w2,
      db w2 = with_redacoes (redacoes (db w1) ++ [document]) (db w1) ->
      svc w2 = svc w1 ->
      (exists redacao,
         find (has_id (next_oid w1))
           (redacoes (db (world {| world := w2; background_tasks := tasks';
                                   files := files' |}))) = Some redacao /\
         r_status redacao = "processando" /\
         r_texto_extraido redacao = texto /\
         r_usuario_id redacao = u) /\
      (exists response,
         fst (verificar_status_redacao http_str redacao_id
                (world {| world := w2; background_tasks := tasks';
                          files := files' |}))
         = Returns response /\
         sr_status response = "processando" /\
         sr_analise_disponivel response = false) /\ l = tt).
  { intros title files' tasks' document l w2 Hdb Hsvc. cbn [world].
    assert (Hfind : find (has_id (next_oid w1)) (redacoes (db w2)) = Some document).
    { rewrite Hdb. world.
      exact (RepositoryFacts.find_snoc_new (next_oid w1) _ document Hnew eq_refl). }
    split; [ exists document; now repeat split | ].
    split; [ | now destruct l ].
    destruct (verificar_status_found http_str redacao_id (next_oid w1) document w2)
      as (response & w3 & Hresp & _ & _ & Hs & _ & _ & _ & Ha);
      [ exact Hid | now rewrite Hsvc | exact Hfind | ].
    exists response. rewrite Hresp. split; [ reflexivity | ].
    split; [ exact Hs | ]. rewrite Ha. reflexivity. }
  assert (Hinsert : forall title,
    insert_one (Some (next_oid w1))
      {| r_id := next_oid w1; r_usuario_id := u; r_titulo := Some title;
         r_status := "processando"; r_data_envio := clock w1;
         r_data_conclusao := None; r_texto_extraido := texto;
         r_mensagem_erro := None; r_analise_disponivel := None |}
      (with_next_oid (N.succ (next_oid w1)) w1)
    = (Return (Some (ObjectId.to_str (next_oid w1))),
       with_db
         (with_redacoes
            (redacoes (db w1) ++
               [ {| r_id := next_oid w1; r_usuario_id := u; r_titulo := Some title;
                    r_status := "processando"; r_data_envio := clock w1;
                    r_data_conclusao := None; r_texto_extraido := texto;
                    r_mensagem_erro := None; r_analise_disponivel := None |} ])
            (db w1))
         (with_next_oid (N.succ (next_oid w1)) w1))).
  { intros title.
    rewrite RepositoryFacts.insert_one_new; [ reflexivity | exact Hup | exact Hnew ]. }
  set (title := match titulo with
                | Some (String c t) => String c t
                | _ => ("Redação " ++ strftime (clock w1))%string
                end).
  assert (Hrun' :
    (let (r0, s'0) :=
       (if usar_agente_ia
        then
          (Raises (Plain (NameError "logger")),
           {| world := with_db
                (with_redacoes
                   (redacoes (db w1) ++
                      [ {| r_id := next_oid w1; r_usuario_id := u;
                           r_titulo := Some title;
                           r_status := "processando"; r_data_envio := clock w1;
                           r_data_conclusao := None; r_texto_extraido := texto;
                           r_mensagem_erro := None;
                           r_analise_disponivel := None |} ])
                   (db w1))
                (with_next_oid (N.succ (next_oid w1)) w1);
              background_tasks := background_tasks s;
              files := files s ++
                [ (("data/redacoes" ++ "/" ++ ObjectId.to_str (next_oid w1)
                      ++ "_" ++ format_optional (filename arquivo))%string,
                   content arquivo) ] |})
        else
          (Returns {| ac_status := "processando";
                      ac_redacao_id := ObjectId.to_str (next_oid w1);
                      ac_mensagem := "Redação recebida e está sendo processada" |},
           {| world := with_db
                (with_redacoes
                   (redacoes (db w1) ++
                      [ {| r_id := next_oid w1; r_usuario_id := u;
                           r_titulo := Some title;
                           r_status := "processando"; r_data_envio := clock w1;
                           r_data_conclusao := None; r_texto_extraido := texto;
                           r_mensagem_erro := None;
                           r_analise_disponivel := None |} ])
                   (db w1))
                (with_next_oid (N.succ (next_oid w1)) w1);
              background_tasks := background_tasks s ++
                [ {| task_redacao_id := ObjectId.to_str (next_oid w1);
                     task_texto := texto; task_titulo := titulo;
                     task_usuario_id := Some usuario_id;
                     task_file_path := None |} ];
              files := files s |})) in
     (r0, s'0)) = (r, s')).
  { rewrite <- Hrun. subst title.
    destruct titulo as [[ | c t] | ]; cbv beta iota;
      cbn [world background_tasks files]; world; rewrite Hinsert;
      cbv beta iota; cbn [world background_tasks files];
      (destruct usar_agente_ia;
       [ rewrite Hdirs; cbv beta iota; cbn [world background_tasks files];
         rewrite Hwrite; cbv beta iota; cbn [world background_tasks files];
         rewrite main_logger_raises; cbv beta iota;
         cbn [world background_tasks files];
         rewrite main_logger_raises; reflexivity
       | reflexivity ]). }
  clear Hrun.
  destruct usar_agente_ia; injection Hrun' as <- <-; cbn [fst snd];
    match goal with
    | |- context [world {| world := ?w2; background_tasks := ?t; files := ?f |}] =>
        destruct (Hstored title f t tt w2 eq_refl eq_refl) as (H1 & H2 & _)
    end;
    (split; [ exact H1 | ]); (split; [ exact H2 | ]).
  - split; [ discriminate | ]. intros _. now repeat split.
  - split; [ intros _; now repeat split | discriminate ].
Qed.

(** X28: when the collection of the redações cannot be reached, an upload
    that passes every check is answered as one that was received, with an
    id and a task scheduled for it, and no redação is stored: the endpoint
    does not look at what [insert_one] returned. *)
Theorem upload_is_answered_without_the_store (arquivo : UploadFile)
    (titulo usuario_email : option string)
    (s : Server) (usuario_id texto : string) (u : N) (w0 w1 : World) :
  tipo_valido suffix_lower arquivo = true ->
  usuario usuario_email (world s) = (Return (Some usuario_id), w0) ->
  ObjectId.of_str usuario_id = Return u ->
  FileProcessor.extract_text suffix_lower write_temporary unlink
    read_pdf read_docx read_doc read_txt file_processor
    (content arquivo) (filename arquivo) (content_type arquivo) w0
  = (Returns texto, w1) ->
  50 <= String.length (PyStr.strip texto) ->
  (next_oid w1 < 16 ^ 24)%N ->
  collection_down (svc w1) Redacoes = true ->
  let redacao_id := ObjectId.to_str (next_oid w1) in
  let run :=
    analisar_redacao http_str suffix_lower write_temporary unlink
      read_pdf read_docx read_doc read_txt file_processor usuario strftime
      makedirs write_binary arquivo titulo usuario_email false s in
  fst run = Returns {| ac_status := "processando";
                       ac_redacao_id := redacao_id;
                       ac_mensagem := "Redação recebida e está sendo processada" |} /\
  background_tasks (snd run)
  = background_tasks s ++
    [ {| task_redacao_id := redacao_id; task_texto := texto;
         task_titulo := titulo; task_usuario_id := Some usuario_id;
         task_file_path := None |} ] /\
  redacoes (db (world (snd run))) = redacoes (db w1).
Proof.
  intros Hvalid Husuario Hu Htexto Hlen Hoid Hdown redacao_id run.
  assert (Hshort := strip_empty_is_short texto Hlen).
  assert (Hid := ObjectIdFacts.of_str_to_str (next_oid w1) Hoid).
  destruct run as [r s'] eqn:Hrun. subst run.
  unfold analisar_redacao in Hrun. rewrite Hvalid in Hrun. cbn [negb] in Hrun.
  cbv beta iota delta [bind_h ret_h raise_h try_h call on_world new_object_id
                       usuario_object_id add_task save_file Endpoints.logger
                       lift bind gets modify ret datetime_now] in Hrun.
  cbn [world background_tasks files] in Hrun.
  rewrite Husuario in Hrun. cbv beta iota in Hrun.
  cbn [world background_tasks files] in Hrun.
  rewrite Htexto in Hrun. cbv beta iota in Hrun. rewrite Hshort in Hrun.
  cbn [world background_tasks files] in Hrun.
  world in Hrun. rewrite Hid in Hrun. cbv beta iota in Hrun.
  cbn [world background_tasks files] in Hrun. rewrite Hu in Hrun.
  cbv beta iota in Hrun. cbn [world background_tasks files] in Hrun.
  world in Hrun.
  destruct titulo as [[ | c t] | ]; cbv beta iota in Hrun;
    cbn [world background_tasks files] in Hrun; world in Hrun;
    match type of Hrun with
    | context [insert_one ?i ?d ?w] =>
        destruct (RepositoryFacts.insert_one_unreachable i d w Hdown) as [Hr Hdb];
        destruct (insert_one i d w) as [ri wi]
    end;
    cbn [fst snd] in Hr, Hdb; subst ri; cbv beta iota in Hrun;
    cbn [world background_tasks files] in Hrun;
    injection Hrun as <- <-; cbn [fst snd world background_tasks];
    (split; [ reflexivity | ]); (split; [ reflexivity | ]);
    rewrite Hdb; reflexivity.
Qed.

Lemma same_trace_refl (s : Server) : same_trace s s.
Proof. now repeat split. Qed.

Lemma same_trace_trans (s1 s2 s3 : Server) :
  same_trace s1 s2 -> same_trace s2 s3 -> same_trace s1 s3.
Proof.
  intros (H1 & H2 & H3) (H4 & H5 & H6). repeat split; congruence.
Qed.

Lemma traceless_on_world {A} (m : H World A) :
  (forall w, redacoes (db (snd (m w))) = redacoes (db w)) ->
  traceless (on_world m).
Proof.
  intros Hm s r s'. unfold on_world. specialize (Hm (world s)).
  destruct (m (world s)) as [r1 w1]. intros H; injection H as <- <-.
  repeat split. exact Hm.
Qed.

Lemma traceless_bind {A B} (m : H Server A) (k : A -> H Server B) :
  traceless m -> (forall a, traceless (k a)) -> traceless (bind_h m k).
Proof.
  intros Hm Hk s r s'. unfold bind_h.
  destruct (m s) as [[a | e] s1] eqn:Em.
  - intros H. exact (same_trace_trans _ _ _ (Hm _ _ _ Em) (Hk a _ _ _ H)).
  - intros H; injection H as <- <-. exact (Hm _ _ _ Em).
Qed.

Lemma traceless_try {A} (body : H Server A) (handler : exception -> H Server A) :
  traceless body -> (forall e, traceless (handler e)) ->
  traceless (try_h body handler).
Proof.
  intros Hb Hh s r s'. unfold try_h.
  destruct (body s) as [[a | e] s1] eqn:Eb.
  - intros H; injection H as <- <-. exact (Hb _ _ _ Eb).
  - intros H. exact (same_trace_trans _ _ _ (Hb _ _ _ Eb) (Hh e _ _ _ H)).
Qed.

Lemma logger_traceless (level message : string) :
  traceless (Endpoints.logger level message).
Proof. apply traceless_on_world. reflexivity. Qed.

(** The file processor writes to the log only. *)
Lemma extract_text_keeps_db (file_content : string)
    (file_name content_type : option string) (w : World) :
  db (snd (FileProcessor.extract_text suffix_lower write_temporary unlink
             read_pdf read_docx read_doc read_txt file_processor
             file_content file_name content_type w)) = db w.
Proof.
  unfold FileProcessor.extract_text.
  destruct (String.eqb file_content ""); [ reflexivity | ].
  unfold FileProcessor.finally, FileProcessor._extract_from_pdf,
    FileProcessor._extract_from_docx, FileProcessor._extract_from_doc,
    FileProcessor._extract_from_txt, FileProcessor.extract_with,
    FileProcessor.logger, emit, modify, lift.
  run_http.
  destruct (FileProcessor._determine_file_type suffix_lower file_name content_type)
    as [file_type | e]; [ | reflexivity ].
  destruct (write_temporary file_content) as [temp_path | e]; [ | reflexivity ].
  destruct (unlink temp_path) as [[] | e];
    repeat match goal with
           | |- context [if ?b then _ else _] => destruct b
           | |- context [match ?o with Return _ => _ | Raise _ => _ end] =>
               destruct o
           end;
    reflexivity.
Qed.

Lemma extraction_traceless (arquivo : UploadFile) :
  traceless
    (try_h
       (on_world
          (FileProcessor.extract_text suffix_lower write_temporary unlink
             read_pdf read_docx read_doc read_txt file_processor
             (content arquivo) (filename arquivo) (content_type arquivo)))
       (fun e =>
          raise_h (HTTPException 400
                     ("Não foi possível extrair texto do arquivo: "
                        ++ exception_str http_str e)))).
Proof.
  apply traceless_try.
  - apply traceless_on_world. intros w. now rewrite extract_text_keeps_db.
  - intros e s r s' H. injection H as <- <-. apply same_trace_refl.
Qed.

Lemma usuario_step_traceless (usuario_email : option string) :
  (forall email w, redacoes (db (snd (usuario email w))) = redacoes (db w)) ->
  traceless
    (try_h (on_world (call (usuario usuario_email)))
       (fun e =>
          Endpoints.logger "ERROR"
            ("Erro ao processar usuário: " ++ exception_str http_str e) ;;;
          ret_h (Some "000000000000000000000000"))).
Proof.
  intros Husuario. apply traceless_try.
  - apply traceless_on_world. intros w. unfold call.
    specialize (Husuario usuario_email w).
    destruct (usuario usuario_email w) as [[u | e] w1]; exact Husuario.
  - intros e. apply traceless_bind; [ apply logger_traceless | ].
    intros _ s r s' H. injection H as <- <-. apply same_trace_refl.
Qed.

Lemma raises_no_http_ret {A} (a : A) : raises_no_http (ret_h a).
Proof. intros s s' c d H. discriminate. Qed.

Lemma raises_no_http_call {A} (m : M A) : raises_no_http (on_world (call m)).
Proof.
  intros s s' c d. unfold on_world, call.
  destruct (m (world s)) as [[a | e] w']; discriminate.
Qed.

Lemma raises_no_http_bind {A B} (m : H Server A) (k : A -> H Server B) :
  raises_no_http m -> (forall a, raises_no_http (k a)) ->
  raises_no_http (bind_h m k).
Proof.
  intros Hm Hk s s' c d. unfold bind_h.
  destruct (m s) as [[a | e] s1] eqn:Em.
  - apply Hk.
  - intros H; injection H as -> ->. exact (Hm _ _ _ _ Em).
Qed.

Lemma logger_raises_no_http (level message : string) :
  raises_no_http (Endpoints.logger level message).
Proof. apply raises_no_http_call. Qed.

Lemma usuario_object_id_raises_no_http (usuario_id : option string) :
  raises_no_http (usuario_object_id usuario_id).
Proof. destruct usuario_id; apply raises_no_http_call. Qed.

Lemma save_file_raises_no_http (path conteudo : string) :
  raises_no_http (save_file write_binary path conteudo).
Proof.
  intros s s' c d. unfold save_file.
  destruct (write_binary path conteudo); discriminate.
Qed.

Lemma rejects_cleanly_raise_400 {A} (detail : string) :
  rejects_cleanly (A := A) (raise_h (HTTPException 400 detail)).
Proof.
  intros s s' c d H. injection H as <- _ <-.
  split; [ reflexivity | apply same_trace_refl ].
Qed.

Lemma rejects_cleanly_later {A B} (m : H Server A) (k : A -> H Server B) :
  traceless m -> schedules_nothing m -> (forall a, rejects_cleanly (k a)) ->
  rejects_cleanly (bind_h m k).
Proof.
  intros Ht Hs Hk s s' c d. unfold bind_h.
  destruct (m s) as [[a | e] s1] eqn:Em.
  - intros H. destruct (Hk a _ _ _ _ H) as [Hc Hsame].
    split; [ exact Hc | ].
    exact (same_trace_trans _ _ _ (Ht _ _ _ Em) Hsame).
  - intros H; injection H as -> ->.
    split; [ | exact (Ht _ _ _ Em) ].
    destruct (Hs _ _ _ Em) as [_ He]. exact (He c d eq_refl).
Qed.

Lemma raises_no_http_rejects_cleanly {A} (m : H Server A) :
  raises_no_http m -> rejects_cleanly m.
Proof. intros Hm s s' c d H. now destruct (Hm _ _ _ _ H). Qed.

(** X27: the only [HTTPException] the upload endpoint raises is a 400,
    and when it does the upload has left nothing behind: no redação was
    stored, no file saved and no task scheduled.  The endpoint rejects
    before it writes. *)
Theorem rejected_upload_leaves_no_trace (arquivo : UploadFile)
    (titulo usuario_email : option string) (usar_agente_ia : bool) (s : Server)
    (status_code : Z) (detail : string) :
  (forall email w, redacoes (db (snd (usuario email w))) = redacoes (db w)) ->
  let run :=
    analisar_redacao http_str suffix_lower write_temporary unlink
      read_pdf read_docx read_doc read_txt file_processor usuario strftime
      makedirs write_binary arquivo titulo usuario_email usar_agente_ia s in
  fst run = Raises (HTTPException status_code detail) ->
  status_code = 400%Z /\
  redacoes (db (world (snd run))) = redacoes (db (world s)) /\
  files (snd run) = files s /\
  background_tasks (snd run) = background_tasks s.
Proof.
  intros Husuario run. subst run. unfold analisar_redacao.
  match goal with
  | |- context [try_h ?body ?handler s] => assert (Hbody : rejects_cleanly body)
  end.
  { destruct (tipo_valido suffix_lower arquivo); cbn [negb];
      [ | apply rejects_cleanly_raise_400 ].
    apply rejects_cleanly_later;
      [ now apply usuario_step_traceless | apply usuario_step_schedules_nothing | ].
    intros usuario_id.
    apply rejects_cleanly_later;
      [ apply extraction_traceless | apply extraction_schedules_nothing | ].
    intros texto.
    destruct (String.eqb texto "" || Nat.ltb (String.length (PyStr.strip texto)) 50);
      [ apply rejects_cleanly_raise_400 | ].
    apply raises_no_http_rejects_cleanly.
    apply raises_no_http_bind; [ apply raises_no_http_call | ].
    intros new_id.
    apply raises_no_http_bind; [ apply raises_no_http_call | ].
    intros id.
    apply raises_no_http_bind; [ apply usuario_object_id_raises_no_http | ].
    intros usuario_oid.
    apply raises_no_http_bind.
    { destruct titulo as [[ | c t] | ];
        try apply raises_no_http_ret;
        (apply raises_no_http_bind; [ apply raises_no_http_call | ];
         intros now; apply raises_no_http_ret). }
    intros titulo_padrao.
    apply raises_no_http_bind; [ apply raises_no_http_call | ].
    intros now.
    apply raises_no_http_bind; [ apply raises_no_http_call | ].
    intros _.
    apply raises_no_http_bind.
    { destruct usar_agente_ia; [ | apply raises_no_http_ret ].
      apply raises_no_http_bind; [ apply raises_no_http_call | ].
      intros _.
      apply raises_no_http_bind; [ apply save_file_raises_no_http | ].
      intros _.
      apply raises_no_http_bind; [ apply logger_raises_no_http | ].
      intros _. apply raises_no_http_ret. }
    intros arquivo_salvo.
    apply raises_no_http_bind; [ | intros _; apply raises_no_http_ret ].
    intros s0 s1 c d H. discriminate. }
  unfold try_h.
  match goal with
  | |- context [match ?body s with _ => _ end] =>
      destruct (body s) as [[a | e] s1] eqn:Erun
  end.
  - cbn [fst]. discriminate.
  - destruct e as [e | msg | c d].
    + unfold bind_h.
      destruct (logger_raises "ERROR"
                  ("Erro ao processar upload de redação: "
                     ++ exception_str http_str (Plain e)) s1) as (s2 & Hs2 & _).
      rewrite Hs2. cbn [fst]. discriminate.
    + unfold bind_h.
      destruct (logger_raises "ERROR"
                  ("Erro ao processar upload de redação: "
                     ++ exception_str http_str (ImportError msg)) s1)
        as (s2 & Hs2 & _).
      rewrite Hs2. cbn [fst]. discriminate.
    + unfold raise_h. cbn [fst snd]. intros H. injection H as -> ->.
      exact (Hbody _ _ _ _ Erun).
Qed.

End Upload.

(** A text file of 50 characters, uploaded with the agent. *)
Lemma accepted_upload_is_stored_witness :
  let s := server_of (world_of (db_with_redacao 1 "concluida" "texto") plain_services) in
  let run := analisar_exemplo upload_txt true s in
  fst run = Raises (Plain (NameError "logger")) /\
  background_tasks (snd run) = [] /\
  exists response,
    fst (verificar_status_redacao http_str (ObjectId.to_str 100) (world (snd run)))
    = Returns response /\
    sr_status response = "processando".
Proof.
  intros s run.
  destruct (accepted_upload_is_stored http_str suffix_of_examples
              (fun _ => Return "/tmp/tmp0") (fun _ => Return tt)
              (fun _ => Return PipelineProps.texto_50)
              (fun _ => Return PipelineProps.texto_50)
              (fun _ => Return PipelineProps.texto_50)
              (fun _ => Return PipelineProps.texto_50)
              all_libraries
              (fun _ => ret (Some (ObjectId.to_str 9)))
              (fun _ => "03/11/2026")
              (fun _ => Return tt) (fun _ _ => Return tt)
              upload_txt None (Some "aluna@elysia.com") true s
              (ObjectId.to_str 9) PipelineProps.texto_50 9 (world s) (world s))
    as (_ & (response & Hresp & Hstatus & _) & _ & Hagent);
    try reflexivity.
  - simpl. intuition discriminate.
  - destruct (Hagent eq_refl) as (Hrun & Htasks & _).
    split; [ exact Hrun | ]. split; [ exact Htasks | ].
    exists response. split; [ exact Hresp | exact Hstatus ].
Defined.

(** A text file of 50 characters, uploaded without the agent while the
    redações cannot be reached. *)
Lemma upload_is_answered_without_the_store_witness :
  let s := server_of (world_of (db_with_redacao 1 "concluida" "texto")
                        services_without_redacoes) in
  let run := analisar_exemplo upload_txt false s in
  fst run = Returns {| ac_status := "processando";
                       ac_redacao_id := ObjectId.to_str 100;
                       ac_mensagem := "Redação recebida e está sendo processada" |} /\
  List.length (background_tasks (snd run)) = 1 /\
  redacoes (db (world (snd run))) = [redacao_doc 1 "concluida" "texto"].
Proof.
  intros s run.
  destruct (upload_is_answered_without_the_store http_str suffix_of_examples
              (fun _ => Return "/tmp/tmp0") (fun _ => Return tt)
              (fun _ => Return PipelineProps.texto_50)
              (fun _ => Return PipelineProps.texto_50)
              (fun _ => Return PipelineProps.texto_50)
              (fun _ => Return PipelineProps.texto_50)
              all_libraries
              (fun _ => ret (Some (ObjectId.to_str 9)))
              (fun _ => "03/11/2026")
              (fun _ => Return tt) (fun _ _ => Return tt)
              upload_txt None (Some "aluna@elysia.com") s
              (ObjectId.to_str 9) PipelineProps.texto_50 9 (world s) (world s))
    as (Hrun & Htasks & Hdb);
    try reflexivity.
  split; [ exact Hrun | ]. split; [ | exact Hdb ].
  exact (f_equal (@List.length Task) Htasks).
Defined.

(** A text file of twelve characters: the answer is a 400, and the store
    holds the one redação it held. *)
Lemma rejected_upload_leaves_no_trace_witness :
  let s := server_of (world_of (db_with_redacao 1 "concluida" "texto") plain_services) in
  let run :=
    analisar_redacao http_str suffix_of_examples
      (fun _ => Return "/tmp/tmp0") (fun _ => Return tt)
      (fun _ => Return "") (fun _ => Return "") (fun _ => Return "")
      (fun _ => Return "Texto curto.")
      all_libraries
      (fun _ => ret (Some (ObjectId.to_str 9)))
      (fun _ => "03/11/2026")
      (fun _ => Return tt) (fun _ _ => Return tt)
      upload_curto None (Some "aluna@elysia.com") true s in
  fst run = Raises (HTTPException 400 "Texto extraído muito curto ou vazio") /\
  redacoes (db (world (snd run))) = [redacao_doc 1 "concluida" "texto"] /\
  files (snd run) = [] /\
  background_tasks (snd run) = [].
Proof.
  intros s run.
  assert (Hrun : fst run
                 = Raises (HTTPException 400 "Texto extraído muito curto ou vazio"))
    by reflexivity.
  split; [ exact Hrun | ].
  refine (proj2 (rejected_upload_leaves_no_trace http_str suffix_of_examples
            (fun _ => Return "/tmp/tmp0") (fun _ => Return tt)
            (fun _ => Return "") (fun _ => Return "") (fun _ => Return "")
            (fun _ => Return "Texto curto.")
            all_libraries
            (fun _ => ret (Some (ObjectId.to_str 9)))
            (fun _ => "03/11/2026")
            (fun _ => Return tt) (fun _ _ => Return tt)
            upload_curto None (Some "aluna@elysia.com") true s
            400 "Texto extraído muito curto ou vazio" _ Hrun)).
  intros email w. reflexivity.
Defined.

End EndpointFacts.

(** ** From the upload to the pipeline *)

Module UploadedTextFacts.

Import RAGManager Repositories Endpoints Props StatusProps PipelineProps
       EndpointProps.

(** C5 (the code at the failing input): a text file of 50 characters,
    uploaded without the agent, is stored as redação 100 and handed to
    the pipeline as a background task.  The run of that task does not
    get past the length guard, it does not get to it: it ends with
    [NameError] at the statement before, no embedding or scoring request
    was sent, nothing was stored, and the redação keeps the status
    [processando] without a [mensagem_erro].  So it is for every text of
    50 characters or more, in every store. *)
Theorem accepted_text_stops_before_the_guard (rag_manager : t)
    (update : string -> list RedacaoField -> M bool)
    (create : collection -> dict -> M unit)
    (find_similar_redacoes : list float -> Z -> M (list dict)) :
  let upload :=
    analisar_exemplo upload_txt false (server_of (world_of empty_db plain_services)) in
  let w := world (snd upload) in
  let run :=
    Main.processar_redacao_async rag_manager update create find_similar_redacoes
      (ObjectId.to_str 100) texto_50 None (ObjectId.to_str 9) None w in
  (background_tasks (snd upload)
   = [ {| task_redacao_id := ObjectId.to_str 100;
          task_texto := texto_50;
          task_titulo := None;
          task_usuario_id := Some (ObjectId.to_str 9);
          task_file_path := None |} ] /\
   String.length texto_50 = 50 /\
   status_of 100 w = Some "processando") /\
  (fst run = Raise (NameError "logger") /\
   embedding_requests (snd run) = [] /\
   chat_requests (snd run) = [] /\
   embeddings (db (snd run)) = [] /\
   analises (db (snd run)) = [] /\
   status_of 100 (snd run) = Some "processando" /\
   mensagem_erro_of 100 (snd run) = Some None) /\
  (forall redacao_id texto titulo usuario_id file_path w0,
     50 <= String.length texto ->
     Main.processar_redacao_async rag_manager update create find_similar_redacoes
       redacao_id texto titulo usuario_id file_path w0
     = (Raise (NameError "logger"), w0)).
Proof.
  intros upload w run.
  split; [ repeat split | ].
  split; [ repeat split | ].
  intros redacao_id texto titulo usuario_id file_path w0 _.
  apply PipelineFacts.processar_redacao_async_raises.
Qed.

End UploadedTextFacts.
